(** * Logging configuration of the terminal: a shallow embedding

    Source: [gamestonk_terminal/loggers.py].  The module configures the
    logging handlers, renders every record on one line behind a fixed prefix,
    keeps a per-installation identity in a sentinel file and uploads the
    log files of earlier sessions before archiving them locally.

    Python values are embedded as follows: [str] is [string] (a sequence of
    bytes; the characters the code tests for are all ASCII), [int] is [Z],
    [None]-or-value is [option], a [dict] is an association list in insertion
    order, a [pathlib.Path] is the string [str(path)] gives.  Code that
    touches the file system, the logging tree or the network threads an
    explicit [world]; an exception is a value of [exn]. *)

From Stdlib Require Import String Ascii List ZArith NArith Bool Lia.
From Stdlib Require Import DecimalString.
Import ListNotations.
Local Open Scope string_scope.
Local Open Scope Z_scope.

Set Implicit Arguments.

(** ** Python strings *)

Module Py.

Definition LF : ascii := "010"%char.
Definition TAB : ascii := "009"%char.
Definition CR : ascii := "013"%char.
Definition SQUOTE : ascii := "039"%char.
Definition DQUOTE : ascii := "034"%char.
Definition BACKSLASH : ascii := "092"%char.
Definition BACKTICK : ascii := "096"%char.

Definition chr (c : ascii) : string := String c EmptyString.

(** [s.replace(old, new)] for a one-character [old], the only form the
    module uses. *)
Fixpoint replace (old : ascii) (new : string) (s : string) : string :=
  match s with
  | EmptyString => EmptyString
  | String c rest =>
      if Ascii.eqb c old then new ++ replace old new rest
      else String c (replace old new rest)
  end.

(** [c in s] for a character. *)
Fixpoint contains (c : ascii) (s : string) : bool :=
  match s with
  | EmptyString => false
  | String d rest => Ascii.eqb d c || contains c rest
  end.

(** [s[-1:]]: the last character, if any. *)
Fixpoint last_char (s : string) : option ascii :=
  match s with
  | EmptyString => None
  | String c EmptyString => Some c
  | String _ rest => last_char rest
  end.

(** Truth value of a [str]-or-[None]: [None] and the empty string are false. *)
Definition truthy (o : option string) : bool :=
  match o with
  | Some (String _ _) => true
  | _ => false
  end.

(** [str(n)] for an [int]. *)
Definition str_int (n : Z) : string := NilZero.string_of_int (Z.to_int n).

(** Characters [str.rstrip()] and [str.strip()] remove: the ASCII white
    space (tab, line feed, vertical tab, form feed, carriage return, the
    four separators 28-31 and the space). *)
Definition isspace (c : ascii) : bool :=
  let n := N_of_ascii c in
  ((9 <=? n) && (n <=? 13) || (28 <=? n) && (n <=? 32))%N.

(** [s.rstrip()]. *)
Fixpoint rstrip (s : string) : string :=
  match s with
  | EmptyString => EmptyString
  | String c rest =>
      match rstrip rest with
      | EmptyString => if isspace c then EmptyString else chr c
      | r => String c r
      end
  end.

Definition hex_digit (n : N) : ascii :=
  if (n <? 10)%N then ascii_of_N (48 + n) else ascii_of_N (87 + n).

(** One character of [repr(s)] under the quote [q] that [repr] chose. *)
Definition repr_char (q c : ascii) : string :=
  let n := N_of_ascii c in
  if Ascii.eqb c BACKSLASH then String BACKSLASH (chr BACKSLASH)
  else if Ascii.eqb c q then String BACKSLASH (chr q)
  else if Ascii.eqb c LF then String BACKSLASH "n"
  else if Ascii.eqb c CR then String BACKSLASH "r"
  else if Ascii.eqb c TAB then String BACKSLASH "t"
  else if ((n <? 32) || (n =? 127))%N
       then String BACKSLASH (String "x" (String (hex_digit (n / 16)) (chr (hex_digit (n mod 16)))))
  else chr c.

Fixpoint repr_body (q : ascii) (s : string) : string :=
  match s with
  | EmptyString => EmptyString
  | String c rest => repr_char q c ++ repr_body q rest
  end.

(** [repr(s)] for a [str]: single quotes unless the text has a single and
    no double quote; the backslash, the chosen quote and the control
    characters are escaped.  Bytes above 127 stand for printable
    characters, which [repr] leaves alone. *)
Definition repr (s : string) : string :=
  let q := if contains SQUOTE s && negb (contains DQUOTE s) then DQUOTE else SQUOTE in
  String q (repr_body q s ++ chr q).

(** A [dict] with [str] keys, in insertion order. *)
Definition dict (V : Type) := list (string * V).

Fixpoint dict_get {V} (k : string) (d : dict V) : option V :=
  match d with
  | [] => None
  | (k', v) :: rest => if String.eqb k' k then Some v else dict_get k rest
  end.

(** [d[k] = v]: an existing key keeps its place. *)
Fixpoint dict_set {V} (k : string) (v : V) (d : dict V) : dict V :=
  match d with
  | [] => [(k, v)]
  | (k', v') :: rest =>
      if String.eqb k' k then (k, v) :: rest else (k', v') :: dict_set k v rest
  end.

(** [fmt % d] for a format made of text and [%(key)s] fields ([%%] is a
    percent sign).  [None] stands for the [KeyError] of a missing key and
    the [ValueError] of a malformed format. *)
Inductive fmt_state : Type :=
| InText
| AfterPercent
| InKey (acc : string)
| AfterKey (key : string).

Fixpoint percent_from (st : fmt_state) (fmt : string) (d : dict string) : option string :=
  match fmt with
  | EmptyString => match st with InText => Some EmptyString | _ => None end
  | String c rest =>
      match st with
      | InText =>
          if Ascii.eqb c "%" then percent_from AfterPercent rest d
          else option_map (String c) (percent_from InText rest d)
      | AfterPercent =>
          if Ascii.eqb c "(" then percent_from (InKey EmptyString) rest d
          else if Ascii.eqb c "%" then option_map (String c) (percent_from InText rest d)
          else None
      | InKey acc =>
          if Ascii.eqb c ")" then percent_from (AfterKey acc) rest d
          else percent_from (InKey (acc ++ chr c)) rest d
      | AfterKey key =>
          if Ascii.eqb c "s" then
            match dict_get key d with
            | Some v => option_map (append v) (percent_from InText rest d)
            | None => None
            end
          else None
      end
  end.

Definition percent (fmt : string) (d : dict string) : option string :=
  percent_from InText fmt d.

End Py.

(** ** Constants of the module *)

Definition LOGFORMAT : string := "%(asctime)s|%(name)s|%(funcName)s|%(lineno)s|%(message)s".
Definition LOGPREFIXFORMAT : string := "%(levelname)s|%(version)s|%(loggingId)s|%(sessionId)s|".
Definition DATEFORMAT : string := "%Y-%m-%dT%H:%M:%S%z".
Definition BUCKET : string := "gst-restrictions".
Definition FOLDER_NAME : string := "gst-app/logs".

(** ** Log records and the formatter *)

(** The attributes of a [logging.LogRecord] that formatting reads or writes.
    [msg] is the text [record.getMessage()] returns; [exc_info] is the
    exception triple, represented by the traceback text that
    [logging.Formatter.formatException] renders for it; [func_name_override]
    is [None] when the record has no such attribute; [message] and [asctime]
    are the attributes [logging.Formatter.format] stores on the record. *)
Record LogRecord : Type := mkLogRecord {
  name : string;
  levelname : string;
  funcName : string;
  lineno : Z;
  created : Z;
  msg : string;
  exc_info : option string;
  exc_text : option string;
  stack_info : option string;
  func_name_override : option string;
  message : option string;
  asctime : option string
}.

Definition with_call_site (f : string) (l : Z) (r : LogRecord) : LogRecord :=
  mkLogRecord (name r) (levelname r) f l (created r) (msg r) (exc_info r)
    (exc_text r) (stack_info r) (func_name_override r) (message r) (asctime r).

Definition with_message (m t : string) (r : LogRecord) : LogRecord :=
  mkLogRecord (name r) (levelname r) (funcName r) (lineno r) (created r) (msg r)
    (exc_info r) (exc_text r) (stack_info r) (func_name_override r) (Some m) (Some t).

Definition with_exc_text (e : string) (r : LogRecord) : LogRecord :=
  mkLogRecord (name r) (levelname r) (funcName r) (lineno r) (created r) (msg r)
    (exc_info r) (Some e) (stack_info r) (func_name_override r) (message r) (asctime r).

(** [record.__dict__], as far as a format string can name its keys; the
    values are rendered with [str], as [%(key)s] does. *)
Definition record_dict (r : LogRecord) : Py.dict string :=
  [ ("name", name r);
    ("levelname", levelname r);
    ("funcName", funcName r);
    ("lineno", Py.str_int (lineno r));
    ("created", Py.str_int (created r));
    ("msg", msg r);
    ("message", match message r with Some m => m | None => "None" end);
    ("asctime", match asctime r with Some t => t | None => "None" end) ].

(** The formatter object: the two format strings the base class keeps and
    the prefix dictionary of the subclass. *)
Record CustomFormatterWithExceptions : Type := mkFormatter {
  fmt : string;
  datefmt : string;
  logPrefixDict : Py.dict string
}.

Definition with_prefix (d : Py.dict string) (self : CustomFormatterWithExceptions) :
  CustomFormatterWithExceptions :=
  mkFormatter (fmt self) (datefmt self) d.

(** [__init__]; [version] is the value of [cfg.LOGGING_VERSION] at the time
    of the call. *)
Definition Formatter_init (version logging_id session_id fmt datefmt : string) :
  CustomFormatterWithExceptions :=
  mkFormatter fmt datefmt
    [ ("loggingId", logging_id); ("sessionId", session_id); ("version", version) ].

Section Formatting.

(** [time.strftime(datefmt, time.localtime(created))]: the rendering of a
    time stamp depends on the time zone of the host and is left open. *)
Variable strftime : string -> Z -> string.

(** [formatException] of the subclass: the [repr] of the traceback text. *)
Definition formatException (ei : string) : string := Py.repr ei.

(** [s] with a line feed appended unless it ends in one. *)
Definition end_line (s : string) : string :=
  match Py.last_char s with
  | Some c => if Ascii.eqb c Py.LF then s else s ++ Py.chr Py.LF
  | None => s ++ Py.chr Py.LF
  end.

(** [logging.Formatter.format], which the subclass calls through
    [super()]: it stores [message] and [asctime] on the record, renders the
    format string ([None]: the rendering raises, and the call ends there),
    caches the exception text on the record the first time, and appends the
    exception text and the stack text on lines of their own. *)
Definition base_format (self : CustomFormatterWithExceptions) (record : LogRecord) :
  option string * LogRecord :=
  let record := with_message (msg record) (strftime (datefmt self) (created record)) record in
  match Py.percent (fmt self) (record_dict record) with
  | None => (None, record)
  | Some s =>
      let record :=
        match exc_info record with
        | Some ei =>
            if Py.truthy (exc_text record) then record
            else with_exc_text (formatException ei) record
        | None => record
        end in
      let s :=
        match exc_text record with
        | Some (String c e) => end_line s ++ String c e
        | _ => s
        end in
      let s :=
        match stack_info record with
        | Some (String c e) => end_line s ++ String c e
        | _ => s
        end in
      (Some s, record)
  end.

(** The five replacements applied to a line that carries exception text. *)
Definition one_line (s : string) : string :=
  Py.replace Py.DQUOTE (Py.chr Py.BACKTICK)
    (Py.replace Py.SQUOTE (Py.chr Py.BACKTICK)
       (Py.replace Py.CR EmptyString
          (Py.replace Py.TAB " "
             (Py.replace Py.LF " - " s)))).

(** [record.levelname[0]] when the level name is not empty. *)
Definition level_initial (r : LogRecord) : string :=
  match levelname r with
  | String c _ => Py.chr c
  | EmptyString => "U"
  end.

(** [CustomFormatterWithExceptions.format].  The result is the returned
    line ([None] if a [%] rendering raises), the record and the formatter
    as the call leaves them. *)
Definition format (self : CustomFormatterWithExceptions) (record : LogRecord) :
  option string * LogRecord * CustomFormatterWithExceptions :=
  let record :=
    match func_name_override record with
    | Some f => with_call_site f 0 record
    | None => record
    end in
  match base_format self record with
  | (None, record) => (None, record, self)
  | (Some s, record) =>
      let self :=
        with_prefix (Py.dict_set "levelname" (level_initial record) (logPrefixDict self)) self in
      if Py.truthy (exc_text record) then
        let self := with_prefix (Py.dict_set "levelname" "X" (logPrefixDict self)) self in
        match Py.percent LOGPREFIXFORMAT (logPrefixDict self) with
        | None => (None, record, self)
        | Some logPrefix => (Some (logPrefix ++ one_line s), record, self)
        end
      else
        match Py.percent LOGPREFIXFORMAT (logPrefixDict self) with
        | None => (None, record, self)
        | Some logPrefix => (Some (logPrefix ++ s), record, self)
        end
  end.

End Formatting.

(** ** Paths *)

Module Path.

(** The text before and after the last [sep] of [s]. *)
Fixpoint rsplit (sep : ascii) (s : string) : option (string * string) :=
  match s with
  | EmptyString => None
  | String c rest =>
      match rsplit sep rest with
      | Some (a, b) => Some (String c a, b)
      | None => if Ascii.eqb c sep then Some (EmptyString, rest) else None
      end
  end.

(** [p.name]: the last component. *)
Definition name (p : string) : string :=
  match rsplit "/" p with
  | Some (_, b) => b
  | None => p
  end.

(** [p.parent]. *)
Definition parent (p : string) : string :=
  match rsplit "/" p with
  | Some (EmptyString, _) => "/"
  | Some (a, _) => a
  | None => "."
  end.

(** [p.stem]: the name without its last suffix; a leading or a trailing
    dot does not start a suffix. *)
Definition stem (p : string) : string :=
  let n := name p in
  match rsplit "." n with
  | Some (EmptyString, _) => n
  | Some (_, EmptyString) => n
  | Some (a, _) => a
  | None => n
  end.

(** [d.joinpath(n)] and [d / n], for an absolute [d] without trailing
    slash: an empty [n] gives [d], an absolute [n] replaces [d].  The
    components of [n] are taken as they are written: [pathlib] would drop a
    component [.] and a slash at the end. *)
Definition joinpath (d n : string) : string :=
  match n with
  | EmptyString => d
  | String c _ => if Ascii.eqb c "/" then n else d ++ "/" ++ n
  end.

End Path.

(** ** Regular expressions

    The fragment of [re] the two filters of the module are written in: a
    sequence of characters, escaped characters, the dot and bracketed classes
    of characters and ranges, each optionally followed by a star.  [re]
    accepts more ([+], [?], anchors, groups, [\d] and the like); for a
    pattern outside the fragment the model has no matcher, and what is proved
    about a pattern says that it lies in the fragment. *)

Module Re.

Inductive atom : Type :=
| Lit (c : ascii)
| AnyChar
| Class (ranges : list (ascii * ascii)).

(** An atom and whether a star follows it. *)
Definition item : Type := (atom * bool)%type.

Definition in_range (c : ascii) (r : ascii * ascii) : bool :=
  ((N_of_ascii (fst r) <=? N_of_ascii c) && (N_of_ascii c <=? N_of_ascii (snd r)))%N.

Definition atom_matches (a : atom) (c : ascii) : bool :=
  match a with
  | Lit d => Ascii.eqb c d
  | AnyChar => negb (Ascii.eqb c Py.LF)
  | Class ranges => existsb (in_range c) ranges
  end.

(** A starred atom: the rest of the pattern matches here, or the atom
    takes one more character. *)
Fixpoint match_star (rest : string -> bool) (a : atom) (s : string) : bool :=
  rest s ||
  match s with
  | String c s' => atom_matches a c && match_star rest a s'
  | EmptyString => false
  end.

(** Does the pattern match a prefix of [s]? *)
Fixpoint match_here (p : list item) (s : string) : bool :=
  match p with
  | [] => true
  | (a, false) :: p' =>
      match s with
      | String c s' => atom_matches a c && match_here p' s'
      | EmptyString => false
      end
  | (a, true) :: p' => match_star (match_here p') a s
  end.

(** [regexp.search(s)] as a truth value: a match starting anywhere. *)
Fixpoint search (p : list item) (s : string) : bool :=
  match_here p s ||
  match s with
  | String _ s' => search p s'
  | EmptyString => false
  end.

Inductive parse_state : Type :=
| Top
| Escaped
| ClassOpen (rs : list (ascii * ascii))
| ClassMember (rs : list (ascii * ascii)) (lo : ascii)
| ClassDash (rs : list (ascii * ascii)) (lo : ascii).

Definition is_special (c : ascii) : bool :=
  Py.contains c "+?(){}|^$".

Definition is_alnum (c : ascii) : bool :=
  let n := N_of_ascii c in
  ((48 <=? n) && (n <=? 57) || (65 <=? n) && (n <=? 90) || (97 <=? n) && (n <=? 122))%N.

(** One pass over the pattern; [acc] holds the items read so far, last
    first.  [None]: the pattern is malformed or outside the fragment. *)
Fixpoint parse_from (st : parse_state) (acc : list item) (s : string) : option (list item) :=
  match s with
  | EmptyString => match st with Top => Some (rev acc) | _ => None end
  | String c rest =>
      match st with
      | Top =>
          if Ascii.eqb c Py.BACKSLASH then parse_from Escaped acc rest
          else if Ascii.eqb c "[" then parse_from (ClassOpen []) acc rest
          else if Ascii.eqb c "*" then
            match acc with
            | (a, false) :: acc' => parse_from Top ((a, true) :: acc') rest
            | _ => None
            end
          else if Ascii.eqb c "." then parse_from Top ((AnyChar, false) :: acc) rest
          else if is_special c then None
          else parse_from Top ((Lit c, false) :: acc) rest
      | Escaped =>
          if is_alnum c then None
          else parse_from Top ((Lit c, false) :: acc) rest
      | ClassOpen rs =>
          if Ascii.eqb c "]" then
            match rs with
            | [] => None
            | _ => parse_from Top ((Class (rev rs), false) :: acc) rest
            end
          else if Ascii.eqb c Py.BACKSLASH || Ascii.eqb c "^" || Ascii.eqb c "[" then None
          else parse_from (ClassMember rs c) acc rest
      | ClassMember rs lo =>
          if Ascii.eqb c "-" then parse_from (ClassDash rs lo) acc rest
          else if Ascii.eqb c "]" then
            parse_from Top ((Class (rev ((lo, lo) :: rs)), false) :: acc) rest
          else if Ascii.eqb c Py.BACKSLASH || Ascii.eqb c "[" then None
          else parse_from (ClassMember ((lo, lo) :: rs) c) acc rest
      | ClassDash rs lo =>
          if Ascii.eqb c "]" then
            parse_from Top ((Class (rev (("-"%char, "-"%char) :: (lo, lo) :: rs)), false) :: acc) rest
          else if Ascii.eqb c Py.BACKSLASH || Ascii.eqb c "[" then None
          else if (N_of_ascii lo <=? N_of_ascii c)%N
               then parse_from (ClassOpen ((lo, c) :: rs)) acc rest
          else None
      end
  end.

(** [re.compile(pattern)]. *)
Definition compile (pattern : string) : option (list item) :=
  parse_from Top [] pattern.

End Re.

(** ** Floating-point division, floor and ceiling

    [cfg.LOGGING_VERBOSITY / 10] is Python's true division of two [int]s: the
    IEEE 754 binary64 number nearest to the exact quotient (ties to even),
    or [OverflowError] when that is out of range.  A finite double is kept
    as its integral significand and its exponent. *)

Module Float.

(** [(m, e)] is the number [m * 2^e]. *)
Definition float : Type := (Z * Z)%type.

(** [n / d] rounded to the nearest integer, ties to even, for [0 < d]. *)
Definition round_half_even (n d : Z) : Z :=
  let q := n / d in
  let r := n mod d in
  if 2 * r <? d then q
  else if d <? 2 * r then q + 1
  else if Z.even q then q else q + 1.

(** The exponent [L] with [2^L <= a / b < 2^(L+1)], for [0 < a] and [0 < b]. *)
Definition quotient_log2 (a b : Z) : Z :=
  let t := Z.log2 a - Z.log2 b in
  if b * 2 ^ Z.max t 0 <=? a * 2 ^ Z.max (- t) 0 then t else t - 1.

(** [a / b] for [int]s with [0 < b]; [None] is [OverflowError]. *)
Definition truediv (a b : Z) : option float :=
  if a =? 0 then Some (0, 0)
  else
    let x := Z.abs a in
    let e := Z.max (quotient_log2 x b - 52) (-1074) in
    let m := if 0 <=? e then round_half_even x (b * 2 ^ e)
             else round_half_even (x * 2 ^ (- e)) b in
    if 2 ^ 1024 <=? m * 2 ^ e then None
    else Some (Z.sgn a * m, e).

(** [math.floor(x)] and [math.ceil(x)] of a finite double, as [int]s. *)
Definition floor (x : float) : Z :=
  let '(m, e) := x in
  if 0 <=? e then m * 2 ^ e else m / 2 ^ (- e).

Definition ceil (x : float) : Z :=
  let '(m, e) := x in
  if 0 <=? e then m * 2 ^ e else - ((- m) / 2 ^ (- e)).

End Float.

(** ** The world the module acts on *)

(** Exceptions, by the class an [except] clause tests. [str(e)] is the text.
    [ClientError] is the error answer of a service ([botocore]), [S3Error]
    the [S3UploadFailedError] of [boto3]; neither is a subclass of the
    other. *)
Inductive exn : Type :=
| OSError (text : string)
| ClientError (text : string)
| S3Error (text : string)
| GitError (text : string)
| ReError (text : string)
| OverflowError (text : string).

Definition str_exn (e : exn) : string :=
  match e with
  | OSError t | ClientError t | S3Error t | GitError t | ReError t | OverflowError t => t
  end.

(** A file with its text, or a directory. *)
Inductive node : Type :=
| File (content : string)
| Dir.

(** A call on the module's logger: [logger.debug], [logger.info], and
    [logger.exception] with the exception being handled. *)
Inductive call : Type :=
| Debug (text : string)
| Info (text : string)
| Exception (text : string) (e : exn).

Inductive sink : Type :=
| StreamStdout
| StreamStderr
| Null
| TimedRotatingFile (filename : string).

(** What the host gives the module and the module does not change: where
    the package is installed, the clock, the random source behind
    [uuid.uuid4], the revision of the checkout, how the transfer of
    [upload_file(filename, bucket, key)] ends ([None]: the object store
    accepted the object; otherwise the exception that ended the transfer),
    and the settings read from [cfg] and [gtff]. *)
Record host : Type := mkHost {
  package_parent : string;
  clock : nat -> Z;
  entropy : nat -> N;
  git_short_sha : exn + string;
  s3_upload_file : string -> string -> string -> option exn;
  LOGGING_HANDLERS : string;
  LOGGING_VERBOSITY : Z;
  ALLOW_LOG_COLLECTION : bool
}.

(** The mutable state: the file system (absolute path and node, in the
    order a directory scan yields them), the calls made on the module's
    logger, the uploads the store accepted, the writable settings of [cfg],
    the levels set on named loggers ([root] for the root logger), the
    handlers of the root logger with their formatters, and how many times the
    clock and the random source were read. *)
Record world : Type := mkWorld {
  fs : list (string * node);
  journal : list call;
  uploaded : list (string * string * string);
  LOGGING_ID : option string;
  LOGGING_VERSION : string;
  LOGGING_FILE : option string;
  levels : Py.dict Z;
  root_handlers : list (sink * option CustomFormatterWithExceptions);
  clock_reads : nat;
  entropy_reads : nat
}.

Definition set_fs (x : list (string * node)) (w : world) : world :=
  mkWorld x (journal w) (uploaded w) (LOGGING_ID w) (LOGGING_VERSION w) (LOGGING_FILE w)
    (levels w) (root_handlers w) (clock_reads w) (entropy_reads w).
Definition set_journal (x : list call) (w : world) : world :=
  mkWorld (fs w) x (uploaded w) (LOGGING_ID w) (LOGGING_VERSION w) (LOGGING_FILE w)
    (levels w) (root_handlers w) (clock_reads w) (entropy_reads w).
Definition set_uploaded (x : list (string * string * string)) (w : world) : world :=
  mkWorld (fs w) (journal w) x (LOGGING_ID w) (LOGGING_VERSION w) (LOGGING_FILE w)
    (levels w) (root_handlers w) (clock_reads w) (entropy_reads w).
Definition set_LOGGING_ID (x : option string) (w : world) : world :=
  mkWorld (fs w) (journal w) (uploaded w) x (LOGGING_VERSION w) (LOGGING_FILE w)
    (levels w) (root_handlers w) (clock_reads w) (entropy_reads w).
Definition set_LOGGING_VERSION (x : string) (w : world) : world :=
  mkWorld (fs w) (journal w) (uploaded w) (LOGGING_ID w) x (LOGGING_FILE w)
    (levels w) (root_handlers w) (clock_reads w) (entropy_reads w).
Definition set_LOGGING_FILE (x : option string) (w : world) : world :=
  mkWorld (fs w) (journal w) (uploaded w) (LOGGING_ID w) (LOGGING_VERSION w) x
    (levels w) (root_handlers w) (clock_reads w) (entropy_reads w).
Definition set_levels (x : Py.dict Z) (w : world) : world :=
  mkWorld (fs w) (journal w) (uploaded w) (LOGGING_ID w) (LOGGING_VERSION w) (LOGGING_FILE w)
    x (root_handlers w) (clock_reads w) (entropy_reads w).
Definition set_root_handlers (x : list (sink * option CustomFormatterWithExceptions)) (w : world) : world :=
  mkWorld (fs w) (journal w) (uploaded w) (LOGGING_ID w) (LOGGING_VERSION w) (LOGGING_FILE w)
    (levels w) x (clock_reads w) (entropy_reads w).
Definition set_clock_reads (x : nat) (w : world) : world :=
  mkWorld (fs w) (journal w) (uploaded w) (LOGGING_ID w) (LOGGING_VERSION w) (LOGGING_FILE w)
    (levels w) (root_handlers w) x (entropy_reads w).
Definition set_entropy_reads (x : nat) (w : world) : world :=
  mkWorld (fs w) (journal w) (uploaded w) (LOGGING_ID w) (LOGGING_VERSION w) (LOGGING_FILE w)
    (levels w) (root_handlers w) (clock_reads w) x.

(** ** Computations: state and exceptions *)

Definition M (A : Type) : Type := world -> (A + exn) * world.

Definition ret {A} (a : A) : M A := fun w => (inl a, w).

Definition bind {A B} (m : M A) (k : A -> M B) : M B :=
  fun w =>
    match m w with
    | (inl a, w') => k a w'
    | (inr e, w') => (inr e, w')
    end.

Definition raise {A} (e : exn) : M A := fun w => (inr e, w).

(** [try: m except ...: h e]; [h] answers [None] for an exception its
    clause does not name, which then propagates. *)
Definition try {A} (m : M A) (h : exn -> option (M A)) : M A :=
  fun w =>
    match m w with
    | (inl a, w') => (inl a, w')
    | (inr e, w') =>
        match h e with
        | Some k => k w'
        | None => (inr e, w')
        end
    end.

Definition gets {A} (f : world -> A) : M A := fun w => (inl (f w), w).
Definition modify (f : world -> world) : M unit := fun w => (inl tt, f w).

Declare Scope py_scope.
Delimit Scope py_scope with py.
Notation "x <- m ;; k" := (bind m (fun x => k))
  (at level 61, m at next level, right associativity) : py_scope.
Notation "m ;; k" := (bind m (fun _ => k))
  (at level 61, right associativity) : py_scope.
Local Open Scope py_scope.

(** [for x in xs: body x]. *)
Fixpoint for_each {A} (xs : list A) (body : A -> M unit) : M unit :=
  match xs with
  | [] => ret tt
  | x :: rest => body x ;; for_each rest body
  end.

Definition when (b : bool) (m : M unit) : M unit := if b then m else ret tt.

(** The calls on the module's logger are recorded in the journal, in the
    order they are made.  Which of them the level of the logger lets through,
    and what the handlers attached at that time do with them (a formatter then
    stores the level character of the record in its prefix dictionary), is
    not followed. *)
Definition logger_debug (text : string) : M unit :=
  modify (fun w => set_journal (journal w ++ [Debug text]) w).
Definition logger_info (text : string) : M unit :=
  modify (fun w => set_journal (journal w ++ [Info text]) w).
Definition logger_exception (text : string) (e : exn) : M unit :=
  modify (fun w => set_journal (journal w ++ [Exception text e]) w).

(** ** The file system *)

Module Fs.

Definition lookup (p : string) (d : list (string * node)) : option node :=
  Py.dict_get p d.

Definition is_dir (p : string) (d : list (string * node)) : bool :=
  match lookup p d with Some Dir => true | _ => false end.

Definition is_file (p : string) (d : list (string * node)) : bool :=
  match lookup p d with Some (File _) => true | _ => false end.

Definition exists_ (p : string) (d : list (string * node)) : bool :=
  match lookup p d with Some _ => true | None => false end.

(** Is [p] strictly below the directory [d]? *)
Definition below (d p : string) : bool := String.prefix (d ++ "/") p.

(** The entries of the directory [d], in the order of the file system. *)
Definition children (d : string) (t : list (string * node)) : list string :=
  map fst (filter (fun e => String.eqb (Path.parent (fst e)) d && negb (String.eqb (fst e) d)) t).

Definition remove (p : string) (t : list (string * node)) : list (string * node) :=
  filter (fun e => negb (String.eqb (fst e) p)) t.

(** The file [src] renamed to [dst]. *)
Definition rekey (src dst : string) (t : list (string * node)) : list (string * node) :=
  map (fun e => if String.eqb (fst e) src then (dst, snd e) else e) t.

(** The directory [src] and all below it moved to [dst]. *)
Definition move (src dst : string) (t : list (string * node)) : list (string * node) :=
  map (fun e =>
         if String.eqb (fst e) src then (dst, snd e)
         else if below src (fst e)
              then (dst ++ substring (String.length src) (String.length (fst e) - String.length src) (fst e), snd e)
         else e) t.

(** What [readline()] gives for a file opened in text mode: the text up
    to the first end of line, which is a line feed, a carriage return or the
    two in a row, and is given back as one line feed. *)
Fixpoint first_line (s : string) : string :=
  match s with
  | EmptyString => EmptyString
  | String c rest =>
      if Ascii.eqb c Py.LF || Ascii.eqb c Py.CR then Py.chr Py.LF
      else String c (first_line rest)
  end.

(** [os.mkdir(p)] and [Path.mkdir()].  The new directory is entered last,
    so a scan of its parent yields it after the entries that were there; a
    file system may yield it at any place. *)
Definition mkdir (p : string) : M unit :=
  fun w =>
    if exists_ p (fs w) then (inr (OSError ("File exists: " ++ p)), w)
    else if is_dir (Path.parent p) (fs w)
         then (inl tt, set_fs (fs w ++ [(p, Dir)]) w)
    else (inr (OSError ("No such file or directory: " ++ p)), w).

(** [with open(p, "a") as f: f.write(text)]. *)
Definition append_text (p text : string) : M unit :=
  fun w =>
    match lookup p (fs w) with
    | Some (File c) => (inl tt, set_fs (Py.dict_set p (File (c ++ text)) (fs w)) w)
    | Some Dir => (inr (OSError ("Is a directory: " ++ p)), w)
    | None =>
        if is_dir (Path.parent p) (fs w)
        then (inl tt, set_fs (fs w ++ [(p, File text)]) w)
        else (inr (OSError ("No such file or directory: " ++ p)), w)
    end.

(** [with open(p) as f: f.readline()]. *)
Definition readline (p : string) : M string :=
  fun w =>
    match lookup p (fs w) with
    | Some (File c) => (inl (first_line c), w)
    | Some Dir => (inr (OSError ("Is a directory: " ++ p)), w)
    | None => (inr (OSError ("No such file or directory: " ++ p)), w)
    end.

(** [list(d.iterdir())]. *)
Definition iterdir (d : string) : M (list string) :=
  fun w =>
    if is_dir d (fs w) then (inl (children d (fs w)), w)
    else (inr (OSError ("Not a directory: " ++ d)), w).

(** [src.rename(dst)], as [rename(2)] does it: a file replaces a file, a
    directory replaces an empty directory and cannot move below itself. *)
Definition rename (src dst : string) : M unit :=
  fun w =>
    let t := fs w in
    match lookup src t with
    | None => (inr (OSError ("No such file or directory: " ++ src)), w)
    | Some n =>
        if negb (is_dir (Path.parent dst) t)
        then (inr (OSError ("No such file or directory: " ++ dst)), w)
        else if String.eqb src dst then (inl tt, w)
        else
          match n, lookup dst t with
          | File _, Some Dir => (inr (OSError ("Is a directory: " ++ dst)), w)
          | File _, _ => (inl tt, set_fs (rekey src dst (remove dst t)) w)
          | Dir, Some (File _) => (inr (OSError ("Not a directory: " ++ dst)), w)
          | Dir, _ =>
              if below src dst then (inr (OSError ("Invalid argument: " ++ dst)), w)
              else if existsb (fun e => below dst (fst e)) t
                   then (inr (OSError ("Directory not empty: " ++ dst)), w)
              else (inl tt, set_fs (move src dst (remove dst t)) w)
          end
    end.

(** Opening [p] for appending, as a file handler does when it is built:
    the file is created empty when it is missing.  What handlers write into
    it later is not tracked. *)
Definition open_append (p : string) : M unit := append_text p EmptyString.

End Fs.

(** ** Identifiers *)

(** The low [digits] hexadecimal digits of [n]. *)
Fixpoint hex (digits : nat) (n : N) : string :=
  match digits with
  | O => EmptyString
  | S d => hex d (n / 16) ++ Py.chr (Py.hex_digit (n mod 16))
  end.

(** [str(u)] for a UUID given by its 128-bit integer. *)
Definition str_uuid (u : N) : string :=
  (hex 8 (u / 2 ^ 96) ++ "-" ++ hex 4 (u / 2 ^ 80) ++ "-" ++ hex 4 (u / 2 ^ 64) ++ "-"
   ++ hex 4 (u / 2 ^ 48) ++ "-" ++ hex 12 u)%N.

(** ** The functions of the module *)

Section Loggers.

Variable H : host.

(** [int(time.time())]. *)
Definition time_time : M Z :=
  fun w => (inl (clock H (clock_reads w)), set_clock_reads (S (clock_reads w)) w).

(** [uuid.uuid4()]. *)
Definition uuid4 : M N :=
  fun w => (inl (entropy H (entropy_reads w)), set_entropy_reads (S (entropy_reads w)) w).

(** [logging.getLogger(name).setLevel(level)]. *)
Definition setLevel (logger : string) (level : Z) : M unit :=
  modify (fun w => set_levels (Py.dict_set logger level (levels w)) w).

(** [logging.getLogger().addHandler(handler)] after [handler.setFormatter]. *)
Definition addHandler (s : sink) (f : CustomFormatterWithExceptions) : M unit :=
  modify (fun w => set_root_handlers (root_handlers w ++ [(s, Some f)]) w).

Definition library_loggers (verbosity : Z) : M unit :=
  setLevel "requests" verbosity ;;
  setLevel "urllib3" verbosity.

Definition get_log_dir : M string :=
  let parent_dir := package_parent H in
  logger_debug ("Parent dir: " ++ parent_dir) ;;
  let log_dir := Path.joinpath parent_dir "logs" in
  logger_debug ("Future logdir: " ++ log_dir) ;;
  is_d <- gets (fun w => Fs.is_dir log_dir (fs w)) ;;
  when (negb is_d)
    (logger_debug "Logdir does not exist. Creating." ;;
     Fs.mkdir log_dir) ;;
  let log_id := Path.joinpath log_dir ".logid" in
  is_f <- gets (fun w => Fs.is_file log_id (fs w)) ;;
  (if negb is_f then
     logger_debug ("Log ID does not exist: " ++ log_id) ;;
     u <- uuid4 ;;
     modify (set_LOGGING_ID (Some (str_uuid u))) ;;
     Fs.append_text log_id (str_uuid u ++ Py.chr Py.LF)
   else
     logger_debug ("Log ID exists: " ++ log_id) ;;
     line <- Fs.readline log_id ;;
     modify (set_LOGGING_ID (Some (Py.rstrip line)))) ;;
  logging_id <- gets (fun w => match LOGGING_ID w with Some i => i | None => "None" end) ;;
  logger_debug ("Log id: " ++ logging_id) ;;
  let uuid_log_dir := Path.joinpath log_dir logging_id in
  logger_debug ("Current log dir: " ++ uuid_log_dir) ;;
  is_d <- gets (fun w => Fs.is_dir uuid_log_dir (fs w)) ;;
  when (negb is_d)
    (logger_debug ("UUID log dir does not exist: " ++ uuid_log_dir ++ ". Creating.") ;;
     Fs.mkdir uuid_log_dir) ;;
  ret uuid_log_dir.

(** What [upload_file] raises when the transfer ended with [e]: [boto3]
    catches the [ClientError] of a transfer and raises [S3UploadFailedError]
    in its place; any other exception leaves as it is. *)
Definition upload_failure (file bucket key : string) (e : exn) : exn :=
  match e with
  | ClientError text =>
      S3Error ("Failed to upload " ++ file ++ " to " ++ bucket ++ "/" ++ key ++ ": " ++ text)
  | _ => e
  end.

(** [s3_client.upload_file(file, bucket, key)]: the store accepts the
    object or the client raises. *)
Definition s3_client_upload_file (file bucket key : string) : M unit :=
  fun w =>
    match s3_upload_file H file bucket key with
    | None => (inl tt, set_uploaded (uploaded w ++ [(file, bucket, key)]) w)
    | Some e => (inr (upload_failure file bucket key e), w)
    end.

Definition upload_file_to_s3 (file bucket : string) (object_name folder_name : option string) : M unit :=
  let object_name := match object_name with Some n => n | None => Path.name file end in
  let object_name := match folder_name with Some f => f ++ "/" ++ object_name | None => object_name end in
  try (s3_client_upload_file file bucket object_name)
      (fun e => match e with
                | ClientError _ => Some (logger_exception (str_exn e) e)
                | _ => None
                end).

Definition default_log_filter : string :=
  "\.log\.20[2-3][0-9]-[0-2][0-9]-[0-3][0-9]_[0-2][0-9]*".

(** The first loop of [upload_archive_logs_s3]: the pattern is compiled
    for every entry, and every entry whose path the pattern is found in is
    entered under its path, with the place it is to be archived at.  A
    pattern [re] rejects raises [re.error] at the first entry; so does, here,
    a pattern outside the fragment of [Re], which the code would go on
    with. *)
Fixpoint select_log_files (archive log_filter : string) (files : list string)
  (log_files : Py.dict (string * string)) : M (Py.dict (string * string)) :=
  match files with
  | [] => ret log_files
  | file :: rest =>
      match Re.compile log_filter with
      | None => raise (ReError log_filter)
      | Some regexp =>
          select_log_files archive log_filter rest
            (if Re.search regexp file
             then Py.dict_set file (file, Path.joinpath archive (Path.name file)) log_files
             else log_files)
      end
  end.

(** The body of the second loop: the upload, then the move. *)
Definition upload_and_archive (entry : string * string) : M unit :=
  let '(log_file, archived_file) := entry in
  upload_file_to_s3 log_file BUCKET None (Some FOLDER_NAME) ;;
  try (Fs.rename log_file archived_file)
      (fun e => Some (logger_exception ("Cannot archive file: " ++ str_exn e) e)).

Definition upload_archive_logs_s3 (directory_str : option string) (log_filter : string) : M unit :=
  if ALLOW_LOG_COLLECTION H then
    directory <- match directory_str with
                 | None => get_log_dir
                 | Some d => ret d
                 end ;;
    let archive := Path.joinpath directory "archive" in
    present <- gets (fun w => Fs.exists_ archive (fs w)) ;;
    when (negb present)
      (Fs.mkdir archive ;;
       logger_debug "The new archive directory is created!") ;;
    files <- Fs.iterdir directory ;;
    log_files <- select_log_files archive log_filter files [] ;;
    logger_info "Start uploading Logs" ;;
    for_each (map snd log_files) upload_and_archive ;;
    logger_info "Logs uploaded"
  else
    logger_info "Logs not allowed to be collected".

Definition setup_file_logger (session_id : string) : M unit :=
  uuid_log_dir <- get_log_dir ;;
  upload_archive_logs_s3 (Some uuid_log_dir) "\.log" ;;
  start_time <- time_time ;;
  let logging_file := Path.joinpath uuid_log_dir (Py.str_int start_time ++ ".log") in
  modify (set_LOGGING_FILE (Some logging_file)) ;;
  logger_debug ("Current log file: " ++ logging_file) ;;
  Fs.open_append logging_file ;;
  version <- gets LOGGING_VERSION ;;
  addHandler (TimedRotatingFile logging_file)
    (Formatter_init version (Path.stem uuid_log_dir) session_id LOGFORMAT DATEFORMAT).

Definition get_commit_hash : M unit :=
  let git_dir := Path.joinpath (package_parent H) ".git" in
  is_d <- gets (fun w => Fs.is_dir git_dir (fs w)) ;;
  when is_d
    match git_short_sha H with
    | inl e => raise e
    | inr short_sha => modify (set_LOGGING_VERSION ("sha:" ++ short_sha))
    end.

(** [s.split(sep)]. *)
Fixpoint split (sep : ascii) (s : string) : list string :=
  match s with
  | EmptyString => [EmptyString]
  | String c rest =>
      if Ascii.eqb c sep then EmptyString :: split sep rest
      else match split sep rest with
           | first :: others => String c first :: others
           | [] => [Py.chr c]
           end
  end.

(** [logging.basicConfig(level=level, ..., handlers=[])]: nothing is done
    when the root logger has handlers already. *)
Definition basicConfig (level : Z) : M unit :=
  configured <- gets (fun w => match root_handlers w with [] => false | _ => true end) ;;
  when (negb configured) (setLevel "root" level).

(** The two thresholds [setup_logging] derives from the setting. *)
Definition verbosity_terminal (verbosity : Z) : option Z :=
  option_map (fun q => Float.floor q * 10) (Float.truediv verbosity 10).

Definition verbosity_libraries (verbosity : Z) : option Z :=
  option_map (fun q => Float.ceil q * 10) (Float.truediv verbosity 10).

Definition or_overflow (x : option Z) : M Z :=
  match x with
  | Some v => ret v
  | None => raise (OverflowError "integer division result too large for a float")
  end.

Definition attach_handler (START_TIME : Z) (logging_id a_handler : string) : M unit :=
  if String.eqb a_handler "stdout" then
    version <- gets LOGGING_VERSION ;;
    addHandler StreamStdout
      (Formatter_init version logging_id (Py.str_int START_TIME) LOGFORMAT DATEFORMAT)
  else if String.eqb a_handler "stderr" then
    version <- gets LOGGING_VERSION ;;
    addHandler StreamStderr
      (Formatter_init version logging_id (Py.str_int START_TIME) LOGFORMAT DATEFORMAT)
  else if String.eqb a_handler "noop" then
    version <- gets LOGGING_VERSION ;;
    addHandler Null
      (Formatter_init version logging_id (Py.str_int START_TIME) LOGFORMAT DATEFORMAT)
  else if String.eqb a_handler "file" then
    setup_file_logger (Py.str_int START_TIME)
  else
    logger_debug "Unknown loghandler".

Definition setup_logging : M unit :=
  START_TIME <- time_time ;;
  logging_id <- gets (fun w => match LOGGING_ID w with Some i => i | None => EmptyString end) ;;
  terminal <- or_overflow (verbosity_terminal (LOGGING_VERBOSITY H)) ;;
  libraries <- or_overflow (verbosity_libraries (LOGGING_VERBOSITY H)) ;;
  basicConfig terminal ;;
  get_commit_hash ;;
  for_each (split "," (LOGGING_HANDLERS H)) (attach_handler START_TIME logging_id) ;;
  library_loggers libraries ;;
  logger_info "Logging configuration finished" ;;
  logger_info ("Logging set to " ++ LOGGING_HANDLERS H) ;;
  logger_info ("Verbosity set to " ++ Py.str_int libraries) ;;
  logger_info ("FORMAT: " ++ Py.replace "|" "-" LOGPREFIXFORMAT ++ Py.replace "|" "-" LOGFORMAT).

End Loggers.

(** ** Wording of the specification, for comparison with the code *)

(** The upper-case form of a character. *)
Definition upper (c : ascii) : ascii :=
  let n := N_of_ascii c in
  if ((97 <=? n) && (n <=? 122))%N then ascii_of_N (n - 32) else c.

(** "First character of the level name, uppercased". *)
Definition uppercased_initial (r : LogRecord) : string :=
  match levelname r with
  | String c _ => Py.chr (upper c)
  | EmptyString => EmptyString
  end.

(** The record carries exception text: it has exception information to
    render or a text rendered earlier. *)
Definition carries_exception (r : LogRecord) : bool :=
  match exc_info r with
  | Some _ => true
  | None => Py.truthy (exc_text r)
  end.

(** None of the five characters a line-oriented parser trips over. *)
Definition parser_safe (s : string) : bool :=
  negb (Py.contains Py.LF s) && negb (Py.contains Py.TAB s) && negb (Py.contains Py.CR s)
  && negb (Py.contains Py.SQUOTE s) && negb (Py.contains Py.DQUOTE s).

(** "Replace every newline with [ - ], every tab with a single space, strip
    carriage returns, and replace both single and double quote characters
    with backticks", in one pass over the text. *)
Definition escape_char (c : ascii) : string :=
  if Ascii.eqb c Py.LF then " - "
  else if Ascii.eqb c Py.TAB then " "
  else if Ascii.eqb c Py.CR then EmptyString
  else if Ascii.eqb c Py.SQUOTE || Ascii.eqb c Py.DQUOTE then Py.chr Py.BACKTICK
  else Py.chr c.

Fixpoint escaped (s : string) : string :=
  match s with
  | EmptyString => EmptyString
  | String c rest => escape_char c ++ escaped rest
  end.

(** The prefix [LEVELCHAR|version|identity|sessionId|]. *)
Definition prefix_of (levelchar version identity session : string) : string :=
  levelchar ++ "|" ++ version ++ "|" ++ identity ++ "|" ++ session ++ "|".

(** The body [timestamp|loggerName|funcName|lineNumber|message]. *)
Definition body_of (timestamp logger func : string) (line : Z) (text : string) : string :=
  timestamp ++ "|" ++ logger ++ "|" ++ func ++ "|" ++ Py.str_int line ++ "|" ++ text.

(** The function name and the line number a record is rendered with. *)
Definition shown_funcName (r : LogRecord) : string :=
  match func_name_override r with Some f => f | None => funcName r end.

Definition shown_lineno (r : LogRecord) : Z :=
  match func_name_override r with Some _ => 0 | None => lineno r end.

(** A formatter of the module with its context and the level character a
    previous call may have left in the prefix dictionary. *)
Definition formatter_with (version identity session : string) (left_over : option string) :
  CustomFormatterWithExceptions :=
  mkFormatter LOGFORMAT DATEFORMAT
    (List.app [ ("loggingId", identity); ("sessionId", session); ("version", version) ]
       match left_over with Some c => [("levelname", c)] | None => [] end).

(** "floor(combined/10)*10" and "ceil(combined/10)*10" on the exact quotient. *)
Definition floor_tens (v : Z) : Z := (v / 10) * 10.
Definition ceil_tens (v : Z) : Z := - ((- v) / 10) * 10.

(** "Strip trailing newline": one line feed at the end is dropped. *)
Fixpoint strip_newline (s : string) : string :=
  match s with
  | EmptyString => EmptyString
  | String c EmptyString => if Ascii.eqb c Py.LF then EmptyString else s
  | String c rest => String c (strip_newline rest)
  end.

(** The sentinel of the log root and the session directory of an identity. *)
Definition log_root (H : host) : string := Path.joinpath (package_parent H) "logs".
Definition sentinel (H : host) : string := Path.joinpath (log_root H) ".logid".

(** [get_log_dir] called [n] times in a row; the results, first call first. *)
Fixpoint get_log_dir_times (H : host) (n : nat) (w : world) : list (string + exn) * world :=
  match n with
  | O => ([], w)
  | S k =>
      let '(r, w1) := get_log_dir H w in
      let '(rs, w2) := get_log_dir_times H k w1 in
      (r :: rs, w2)
  end.

(** The exception text a record is rendered with: the text cached on the
    record, else the rendering of its exception information. *)
Definition exception_text (r : LogRecord) : string :=
  match exc_text r with
  | Some (String c t) => String c t
  | _ => match exc_info r with Some ei => formatException ei | None => EmptyString end
  end.

(** The line [logging.Formatter.format] returns for a record of the module's
    format. *)
Definition base_line (strftime : string -> Z -> string) (r : LogRecord) : string :=
  let b := body_of (strftime DATEFORMAT (created r)) (name r) (shown_funcName r)
             (shown_lineno r) (msg r) in
  let e := if carries_exception r then end_line b ++ exception_text r else b in
  match stack_info r with
  | Some (String c t) => end_line e ++ String c t
  | _ => e
  end.

(** The record as a call of [format] leaves it. *)
Definition record_after (strftime : string -> Z -> string) (r : LogRecord) : LogRecord :=
  mkLogRecord (name r) (levelname r) (shown_funcName r) (shown_lineno r) (created r) (msg r)
    (exc_info r)
    (if carries_exception r then Some (exception_text r) else exc_text r)
    (stack_info r) (func_name_override r)
    (Some (msg r)) (Some (strftime DATEFORMAT (created r))).

(** The prefix character the code computes: [X] for a record that carries
    exception text, else the first character of the level name as it is
    written, else [U]. *)
Definition level_char (r : LogRecord) : string :=
  if carries_exception r then "X" else level_initial r.

(** The line feed [end_line] adds. *)
Definition line_break (s : string) : string :=
  match Py.last_char s with
  | Some c => if Ascii.eqb c Py.LF then EmptyString else Py.chr Py.LF
  | None => Py.chr Py.LF
  end.

(** ** Sample records and contexts *)

Definition sample_strftime (datefmt : string) (created : Z) : string :=
  "2023-06-01T12:00:00+0000".

Definition sample_formatter : CustomFormatterWithExceptions :=
  formatter_with "ver:1.0.0" "7d9f4c1e-0000-4000-8000-000000000001" "1700000000" None.

Definition record_error : LogRecord :=
  mkLogRecord "gamestonk_terminal.loggers" "ERROR" "setup_logging" 226 1685620800
    "Logging configuration finished" None None None None None None.

Definition record_lowercase : LogRecord :=
  mkLogRecord "gamestonk_terminal.loggers" "error" "setup_logging" 226 1685620800
    "Logging configuration finished" None None None None None None.

Definition record_unnamed_level : LogRecord :=
  mkLogRecord "gamestonk_terminal.loggers" EmptyString "setup_logging" 226 1685620800
    "Logging configuration finished" None None None None None None.

Definition sample_traceback : string :=
  "Traceback (most recent call last):" ++ Py.chr Py.LF
  ++ Py.chr Py.TAB ++ "File " ++ Py.chr Py.DQUOTE ++ "loggers.py" ++ Py.chr Py.DQUOTE
  ++ ", line 251" ++ Py.chr Py.CR ++ Py.chr Py.LF
  ++ "ClientError: can't reach the bucket".

Definition record_exception : LogRecord :=
  mkLogRecord "gamestonk_terminal.loggers" "INFO" "upload_file_to_s3" 253 1685620800
    "upload failed" (Some sample_traceback) None None None None None.

Definition record_override : LogRecord :=
  mkLogRecord "gamestonk_terminal.decorators" "INFO" "wrapper" 41 1685620800
    "START" None None None (Some "call_sh") None None.

(** A context whose identity was read from a sentinel somebody edited. *)
Definition quoted_formatter : CustomFormatterWithExceptions :=
  formatter_with "ver:1.0.0" "dev's-laptop" "1700000000" None.

(** ** Sample hosts and disks *)

Definition sample_uuid : N := 0x7d9f4c1e000040008000000000000001%N.

Definition accepting_store (file bucket key : string) : option exn := None.

Definition refusal : string :=
  "An error occurred (AccessDenied) when calling the PutObject operation".

(** A store that refuses the first rotated file with a client error. *)
Definition refusing_store (file bucket key : string) : option exn :=
  if String.eqb (Path.name file) "a.log.2023-01-01_00"
  then Some (ClientError refusal)
  else None.

(** A client that cannot read a directory as a file. *)
Definition files_only_store (file bucket key : string) : option exn :=
  if String.eqb (Path.name file) "archive"
  then Some (OSError "Is a directory: archive")
  else None.

Definition sample_host (consent : bool) (store : string -> string -> string -> option exn) : host :=
  mkHost "/opt/gst" (fun n => 1700000000 + Z.of_nat n) (fun n => (sample_uuid + N.of_nat n)%N)
    (inr "a1b2c3d4") store "stdout,file" 25 consent.

Definition world_on (disk : list (string * node)) : world :=
  mkWorld disk [] [] None "ver:1.0.0" None [] [] 0 0.

Definition sample_session_dir : string := "/opt/gst/logs/7d9f4c1e-0000-4000-8000-000000000001".

(** The package is installed and no log root exists yet. *)
Definition fresh_disk : list (string * node) :=
  [ ("/", Dir); ("/opt", Dir); ("/opt/gst", Dir) ].

(** A session directory with two rotated files and the file of a running
    session. *)
Definition rotated_disk : list (string * node) :=
  List.app fresh_disk
   [ ("/opt/gst/logs", Dir);
     ("/opt/gst/logs/.logid", File ("7d9f4c1e-0000-4000-8000-000000000001" ++ Py.chr Py.LF));
     (sample_session_dir, Dir);
     (sample_session_dir ++ "/a.log.2023-01-01_00", File "first");
     (sample_session_dir ++ "/b.log.2023-01-02_00", File "second");
     (sample_session_dir ++ "/current.log", File "third") ].

(** The same three files in a directory whose own path has a rotation
    suffix. *)
Definition suffixed_session_dir : string := "/mnt/backup/gst.log.2023-05-31_23".

Definition suffixed_disk : list (string * node) :=
  [ ("/", Dir); ("/mnt", Dir); ("/mnt/backup", Dir);
    (suffixed_session_dir, Dir);
    (suffixed_session_dir ++ "/a.log.2023-01-01_00", File "first");
    (suffixed_session_dir ++ "/b.log.2023-01-02_00", File "second");
    (suffixed_session_dir ++ "/current.log", File "third") ].

(** A session directory that holds the file of an earlier session, never
    rotated. *)
Definition earlier_session_disk : list (string * node) :=
  List.app fresh_disk
   [ ("/opt/gst/logs", Dir);
     ("/opt/gst/logs/.logid", File ("7d9f4c1e-0000-4000-8000-000000000001" ++ Py.chr Py.LF));
     (sample_session_dir, Dir);
     (sample_session_dir ++ "/archive", Dir);
     (sample_session_dir ++ "/1699990000.log", File "earlier session") ].

Definition rotated_a : string := sample_session_dir ++ "/a.log.2023-01-01_00".
Definition rotated_b : string := sample_session_dir ++ "/b.log.2023-01-02_00".
Definition archived_a : string := sample_session_dir ++ "/archive/a.log.2023-01-01_00".
Definition archived_b : string := sample_session_dir ++ "/archive/b.log.2023-01-02_00".

Definition earlier_log : string := sample_session_dir ++ "/1699990000.log".

(** A setting beyond the integers a double holds exactly. *)
Definition huge_verbosity : Z := 90071992547409919.

(** The rotated disk once the archive directory exists. *)
Definition archive_ready_disk : list (string * node) :=
  List.app rotated_disk [ (sample_session_dir ++ "/archive", Dir) ].

(** ** Predicates on texts *)

Fixpoint all_chars (P : ascii -> bool) (s : string) : bool :=
  match s with
  | EmptyString => true
  | String c rest => P c && all_chars P rest
  end.

(** The characters of a rendered UUID. *)
Definition is_uuid_char (c : ascii) : bool := Py.contains c "0123456789abcdef-".

(** The file system holds the state an identity leaves behind: the log
    root, the sentinel with the identity on its only line, and the session
    directory. *)
Definition settled (H : host) (identity : string) (t : list (string * node)) : Prop :=
  Fs.is_dir (log_root H) t = true
  /\ Fs.lookup (sentinel H) t = Some (File (identity ++ Py.chr Py.LF))
  /\ Fs.is_dir (Path.joinpath (log_root H) identity) t = true.

(** Nothing lies below the log root: it is missing or empty. *)
Definition log_root_empty (H : host) (t : list (string * node)) : bool :=
  forallb (fun e => negb (Fs.below (log_root H) (fst e))) t.

(** ** Patterns and paths *)

(** The pattern is found somewhere in the text. *)
Definition found (pattern text : string) : bool :=
  match Re.compile pattern with
  | Some r => Re.search r text
  | None => false
  end.

(** No atom of the pattern matches a slash. *)
Definition slashless (p : list Re.item) : bool :=
  forallb (fun it => negb (Re.atom_matches (fst it) "/")) p.

(** A selected entry and the place it is archived at. *)
Definition archive_place (archive file : string) : string * string :=
  (file, Path.joinpath archive (Path.name file)).

(** One round of the selecting loop. *)
Definition select_step (archive pattern : string) (acc : Py.dict (string * string))
  (file : string) : Py.dict (string * string) :=
  if found pattern file then Py.dict_set file (archive_place archive file) acc else acc.

(** The entries [upload_archive_logs_s3] selects in a directory listing,
    each with the place it is archived at. *)
Definition selection (archive pattern : string) (files : list string) :
  Py.dict (string * string) :=
  fold_left (select_step archive pattern) files [].

(** What the store receives for a file: the path read, the bucket and the
    key, which is the folder and the bare file name. *)
Definition object_of (file : string) : string * string * string :=
  (file, BUCKET, FOLDER_NAME ++ "/" ++ Path.name file).

(** The file the sink of a session is opened on. *)
Definition sink_path (H : host) (d : string) (w : world) : string :=
  Path.joinpath d (Py.str_int (clock H (clock_reads w)) ++ ".log").

(** ** What a computation leaves alone *)

(** A computation keeps [R] when every run, returning or raising, ends in a
    world that [R] relates to the world it started in. *)
Definition keeps (R : world -> world -> Prop) {A} (m : M A) : Prop :=
  forall w, R w (snd (m w)).

(** The two worlds agree on what [f] reads. *)
Definition same {X} (f : world -> X) (w w' : world) : Prop := f w' = f w.

(** Every entry of the file system of [w] is in that of [w'], unchanged. *)
Definition grows (w w' : world) : Prop :=
  forall p n, Fs.lookup p (fs w) = Some n -> Fs.lookup p (fs w') = Some n.

(** The handlers of the root logger in [w] are still there in [w'], in
    their places, before any new one. *)
Definition handlers_kept (w w' : world) : Prop :=
  exists hs, root_handlers w' = (root_handlers w ++ hs)%list.

(** ** The handlers of a setting *)

(** The sink a handler name of the setting stands for, the file handler
    apart. *)
Definition stream_sink (a_handler : string) : option sink :=
  if String.eqb a_handler "stdout" then Some StreamStdout
  else if String.eqb a_handler "stderr" then Some StreamStderr
  else if String.eqb a_handler "noop" then Some Null
  else None.

(** The names of a setting that attach a handler. *)
Definition known_handler (a_handler : string) : bool :=
  match stream_sink a_handler with
  | Some _ => true
  | None => String.eqb a_handler "file"
  end.

(** The handlers the names of a setting without [file] attach, in order. *)
Definition stream_handlers (version logging_id session_id : string) (names : list string) :
  list (sink * option CustomFormatterWithExceptions) :=
  flat_map
    (fun n =>
       match stream_sink n with
       | Some s => [(s, Some (Formatter_init version logging_id session_id LOGFORMAT DATEFORMAT))]
       | None => []
       end) names.

(** One debug call for every name of the list that names no handler. *)
Definition unknown_handler_calls (names : list string) : list call :=
  flat_map
    (fun n =>
       match stream_sink n with
       | Some _ => []
       | None => [Debug "Unknown loghandler"]
       end) names.

(** [cfg.LOGGING_ID if cfg.LOGGING_ID else ""]. *)
Definition entry_identity (w : world) : string :=
  match LOGGING_ID w with Some i => i | None => EmptyString end.

(** [cfg.LOGGING_VERSION] once [get_commit_hash] has returned. *)
Definition version_after (H : host) (w : world) : string :=
  if Fs.is_dir (Path.joinpath (package_parent H) ".git") (fs w) then
    match git_short_sha H with
    | inr short_sha => "sha:" ++ short_sha
    | inl _ => LOGGING_VERSION w
    end
  else LOGGING_VERSION w.

(** The identity a handler of the root logger shows: a file handler the
    stem of the directory of its file, any other the identity given. *)
Definition shown_identity (logging_id : string) (s : sink) : string :=
  match s with
  | TimedRotatingFile filename => Path.stem (Path.parent filename)
  | _ => logging_id
  end.

(** What a formatter was built with: its two format strings and the
    version, the identity and the session of its prefix dictionary.  The
    level character that [format] stores there with every record it is given
    is not part of it. *)
Definition context_of (f : CustomFormatterWithExceptions) :
  string * string * (option string * option string * option string) :=
  (fmt f, datefmt f,
   (Py.dict_get "version" (logPrefixDict f),
    Py.dict_get "loggingId" (logPrefixDict f),
    Py.dict_get "sessionId" (logPrefixDict f))).

(** The context of a formatter built with the two formats of the module. *)
Definition module_context (version logging_id session_id : string) :
  string * string * (option string * option string * option string) :=
  (LOGFORMAT, DATEFORMAT, (Some version, Some logging_id, Some session_id)).

(** A handler of the root logger as it was attached: its sink and the
    context of its formatter. *)
Definition attached (h : sink * option CustomFormatterWithExceptions) :
  sink * option (string * string * (option string * option string * option string)) :=
  (fst h, option_map context_of (snd h)).

(** The handlers the names of a setting without [file] attach, in order,
    each as it is attached. *)
Definition stream_contexts (version logging_id session_id : string) (names : list string) :
  list (sink * option (string * string * (option string * option string * option string))) :=
  flat_map
    (fun n =>
       match stream_sink n with
       | Some s => [(s, Some (module_context version logging_id session_id))]
       | None => []
       end) names.

(** The four info calls [setup_logging] ends with. *)
Definition closing_calls (H : host) (libraries : Z) : list call :=
  [ Info "Logging configuration finished";
    Info ("Logging set to " ++ LOGGING_HANDLERS H);
    Info ("Verbosity set to " ++ Py.str_int libraries);
    Info ("FORMAT: " ++ Py.replace "|" "-" LOGPREFIXFORMAT ++ Py.replace "|" "-" LOGFORMAT) ].

(** The levels [setup_logging] leaves: the root level is set only when
    the root logger has no handler yet. *)
Definition levels_after (terminal libraries : Z) (w : world) : Py.dict Z :=
  Py.dict_set "urllib3" libraries
    (Py.dict_set "requests" libraries
       match root_handlers w with
       | [] => Py.dict_set "root" terminal (levels w)
       | _ => levels w
       end).

(** ** Texts, directories and the entries a run selects *)

(** A text of ASCII characters without carriage return: what a file
    opened in text mode gives back byte for byte. *)
Definition plain_text (s : string) : bool :=
  all_chars (fun c => (N_of_ascii c <? 128)%N && negb (Ascii.eqb c Py.CR)) s.

(** A text of ASCII characters: what a file opened in text mode decodes
    to itself. *)
Definition ascii_text (s : string) : bool :=
  all_chars (fun c => (N_of_ascii c <? 128)%N) s.

(** The characters of a rendered integer. *)
Definition is_int_char (c : ascii) : bool := Py.contains c "0123456789-".

(** An absolute path other than the root. *)
Definition absolute_directory (d : string) : bool :=
  match d with
  | String c (String _ _) => Ascii.eqb c "/"
  | _ => false
  end.

(** The entries of [d] that a run with [pattern] selects, in the order it
    takes them. *)
Definition selected (d pattern : string) (t : list (string * node)) : list string :=
  map fst (selection (Path.joinpath d "archive") pattern (Fs.children d t)).

(** ** More sample hosts and disks *)

(** A host like the sample one with its handlers and its checkout given. *)
Definition host_with (handlers : string) (git : exn + string) : host :=
  mkHost "/opt/gst" (fun n => 1700000000 + Z.of_nat n) (fun n => (sample_uuid + N.of_nat n)%N)
    git accepting_store handlers 25 true.

(** A setting that overflows the division. *)
Definition overflowing_host : host :=
  mkHost "/opt/gst" (fun n => 1700000000 + Z.of_nat n) (fun n => (sample_uuid + N.of_nat n)%N)
    (inr "a1b2c3d4") accepting_store "stdout" (10 * 2 ^ 1024) true.

(** The package installed from a checkout. *)
Definition checkout_disk : list (string * node) :=
  List.app fresh_disk [ ("/opt/gst/.git", Dir) ].

(** A log root whose sentinel holds a blank line. *)
Definition blank_sentinel_disk : list (string * node) :=
  List.app fresh_disk
   [ ("/opt/gst/logs", Dir);
     ("/opt/gst/logs/.logid", File (" " ++ Py.chr Py.LF ++ "7d9f4c1e")) ].

(** A log root in which a directory sits at the place of the sentinel. *)
Definition sentinel_directory_disk : list (string * node) :=
  List.app fresh_disk
   [ ("/opt/gst/logs", Dir);
     ("/opt/gst/logs/.logid", Dir) ].

(** A log root whose sentinel was written by hand with a dotted name. *)
Definition dotted_sentinel_disk : list (string * node) :=
  List.app fresh_disk
   [ ("/opt/gst/logs", Dir);
     ("/opt/gst/logs/.logid", File ("host.local" ++ Py.chr Py.LF)) ].

(** A log root whose sentinel was written by hand: blanks after the
    identity, and a second line. *)
Definition padded_sentinel_disk : list (string * node) :=
  List.app fresh_disk
   [ ("/opt/gst/logs", Dir);
     ("/opt/gst/logs/.logid", File ("my-id  " ++ Py.chr Py.LF ++ "second")) ].

(** A client whose transfer of the first rotated file fails with an
    error that is not a [ClientError]. *)
Definition failing_store (file bucket key : string) : option exn :=
  if String.eqb (Path.name file) "a.log.2023-01-01_00"
  then Some (S3Error "Failed to upload a.log.2023-01-01_00")
  else None.

(** The rotated disk with a regular file at the place of the archive. *)
Definition archive_file_disk : list (string * node) :=
  List.app rotated_disk [ (sample_session_dir ++ "/archive", File "kept") ].

(** * Properties *)

Unset Implicit Arguments.

Arguments Py.str_int : simpl never.
Arguments one_line : simpl never.
Arguments end_line : simpl never.
Arguments Py.repr : simpl never.
Arguments Path.joinpath : simpl never.
Arguments Fs.lookup : simpl never.
Arguments Fs.is_dir : simpl never.
Arguments Fs.is_file : simpl never.
Arguments Fs.exists_ : simpl never.
Arguments str_uuid : simpl never.

(** ** Strings *)

Lemma append_nil_r s : s ++ EmptyString = s.
Proof. induction s as [|c s IH]; simpl; [reflexivity|now rewrite IH]. Qed.

Lemma append_assoc a b c : (a ++ b) ++ c = a ++ (b ++ c).
Proof. induction a as [|d a IH]; simpl; [reflexivity|now rewrite IH]. Qed.

Lemma contains_app c a b : Py.contains c (a ++ b) = Py.contains c a || Py.contains c b.
Proof. induction a as [|d a IH]; simpl; [reflexivity|]. now rewrite IH, orb_assoc. Qed.

Lemma replace_removes old new s :
  Py.contains old new = false -> Py.contains old (Py.replace old new s) = false.
Proof.
  intros Hn. induction s as [|c s IH]; simpl; [reflexivity|].
  destruct (Ascii.eqb c old) eqn:E; simpl.
  - now rewrite contains_app, Hn, IH.
  - now rewrite E, IH.
Qed.

Lemma replace_keeps_absent c old new s :
  Py.contains c new = false -> Py.contains c s = false ->
  Py.contains c (Py.replace old new s) = false.
Proof.
  intros Hn. induction s as [|d s IH]; simpl; [reflexivity|].
  intros Hs. apply orb_false_iff in Hs as [Hd Hs].
  destruct (Ascii.eqb d old); simpl.
  - now rewrite contains_app, Hn, IH.
  - now rewrite Hd, IH.
Qed.

Lemma parser_safe_app a b : parser_safe (a ++ b) = parser_safe a && parser_safe b.
Proof.
  unfold parser_safe. rewrite !contains_app.
  repeat match goal with |- context [Py.contains ?c ?s] => destruct (Py.contains c s) end;
    reflexivity.
Qed.

(** ** The formatter *)

Lemma one_line_parser_safe s : parser_safe (one_line s) = true.
Proof.
  unfold parser_safe, one_line.
  assert (L : Py.contains Py.LF (Py.replace Py.LF " - " s) = false) by now apply replace_removes.
  assert (T : Py.contains Py.TAB (Py.replace Py.TAB " " (Py.replace Py.LF " - " s)) = false)
    by now apply replace_removes.
  repeat rewrite andb_true_iff; repeat split; apply negb_true_iff.
  - do 4 (apply replace_keeps_absent; [reflexivity|]). exact L.
  - do 3 (apply replace_keeps_absent; [reflexivity|]). exact T.
  - do 2 (apply replace_keeps_absent; [reflexivity|]). now apply replace_removes.
  - apply replace_keeps_absent; [reflexivity|]. now apply replace_removes.
  - now apply replace_removes.
Qed.

Lemma replace_app old new a b :
  Py.replace old new (a ++ b) = Py.replace old new a ++ Py.replace old new b.
Proof.
  induction a as [|c a IH]; simpl; [reflexivity|].
  destruct (Ascii.eqb c old); simpl; rewrite IH; [now rewrite append_assoc|reflexivity].
Qed.

(** The five replacements in a row are one pass that maps each character on
    its own: no replacement text holds a character a later step replaces. *)
Lemma one_line_is_escaped s : one_line s = escaped s.
Proof.
  induction s as [|c s IH]; [reflexivity|].
  unfold one_line in *. simpl escaped. rewrite <- IH. unfold escape_char.
  change (Py.replace Py.LF " - " (String c s))
    with (if Ascii.eqb c Py.LF then " - " ++ Py.replace Py.LF " - " s
          else String c (Py.replace Py.LF " - " s)).
  destruct (Ascii.eqb_spec c Py.LF) as [->|N1].
  { rewrite !replace_app. reflexivity. }
  change (Py.replace Py.TAB " " (String c ?x))
    with (if Ascii.eqb c Py.TAB then " " ++ Py.replace Py.TAB " " x
          else String c (Py.replace Py.TAB " " x)).
  destruct (Ascii.eqb_spec c Py.TAB) as [->|N2].
  { rewrite !replace_app. reflexivity. }
  simpl Py.replace at 3.
  destruct (Ascii.eqb_spec c Py.CR) as [->|N3]; [reflexivity|].
  simpl Py.replace at 2.
  destruct (Ascii.eqb_spec c Py.SQUOTE) as [->|N4]; [reflexivity|].
  simpl Py.replace at 1.
  destruct (Ascii.eqb_spec c Py.DQUOTE) as [->|N5]; reflexivity.
Qed.

Lemma prefix_rendered v i s lo c :
  Py.percent LOGPREFIXFORMAT (Py.dict_set "levelname" c (logPrefixDict (formatter_with v i s lo)))
  = Some (prefix_of c v i s).
Proof. destruct lo; reflexivity. Qed.

Lemma body_rendered r m t :
  Py.percent LOGFORMAT (record_dict (with_message m t r))
  = Some (body_of t (name r) (funcName r) (lineno r) m).
Proof. unfold body_of. rewrite <- (append_nil_r m) at 2. reflexivity. Qed.

Lemma end_line_extends s : exists t, end_line s = s ++ t.
Proof.
  unfold end_line. destruct (Py.last_char s) as [c|].
  - destruct (Ascii.eqb c Py.LF).
    + exists EmptyString. now rewrite append_nil_r.
    + now exists (Py.chr Py.LF).
  - now exists (Py.chr Py.LF).
Qed.

Section FormatterFacts.

Variable strftime : string -> Z -> string.

(** The formatter a call leaves behind: the context is kept and the level
    character of the call is stored. *)
Lemma format_formatter v i s lo r :
  snd (format strftime (formatter_with v i s lo) r) = formatter_with v i s (Some (level_char r)).
Proof.
  destruct r as [n l f ln cr m ei et si fo me at_].
  unfold level_char, carries_exception.
  destruct fo, ei, et as [[|? ?]|], lo; reflexivity.
Qed.

(** The call in closed form. *)
Lemma format_closed v i s lo r :
  format strftime (formatter_with v i s lo) r
  = (Some (prefix_of (level_char r) v i s
           ++ (if carries_exception r then one_line (base_line strftime r)
               else base_line strftime r)),
     record_after strftime r,
     formatter_with v i s (Some (level_char r))).
Proof.
  destruct r as [n l f ln cr m ei et si fo me at_].
  destruct fo, ei, et as [[|? ?]|], si as [[|? ?]|], lo.
  all: unfold format, base_format, level_char, carries_exception, base_line, record_after,
         exception_text, shown_funcName, shown_lineno, body_of, prefix_of, formatException;
       simpl; rewrite ?append_nil_r; reflexivity.
Qed.

Lemma carries_exception_after r :
  carries_exception (record_after strftime r) = carries_exception r.
Proof.
  destruct r as [n l f ln cr m ei et si fo me at_].
  destruct ei, et as [[|? ?]|]; reflexivity.
Qed.

Lemma level_char_after r : level_char (record_after strftime r) = level_char r.
Proof. unfold level_char. rewrite carries_exception_after. reflexivity. Qed.

Lemma base_line_after r : base_line strftime (record_after strftime r) = base_line strftime r.
Proof.
  destruct r as [n l f ln cr m ei et si fo me at_].
  destruct fo, ei, et as [[|? ?]|]; reflexivity.
Qed.

Lemma record_after_idem r :
  record_after strftime (record_after strftime r) = record_after strftime r.
Proof.
  destruct r as [n l f ln cr m ei et si fo me at_].
  destruct fo, ei, et as [[|? ?]|]; reflexivity.
Qed.

End FormatterFacts.

Lemma end_line_break s : end_line s = s ++ line_break s.
Proof.
  unfold end_line, line_break. destruct (Py.last_char s) as [c|]; [|reflexivity].
  destruct (Ascii.eqb c Py.LF); [now rewrite append_nil_r|reflexivity].
Qed.

Lemma parser_safe_prefix c v i s :
  parser_safe (prefix_of c v i s)
  = parser_safe c && (parser_safe v && (parser_safe i && parser_safe s)).
Proof.
  unfold prefix_of. rewrite !parser_safe_app.
  change (parser_safe "|") with true. rewrite !andb_true_r, ?andb_true_l. reflexivity.
Qed.

(** ** The prefix character and the body (C9, C10) *)

(** C9, as the code has it: the line begins with the prefix
    [LEVELCHAR|version|identity|sessionId|].  For a record without exception
    text the level character is the first character of the level name as it
    is written (no change of case; [U] for an empty name) and the prefix is
    followed by the body [timestamp|loggerName|funcName|lineNumber|message],
    then by the stack text if the record has one.  For a record with
    exception text the level character is [X], whatever the level. *)
Theorem format_prefix_then_body (strftime : string -> Z -> string) v i s lo r :
  let out := fst (fst (format strftime (formatter_with v i s lo) r)) in
  let body := body_of (strftime DATEFORMAT (created r)) (name r) (shown_funcName r)
                (shown_lineno r) (msg r) in
  (carries_exception r = true
   /\ exists line, out = Some (prefix_of "X" v i s ++ line))
  \/ (carries_exception r = false
      /\ out = Some (prefix_of (match levelname r with
                                | String c _ => Py.chr c
                                | EmptyString => "U"
                                end) v i s
                     ++ body
                     ++ match stack_info r with
                        | Some (String c t) => line_break body ++ String c t
                        | _ => EmptyString
                        end)).
Proof.
  intros out body. subst out. rewrite format_closed. simpl fst.
  unfold level_char. destruct (carries_exception r) eqn:E.
  - left. split; [reflexivity|]. eexists. reflexivity.
  - right. split; [reflexivity|]. do 2 f_equal.
    unfold base_line. rewrite E. fold body.
    destruct (stack_info r) as [[|c t]|].
    + now rewrite append_nil_r.
    + now rewrite end_line_break, append_assoc.
    + now rewrite append_nil_r.
Qed.

(** The first sentence of C9 holds as it stands: a record of level [ERROR]
    without exception text is rendered with [E|version|identity|sessionId|]
    and then the body. *)
Lemma format_error_level (strftime : string -> Z -> string) v i s lo r :
  levelname r = "ERROR" ->
  carries_exception r = false ->
  exists rest,
    fst (fst (format strftime (formatter_with v i s lo) r))
    = Some (prefix_of "E" v i s
            ++ body_of (strftime DATEFORMAT (created r)) (name r) (shown_funcName r)
                 (shown_lineno r) (msg r)
            ++ rest).
Proof.
  intros Hl Hc. rewrite format_closed. simpl fst.
  unfold level_char, level_initial, base_line. rewrite Hc, Hl.
  destruct (stack_info r) as [[|c t]|].
  - exists EmptyString. now rewrite append_nil_r.
  - eexists. now rewrite end_line_break, append_assoc.
  - exists EmptyString. now rewrite append_nil_r.
Qed.

(** C9, first sentence, on a record of level [ERROR] without exception. *)
Example format_error_record :
  fst (fst (format sample_strftime sample_formatter record_error))
  = Some ("E|ver:1.0.0|7d9f4c1e-0000-4000-8000-000000000001|1700000000|"
          ++ "2023-06-01T12:00:00+0000|gamestonk_terminal.loggers|setup_logging|226|"
          ++ "Logging configuration finished").
Proof. reflexivity. Qed.

(** C9 as stated fails on a level name that is not upper case: the
    level character is taken as it is written, [e] here, and the line does
    not begin with the uppercased initial. *)
Lemma format_keeps_case_of_level :
  carries_exception record_lowercase = false
  /\ uppercased_initial record_lowercase = "E"
  /\ exists out,
       fst (fst (format sample_strftime sample_formatter record_lowercase)) = Some out
       /\ String.prefix "e|ver:1.0.0|" out = true
       /\ String.prefix (prefix_of (uppercased_initial record_lowercase) "ver:1.0.0"
                           "7d9f4c1e-0000-4000-8000-000000000001" "1700000000") out = false.
Proof.
  split; [reflexivity|]. split; [reflexivity|].
  eexists. split; [reflexivity|]. split; reflexivity.
Qed.

(** C10: a record with an empty level name and no exception text is
    rendered with the level character [U]. *)
Theorem format_empty_level_is_U (strftime : string -> Z -> string) v i s lo r :
  levelname r = EmptyString ->
  carries_exception r = false ->
  exists line,
    fst (fst (format strftime (formatter_with v i s lo) r)) = Some (prefix_of "U" v i s ++ line).
Proof.
  intros Hl Hc. rewrite format_closed. simpl fst.
  unfold level_char, level_initial. rewrite Hc, Hl.
  eexists. reflexivity.
Qed.

Lemma format_empty_level_is_U_witness :
  levelname record_unnamed_level = EmptyString
  /\ carries_exception record_unnamed_level = false
  /\ exists line,
       fst (fst (format sample_strftime sample_formatter record_unnamed_level))
       = Some (prefix_of "U" "ver:1.0.0" "7d9f4c1e-0000-4000-8000-000000000001" "1700000000"
               ++ line).
Proof.
  split; [reflexivity|]. split; [reflexivity|].
  apply (format_empty_level_is_U sample_strftime "ver:1.0.0"
           "7d9f4c1e-0000-4000-8000-000000000001" "1700000000" None record_unnamed_level);
    reflexivity.
Defined.

(** ** Exception text on one line (C2) *)

(** C2, as the code has it: for a record that carries exception text the
    line is the prefix with level character [X], whatever the level,
    followed by the text of the base formatter in which every line feed has
    become [ - ], every tab a space, every carriage return nothing and every
    single or double quote a backtick; that text has no line feed, tab,
    carriage return, single or double quote.  The prefix is put in front
    after the replacements, so the whole line is free of these characters
    exactly when the version, the identity and the session identifier
    are. *)
Theorem format_exception_on_one_line (strftime : string -> Z -> string) v i s lo r :
  carries_exception r = true ->
  exists out,
    fst (fst (format strftime (formatter_with v i s lo) r)) = Some out
    /\ out = prefix_of "X" v i s ++ escaped (base_line strftime r)
    /\ parser_safe (escaped (base_line strftime r)) = true
    /\ parser_safe out = parser_safe v && (parser_safe i && parser_safe s).
Proof.
  intros Hc. rewrite format_closed. simpl fst.
  unfold level_char. rewrite Hc. rewrite one_line_is_escaped.
  eexists. split; [reflexivity|]. split; [reflexivity|].
  rewrite <- one_line_is_escaped.
  split; [apply one_line_parser_safe|].
  rewrite parser_safe_app, parser_safe_prefix, one_line_parser_safe.
  change (parser_safe "X") with true. now rewrite andb_true_r.
Qed.

Lemma format_exception_on_one_line_witness :
  carries_exception record_exception = true
  /\ exists out,
       fst (fst (format sample_strftime sample_formatter record_exception)) = Some out
       /\ out = prefix_of "X" "ver:1.0.0" "7d9f4c1e-0000-4000-8000-000000000001" "1700000000"
                ++ escaped (base_line sample_strftime record_exception)
       /\ parser_safe (escaped (base_line sample_strftime record_exception)) = true
       /\ parser_safe out
          = parser_safe "ver:1.0.0"
            && (parser_safe "7d9f4c1e-0000-4000-8000-000000000001" && parser_safe "1700000000").
Proof.
  split; [reflexivity|].
  apply (format_exception_on_one_line sample_strftime "ver:1.0.0"
           "7d9f4c1e-0000-4000-8000-000000000001" "1700000000" None record_exception).
  reflexivity.
Defined.

(** The line of the sample record with a traceback of three lines. *)
Example format_exception_record :
  fst (fst (format sample_strftime sample_formatter record_exception))
  = Some ("X|ver:1.0.0|7d9f4c1e-0000-4000-8000-000000000001|1700000000|"
          ++ "2023-06-01T12:00:00+0000|gamestonk_terminal.loggers|upload_file_to_s3|253|"
          ++ "upload failed - `Traceback (most recent call last):\n\tFile "
          ++ "`loggers.py`, line 251\r\nClientError: can\`t reach the bucket`").
Proof. vm_compute. reflexivity. Qed.

(** C2 as stated fails when a context value has one of the characters: with
    the identity [dev's-laptop] the line of a record carrying exception text
    has a single quote. *)
Lemma format_prefix_is_not_escaped :
  carries_exception record_exception = true
  /\ exists out,
       fst (fst (format sample_strftime quoted_formatter record_exception)) = Some out
       /\ Py.contains Py.SQUOTE out = true
       /\ parser_safe out = false.
Proof.
  split; [reflexivity|]. eexists. split; [reflexivity|]. split; reflexivity.
Qed.

(** ** What a call of [format] reads and writes (C4) *)

(** C4, as the code has it: the returned line is a function of the record
    and of the three context values; the level character a previous call
    left in the prefix dictionary does not reach it.  The call does write:
    it stores the level character of the record in the prefix dictionary,
    next to the three context values which it keeps, and it leaves the
    record with the overriding function name and line number, the message,
    the time stamp and the cached exception text.  A second call on the
    record and the formatter as the first one left them returns the same
    line and changes nothing more. *)
Theorem format_reads_and_writes (strftime : string -> Z -> string) v i s lo lo' r :
  let out := fst (fst (format strftime (formatter_with v i s lo) r)) in
  let r1 := snd (fst (format strftime (formatter_with v i s lo) r)) in
  let f1 := snd (format strftime (formatter_with v i s lo) r) in
  fst (fst (format strftime (formatter_with v i s lo') r)) = out
  /\ f1 = formatter_with v i s (Some (level_char r))
  /\ r1 = record_after strftime r
  /\ format strftime f1 r1 = (out, r1, f1).
Proof.
  intros out r1 f1. subst out r1 f1. rewrite !format_closed. simpl fst; simpl snd.
  split; [reflexivity|]. split; [reflexivity|]. split; [reflexivity|].
  rewrite format_closed.
  now rewrite carries_exception_after, level_char_after, base_line_after, record_after_idem.
Qed.

(** C4 as stated fails: a record with an overriding function name comes
    back changed, and the prefix dictionary has a fourth entry after the
    call. *)
Lemma format_changes_record_and_formatter :
  funcName (snd (fst (format sample_strftime sample_formatter record_override))) = "call_sh"
  /\ lineno (snd (fst (format sample_strftime sample_formatter record_override))) = 0
  /\ snd (fst (format sample_strftime sample_formatter record_override)) <> record_override
  /\ logPrefixDict (snd (format sample_strftime sample_formatter record_override))
     = [ ("loggingId", "7d9f4c1e-0000-4000-8000-000000000001"); ("sessionId", "1700000000");
         ("version", "ver:1.0.0"); ("levelname", "I") ]
  /\ snd (format sample_strftime sample_formatter record_override) <> sample_formatter.
Proof.
  split; [reflexivity|]. split; [reflexivity|].
  split; [intros E; apply (f_equal funcName) in E; discriminate E|].
  split; [reflexivity|].
  intros E; apply (f_equal (fun f => List.length (logPrefixDict f))) in E; discriminate E.
Qed.

(** ** Computations *)

Lemma bind_inl A B (m : M A) (k : A -> M B) w a w1 :
  m w = (inl a, w1) -> bind m k w = k a w1.
Proof. unfold bind. now intros ->. Qed.

Lemma bind_inr A B (m : M A) (k : A -> M B) w e w1 :
  m w = (inr e, w1) -> bind m k w = (inr e, w1).
Proof. unfold bind. now intros ->. Qed.

Lemma bind_returns A B (m : M A) (k : A -> M B) w b w2 :
  bind m k w = (inl b, w2) ->
  exists a w1, m w = (inl a, w1) /\ k a w1 = (inl b, w2).
Proof.
  unfold bind. destruct (m w) as [[a|e] w1]; intros E.
  - now exists a, w1.
  - discriminate E.
Qed.

Lemma bind_assoc A B C (m : M A) (f : A -> M B) (k : B -> M C) w :
  bind (bind m f) k w = bind m (fun x => bind (f x) k) w.
Proof. unfold bind. destruct (m w) as [[a|e] w1]; reflexivity. Qed.

Arguments bind_inl {A B m} k {w a w1} _.
Arguments bind_inr {A B m} k {w e w1} _.
Arguments bind_returns {A B} m k {w b w2} _.

(** ** The consent gate (C7) *)

(** C7: with the consent flag off, [upload_archive_logs_s3] returns at once:
    the file system is as before (nothing moved or renamed, no archive
    directory made, no sentinel or log root made either), no upload is
    made, and the only effect is one info-level message saying that logs
    are not collected. *)
Theorem upload_disabled_is_noop H directory_str log_filter w :
  ALLOW_LOG_COLLECTION H = false ->
  exists w',
    upload_archive_logs_s3 H directory_str log_filter w = (inl tt, w')
    /\ w' = set_journal (journal w ++ [Info "Logs not allowed to be collected"]) w
    /\ fs w' = fs w
    /\ uploaded w' = uploaded w
    /\ journal w' = (journal w ++ [Info "Logs not allowed to be collected"])%list.
Proof.
  intros Hc. unfold upload_archive_logs_s3. rewrite Hc.
  eexists. split; [reflexivity|]. repeat split.
Qed.

Lemma upload_disabled_is_noop_witness :
  ALLOW_LOG_COLLECTION (sample_host false accepting_store) = false
  /\ exists w',
       upload_archive_logs_s3 (sample_host false accepting_store) (Some sample_session_dir)
         default_log_filter (world_on rotated_disk) = (inl tt, w')
       /\ w' = set_journal (journal (world_on rotated_disk)
                            ++ [Info "Logs not allowed to be collected"])
                 (world_on rotated_disk)
       /\ fs w' = fs (world_on rotated_disk)
       /\ uploaded w' = uploaded (world_on rotated_disk)
       /\ journal w' = (journal (world_on rotated_disk)
                        ++ [Info "Logs not allowed to be collected"])%list.
Proof.
  split; [reflexivity|].
  apply (upload_disabled_is_noop (sample_host false accepting_store) (Some sample_session_dir)
           default_log_filter (world_on rotated_disk)).
  reflexivity.
Defined.

(** ** Renaming a file *)

Lemma lookup_rekey_src src dst t :
  src <> dst -> Fs.lookup src (Fs.rekey src dst t) = None.
Proof.
  intros Hne. unfold Fs.lookup. induction t as [|[k n] t IH]; simpl; [reflexivity|].
  destruct (String.eqb_spec k src) as [->|Hk]; simpl.
  - destruct (String.eqb_spec dst src) as [E|_]; [now elim Hne|exact IH].
  - destruct (String.eqb_spec k src) as [E|_]; [now elim Hk|exact IH].
Qed.

Lemma lookup_rekey_dst src dst t n :
  src <> dst -> Fs.lookup src t = Some n ->
  Fs.lookup dst (Fs.rekey src dst (Fs.remove dst t)) = Some n.
Proof.
  intros Hne. unfold Fs.lookup. induction t as [|[k x] t IH]; simpl; [discriminate|].
  destruct (String.eqb_spec k src) as [->|Hk].
  - intros E. injection E as ->.
    destruct (String.eqb_spec src dst) as [E|_]; [now elim Hne|]. simpl.
    now rewrite !String.eqb_refl.
  - intros E. destruct (String.eqb_spec k dst) as [->|Hd]; simpl; [now apply IH|].
    destruct (String.eqb_spec k src) as [E'|_]; [now elim Hk|]. simpl.
    destruct (String.eqb_spec k dst) as [E'|_]; [now elim Hd|]. now apply IH.
Qed.

(** Renaming a file to a place that is not a directory, inside a
    directory that exists, succeeds and moves the file. *)
Lemma rename_file src dst w content :
  Fs.lookup src (fs w) = Some (File content) ->
  Fs.is_dir (Path.parent dst) (fs w) = true ->
  Fs.is_dir dst (fs w) = false ->
  src <> dst ->
  exists w',
    Fs.rename src dst w = (inl tt, w')
    /\ w' = set_fs (Fs.rekey src dst (Fs.remove dst (fs w))) w
    /\ Fs.lookup src (fs w') = None
    /\ Fs.lookup dst (fs w') = Some (File content).
Proof.
  intros Hs Hp Hd Hne. unfold Fs.rename. rewrite Hs, Hp. simpl.
  destruct (String.eqb_spec src dst) as [E|_]; [now elim Hne|].
  unfold Fs.is_dir in Hd.
  destruct (Fs.lookup dst (fs w)) as [[c|]|] eqn:El; try discriminate Hd.
  all: eexists; split; [reflexivity|]; split; [reflexivity|]; simpl; split;
    [now apply lookup_rekey_src | now apply lookup_rekey_dst].
Qed.

(** ** Texts and paths *)

Lemma eqb_app_l a b c : String.eqb (a ++ b) (a ++ c) = String.eqb b c.
Proof. induction a as [|d a IH]; simpl; [reflexivity|]. now rewrite Ascii.eqb_refl. Qed.

Lemma eqb_self_app a c t : String.eqb a (a ++ String c t) = false.
Proof. induction a as [|d a IH]; simpl; [reflexivity|]. now rewrite Ascii.eqb_refl. Qed.

Lemma eqb_app_self a c t : String.eqb (a ++ String c t) a = false.
Proof. now rewrite String.eqb_sym, eqb_self_app. Qed.

Lemma prefix_app_l a b c : String.prefix (a ++ b) (a ++ c) = String.prefix b c.
Proof.
  induction a as [|d a IH]; simpl; [reflexivity|].
  destruct (ascii_dec d d) as [_|N]; [exact IH|now elim N].
Qed.

Lemma all_chars_app P a b : all_chars P (a ++ b) = all_chars P a && all_chars P b.
Proof. induction a as [|c a IH]; simpl; [reflexivity|]. now rewrite IH, andb_assoc. Qed.

Lemma all_chars_weaken (P Q : ascii -> bool) s :
  (forall c, P c = true -> Q c = true) -> all_chars P s = true -> all_chars Q s = true.
Proof.
  intros HPQ. induction s as [|c s IH]; simpl; [reflexivity|].
  intros E. apply andb_true_iff in E as [Ec Es]. now rewrite (HPQ c Ec), IH.
Qed.

Lemma all_chars_not_contains P c s :
  P c = false -> all_chars P s = true -> Py.contains c s = false.
Proof.
  intros HP. induction s as [|d s IH]; simpl; [reflexivity|].
  intros E. apply andb_true_iff in E as [Ed Es]. rewrite (IH Es), orb_false_r.
  destruct (Ascii.eqb_spec d c) as [->|_]; [congruence|reflexivity].
Qed.

Lemma rsplit_none sep n : Py.contains sep n = false -> Path.rsplit sep n = None.
Proof.
  induction n as [|c n IH]; simpl; [reflexivity|].
  intros E. apply orb_false_iff in E as [Ec En]. now rewrite (IH En), Ec.
Qed.

Lemma rsplit_join d n :
  Py.contains "/" n = false -> Path.rsplit "/" (d ++ String "/" n) = Some (d, n).
Proof.
  intros Hn. induction d as [|c d IH]; simpl.
  - now rewrite (rsplit_none _ _ Hn).
  - now rewrite IH.
Qed.

Lemma parent_join d n :
  d <> EmptyString -> Py.contains "/" n = false -> Path.parent (d ++ String "/" n) = d.
Proof.
  intros Hd Hn. unfold Path.parent. rewrite (rsplit_join _ _ Hn).
  destruct d; [now elim Hd|reflexivity].
Qed.

Lemma name_join d n : Py.contains "/" n = false -> Path.name (d ++ String "/" n) = n.
Proof. intros Hn. unfold Path.name. now rewrite (rsplit_join _ _ Hn). Qed.

Lemma lookup_app p a b :
  Fs.lookup p (a ++ b)%list
  = match Fs.lookup p a with Some n => Some n | None => Fs.lookup p b end.
Proof.
  unfold Fs.lookup. induction a as [|[k n] a IH]; simpl; [reflexivity|].
  destruct (String.eqb k p); [reflexivity|exact IH].
Qed.

(** ** Rendered identities *)

Lemma hex_digit_is_uuid_char n : (n < 16)%N -> is_uuid_char (Py.hex_digit n) = true.
Proof.
  intros Hn. destruct n as [|p]; [reflexivity|].
  do 4 (destruct p as [p|p|]; try reflexivity); lia.
Qed.

Lemma hex_is_uuid_text d n : all_chars is_uuid_char (hex d n) = true.
Proof.
  revert n. induction d as [|d IH]; intros n; simpl; [reflexivity|].
  rewrite all_chars_app, IH. simpl.
  rewrite hex_digit_is_uuid_char; [reflexivity|].
  apply N.mod_lt. discriminate.
Qed.

Lemma str_uuid_is_uuid_text u : all_chars is_uuid_char (str_uuid u) = true.
Proof.
  unfold str_uuid. rewrite !all_chars_app, !hex_is_uuid_text. reflexivity.
Qed.

Lemma str_uuid_not_empty u : exists c t, str_uuid u = String c t.
Proof. unfold str_uuid. simpl. eexists. eexists. reflexivity. Qed.

Lemma uuid_char_not_space c : is_uuid_char c = true -> Py.isspace c = false.
Proof.
  destruct c as [[] [] [] [] [] [] [] []]; intros E; try reflexivity; discriminate E.
Qed.

Lemma rstrip_snoc_space s c : Py.isspace c = true -> Py.rstrip (s ++ Py.chr c) = Py.rstrip s.
Proof.
  intros Hc. induction s as [|d s IH]; simpl.
  - now rewrite Hc.
  - now rewrite IH.
Qed.

Lemma rstrip_without_space s :
  all_chars (fun c => negb (Py.isspace c)) s = true -> Py.rstrip s = s.
Proof.
  induction s as [|c s IH]; simpl; [reflexivity|].
  intros E. apply andb_true_iff in E as [Ec Es]. rewrite (IH Es).
  destruct s; [|reflexivity].
  apply negb_true_iff in Ec. now rewrite Ec.
Qed.

Lemma first_line_of_line s t :
  Py.contains Py.LF s = false -> Py.contains Py.CR s = false ->
  Fs.first_line (s ++ String Py.LF t) = s ++ Py.chr Py.LF.
Proof.
  induction s as [|c s IH]; simpl; [reflexivity|].
  intros E E'. apply orb_false_iff in E as [Ec Es]. apply orb_false_iff in E' as [Ec' Es'].
  now rewrite Ec, Ec', (IH Es Es').
Qed.

Lemma strip_newline_snoc s : strip_newline (s ++ Py.chr Py.LF) = s.
Proof.
  induction s as [|c s IH]; [reflexivity|].
  change (String c s ++ Py.chr Py.LF) with (String c (s ++ Py.chr Py.LF)).
  destruct s as [|d s]; simpl in *; [reflexivity|]. now rewrite IH.
Qed.

(** What reading the sentinel gives for a text of UUID characters: the
    line is the text and the line feed, and stripping it gives the text
    back, which is also the line without its trailing newline. *)
Lemma read_back_identity id :
  all_chars is_uuid_char id = true ->
  Py.rstrip (Fs.first_line (id ++ Py.chr Py.LF)) = id
  /\ strip_newline (Fs.first_line (id ++ Py.chr Py.LF)) = id.
Proof.
  intros Hid.
  assert (L : Fs.first_line (id ++ Py.chr Py.LF) = id ++ Py.chr Py.LF).
  { apply first_line_of_line; now apply (all_chars_not_contains is_uuid_char). }
  rewrite L. split; [|apply strip_newline_snoc].
  rewrite rstrip_snoc_space by reflexivity.
  apply rstrip_without_space. revert Hid. apply all_chars_weaken.
  intros c Hc. now rewrite (uuid_char_not_space _ Hc).
Qed.

Lemma joinpath_uuid_text d id :
  all_chars is_uuid_char id = true -> id <> EmptyString ->
  Path.joinpath d id = d ++ String "/" id.
Proof.
  intros Hid Hne. destruct id as [|c t]; [now elim Hne|].
  unfold Path.joinpath. simpl in Hid. apply andb_true_iff in Hid as [Hc _].
  destruct (Ascii.eqb_spec c "/") as [->|_]; [discriminate Hc|reflexivity].
Qed.

(** ** The identity (C6) *)

(** Once an identity is settled, a call reads it back from the sentinel,
    returns its session directory and leaves the file system alone. *)
Lemma get_log_dir_settled H id w :
  all_chars is_uuid_char id = true ->
  settled H id (fs w) ->
  exists w',
    get_log_dir H w = (inl (Path.joinpath (log_root H) id), w')
    /\ fs w' = fs w
    /\ LOGGING_ID w' = Some id
    /\ entropy_reads w' = entropy_reads w.
Proof.
  intros Hid (Hroot & Hsent & Hdir).
  destruct (read_back_identity id Hid) as [Hread _].
  unfold sentinel, log_root in *.
  unfold get_log_dir, bind, gets, when, logger_debug, modify, ret, Fs.readline, Fs.is_file.
  simpl.
  repeat (first [rewrite Hroot | rewrite Hsent | rewrite Hread | rewrite Hdir]; simpl).
  eexists. split; [reflexivity|]. repeat split.
Qed.

Lemma lookup_single p k n :
  Fs.lookup p [(k, n)] = if String.eqb k p then Some n else None.
Proof. reflexivity. Qed.

Lemma lookup_app_none p a b :
  Fs.lookup p a = None -> Fs.lookup p (a ++ b)%list = Fs.lookup p b.
Proof. intros E. now rewrite lookup_app, E. Qed.

Lemma lookup_app_some p a b n :
  Fs.lookup p a = Some n -> Fs.lookup p (a ++ b)%list = Some n.
Proof. intros E. now rewrite lookup_app, E. Qed.

Lemma is_dir_lookup p t : Fs.is_dir p t = true <-> Fs.lookup p t = Some Dir.
Proof.
  unfold Fs.is_dir. destruct (Fs.lookup p t) as [[c|]|]; split; intros E;
    try reflexivity; discriminate E.
Qed.

Lemma mkdir_new p w :
  Fs.lookup p (fs w) = None ->
  Fs.lookup (Path.parent p) (fs w) = Some Dir ->
  Fs.mkdir p w = (inl tt, set_fs (fs w ++ [(p, Dir)]) w).
Proof.
  intros Hp Hd. unfold Fs.mkdir, Fs.exists_, Fs.is_dir. now rewrite Hp, Hd.
Qed.

Lemma append_text_new p text w :
  Fs.lookup p (fs w) = None ->
  Fs.lookup (Path.parent p) (fs w) = Some Dir ->
  Fs.append_text p text w = (inl tt, set_fs (fs w ++ [(p, File text)]) w).
Proof.
  intros Hp Hd. unfold Fs.append_text, Fs.is_dir. now rewrite Hp, Hd.
Qed.

Lemma below_join d n : Fs.below d (d ++ String "/" n) = true.
Proof.
  unfold Fs.below. change (d ++ String "/" n) with (d ++ ("/" ++ n)).
  rewrite prefix_app_l. simpl. destruct (ascii_dec "/" "/") as [_|N]; [|now elim N].
  destruct n; reflexivity.
Qed.

Lemma append_not_empty a c t : a ++ String c t <> EmptyString.
Proof. destruct a; discriminate. Qed.

(** One step of a computation whose first action always returns. *)
Ltac run :=
  repeat first
    [ progress cbv beta
    | rewrite bind_assoc
    | progress cbn [fs journal uploaded LOGGING_ID LOGGING_VERSION LOGGING_FILE levels
                    root_handlers clock_reads entropy_reads
                    set_fs set_journal set_uploaded set_LOGGING_ID set_LOGGING_VERSION
                    set_LOGGING_FILE set_levels set_root_handlers set_clock_reads
                    set_entropy_reads when negb]
    | match goal with
      | |- context [bind (logger_debug ?t) ?k ?w] =>
          change (bind (logger_debug t) k w)
            with (k tt (set_journal (journal w ++ [Debug t]) w))
      | |- context [bind (logger_info ?t) ?k ?w] =>
          change (bind (logger_info t) k w)
            with (k tt (set_journal (journal w ++ [Info t]) w))
      | |- context [bind (gets ?f) ?k ?w] =>
          change (bind (gets f) k w) with (k (f w) w)
      | |- context [bind (modify ?f) ?k ?w] =>
          change (bind (modify f) k w) with (k tt (f w))
      | |- context [bind (ret ?a) ?k ?w] =>
          change (bind (ret a) k w) with (k a w)
      | |- context [bind (uuid4 ?H) ?k ?w] =>
          change (bind (uuid4 H) k w)
            with (k (entropy H (entropy_reads w)) (set_entropy_reads (S (entropy_reads w)) w))
      | |- context [bind (time_time ?H) ?k ?w] =>
          change (bind (time_time H) k w)
            with (k (clock H (clock_reads w)) (set_clock_reads (S (clock_reads w)) w))
      end ].

(** The first call on a log root that is missing or empty mints an
    identity and settles it. *)
Lemma get_log_dir_first H w :
  package_parent H <> EmptyString ->
  Fs.is_dir (package_parent H) (fs w) = true ->
  Fs.is_file (log_root H) (fs w) = false ->
  (forall p, Fs.below (log_root H) p = true -> Fs.lookup p (fs w) = None) ->
  exists w1,
    get_log_dir H w
    = (inl (Path.joinpath (log_root H) (str_uuid (entropy H (entropy_reads w)))), w1)
    /\ LOGGING_ID w1 = Some (str_uuid (entropy H (entropy_reads w)))
    /\ settled H (str_uuid (entropy H (entropy_reads w))) (fs w1).
Proof.
  intros Hpp Hparent Hroot Hempty.
  assert (Hid : all_chars is_uuid_char (str_uuid (entropy H (entropy_reads w))) = true)
    by apply str_uuid_is_uuid_text.
  assert (Hne : str_uuid (entropy H (entropy_reads w)) <> EmptyString).
  { destruct (str_uuid_not_empty (entropy H (entropy_reads w))) as (c & t & E).
    rewrite E. discriminate. }
  unfold settled, sentinel, get_log_dir.
  change (Path.joinpath (package_parent H) "logs") with (log_root H).
  assert (ER : log_root H = package_parent H ++ String "/" "logs") by reflexivity.
  remember (str_uuid (entropy H (entropy_reads w))) as id eqn:Eid.
  remember (log_root H) as R eqn:ER0.
  assert (Hslash : Py.contains "/" id = false)
    by now apply (all_chars_not_contains is_uuid_char).
  assert (ED : Path.joinpath R id = R ++ String "/" id) by now apply joinpath_uuid_text.
  assert (ES : Path.joinpath R ".logid" = R ++ String "/" ".logid") by reflexivity.
  remember (Path.joinpath R ".logid") as S eqn:ES0.
  remember (Path.joinpath R id) as D eqn:ED0.
  assert (PR : Path.parent R = package_parent H) by (rewrite ER; now apply parent_join).
  assert (RN : R <> EmptyString) by (rewrite ER; apply append_not_empty).
  assert (PS : Path.parent S = R) by (rewrite ES; now apply parent_join).
  assert (PD : Path.parent D = R) by (rewrite ED; now apply parent_join).
  assert (LS : Fs.lookup S (fs w) = None) by (apply Hempty; rewrite ES; apply below_join).
  assert (LD : Fs.lookup D (fs w) = None) by (apply Hempty; rewrite ED; apply below_join).
  assert (RS : String.eqb R S = false) by (rewrite ES; apply eqb_self_app).
  assert (RD : String.eqb R D = false) by (rewrite ED; apply eqb_self_app).
  assert (SD : String.eqb S D = false).
  { rewrite ES, ED, eqb_app_l. apply String.eqb_neq. intros E.
    injection E as E. rewrite <- E in Hid. discriminate Hid. }
  apply is_dir_lookup in Hparent.
  unfold Fs.is_file in Hroot.
  run.
  match goal with |- context [bind _ ?k _] => set (K := k) end.
  assert (Rest : forall W,
             Fs.lookup R (fs W) = Some Dir -> Fs.lookup S (fs W) = None ->
             Fs.lookup D (fs W) = None -> entropy_reads W = entropy_reads w ->
             exists w1, K tt W = (inl D, w1) /\ LOGGING_ID w1 = Some id
                        /\ Fs.is_dir R (fs w1) = true
                        /\ Fs.lookup S (fs w1) = Some (File (id ++ Py.chr Py.LF))
                        /\ Fs.is_dir D (fs w1) = true).
  { intros W WR WS WD WE. subst K.
    assert (T2D : Fs.lookup D (fs W ++ [(S, File (id ++ Py.chr Py.LF))])%list = None)
      by now rewrite (lookup_app_none _ _ _ WD), lookup_single, SD.
    assert (T2R : Fs.lookup R (fs W ++ [(S, File (id ++ Py.chr Py.LF))])%list = Some Dir)
      by now apply lookup_app_some.
    assert (T2S : Fs.lookup S (fs W ++ [(S, File (id ++ Py.chr Py.LF))])%list
                  = Some (File (id ++ Py.chr Py.LF)))
      by now rewrite (lookup_app_none _ _ _ WS), lookup_single, String.eqb_refl.
    eexists. split.
    - run. unfold Fs.is_file at 1. rewrite WS. run. rewrite WE, <- Eid.
      erewrite bind_inl;
        [|apply append_text_new; [exact WS|rewrite PS; exact WR]].
      run. rewrite <- ED0.
      unfold Fs.is_dir at 1. rewrite T2D. run.
      erewrite bind_inl;
        [|apply mkdir_new; [exact T2D|rewrite PD; exact T2R]].
      run. reflexivity.
    - cbn [LOGGING_ID fs set_fs set_journal set_LOGGING_ID set_entropy_reads].
      split; [reflexivity|].
      split; [apply is_dir_lookup; now apply lookup_app_some|].
      split; [now apply lookup_app_some|].
      apply is_dir_lookup. now rewrite (lookup_app_none _ _ _ T2D), lookup_single, String.eqb_refl. }
  unfold Fs.is_dir at 1.
  destruct (Fs.lookup R (fs w)) as [[c|]|] eqn:LR; [discriminate Hroot| |].
  - run. apply Rest; try assumption; reflexivity.
  - run.
    erewrite bind_inl;
      [|apply mkdir_new; [exact LR|rewrite PR; exact Hparent]].
    apply Rest; cbn [fs set_fs set_journal entropy_reads].
    + now rewrite (lookup_app_none _ _ _ LR), lookup_single, String.eqb_refl.
    + now rewrite (lookup_app_none _ _ _ LS), lookup_single, RS.
    + now rewrite (lookup_app_none _ _ _ LD), lookup_single, RD.
    + reflexivity.
Qed.

Lemma log_root_empty_lookup H t :
  log_root_empty H t = true ->
  forall p, Fs.below (log_root H) p = true -> Fs.lookup p t = None.
Proof.
  unfold log_root_empty, Fs.lookup. intros Ht p Hp.
  induction t as [|[k n] t IH]; simpl in *; [reflexivity|].
  apply andb_true_iff in Ht as [Hk Ht].
  destruct (String.eqb_spec k p) as [->|_].
  - rewrite Hp in Hk. discriminate Hk.
  - now apply IH.
Qed.

Lemma get_log_dir_times_settled H id w n :
  all_chars is_uuid_char id = true ->
  settled H id (fs w) ->
  LOGGING_ID w = Some id ->
  exists wn,
    get_log_dir_times H n w = (repeat (inl (Path.joinpath (log_root H) id)) n, wn)
    /\ LOGGING_ID wn = Some id
    /\ fs wn = fs w.
Proof.
  intros Hid. revert w. induction n as [|n IH]; intros w Hs Hl.
  - exists w. repeat split; assumption.
  - destruct (get_log_dir_settled H id w Hid Hs) as (w1 & E1 & F1 & L1 & _).
    assert (Hs1 : settled H id (fs w1)) by now rewrite F1.
    destruct (IH w1 Hs1 L1) as (wn & En & Ln & Fn).
    exists wn. simpl. rewrite E1, En. repeat split; [assumption|congruence].
Qed.

(** The two calls of the testable property, computed: same directory,
    same identity, and the sentinel holds the identity and a line feed. *)
Example get_log_dir_twice :
  fst (get_log_dir_times (sample_host true accepting_store) 2 (world_on fresh_disk))
  = [inl sample_session_dir; inl sample_session_dir]
  /\ Fs.lookup "/opt/gst/logs/.logid"
       (fs (snd (get_log_dir (sample_host true accepting_store) (world_on fresh_disk))))
     = Some (File ("7d9f4c1e-0000-4000-8000-000000000001" ++ Py.chr Py.LF))
  /\ LOGGING_ID (snd (get_log_dir_times (sample_host true accepting_store) 2
                        (world_on fresh_disk)))
     = Some "7d9f4c1e-0000-4000-8000-000000000001".
Proof. repeat split; vm_compute; reflexivity. Qed.

(** The end of [get_log_dir] does not touch the identity, whether or not
    the session directory can be made. *)
Lemma readline_file p w content :
  Fs.lookup p (fs w) = Some (File content) ->
  Fs.readline p w = (inl (Fs.first_line content), w).
Proof. intros E. unfold Fs.readline. now rewrite E. Qed.

Lemma ensure_session_dir_keeps_identity (b : bool) (text d : string) w :
  LOGGING_ID
    (snd (bind (when b (bind (logger_debug text) (fun _ => Fs.mkdir d)))
            (fun _ => ret d) w))
  = LOGGING_ID w.
Proof.
  destruct b; cbn [when]; [|reflexivity].
  unfold bind, logger_debug, modify, Fs.mkdir, ret. cbn [fs set_journal].
  destruct (Fs.exists_ d (fs w)); [reflexivity|].
  destruct (Fs.is_dir (Path.parent d) (fs w)); reflexivity.
Qed.

(** With the sentinel present, whatever it holds, the identity is the first
    line with all trailing white space stripped: [rstrip()] takes the line
    feed and any blanks before it. *)
Lemma get_log_dir_reads_sentinel H w content :
  Fs.is_dir (log_root H) (fs w) = true ->
  Fs.lookup (sentinel H) (fs w) = Some (File content) ->
  LOGGING_ID (snd (get_log_dir H w)) = Some (Py.rstrip (Fs.first_line content)).
Proof.
  intros Hroot Hsent. unfold sentinel, log_root in *. unfold get_log_dir.
  run. rewrite Hroot. run. unfold Fs.is_file at 1. rewrite Hsent. run.
  erewrite bind_inl; [|apply readline_file; exact Hsent].
  run. rewrite ensure_session_dir_keeps_identity. reflexivity.
Qed.

(** Without the sentinel a call mints a new identity: stability ends when
    the sentinel is deleted. *)
Lemma get_log_dir_without_sentinel H w :
  package_parent H <> EmptyString ->
  Fs.is_dir (log_root H) (fs w) = true ->
  Fs.lookup (sentinel H) (fs w) = None ->
  LOGGING_ID (snd (get_log_dir H w)) = Some (str_uuid (entropy H (entropy_reads w))).
Proof.
  intros Hpp Hroot Hsent.
  assert (PS : Path.parent (sentinel H) = log_root H).
  { unfold sentinel, log_root.
    change (Path.joinpath (Path.joinpath (package_parent H) "logs") ".logid")
      with ((package_parent H ++ String "/" "logs") ++ String "/" ".logid").
    apply parent_join; [apply append_not_empty|reflexivity]. }
  apply is_dir_lookup in Hroot.
  unfold sentinel, log_root in *. unfold get_log_dir.
  run. unfold Fs.is_dir at 1. rewrite Hroot. run.
  unfold Fs.is_file at 1. rewrite Hsent. run.
  erewrite bind_inl; [|apply append_text_new; [exact Hsent|rewrite PS; exact Hroot]].
  run. rewrite ensure_session_dir_keeps_identity. reflexivity.
Qed.

(** ** Patterns *)

Lemma match_star_slash (rest : string -> bool) a x n :
  Re.atom_matches a "/" = false ->
  (forall y, rest (y ++ String "/" n) = rest y) ->
  Re.match_star rest a (x ++ String "/" n) = Re.match_star rest a x.
Proof.
  intros Ha Hrest. induction x as [|c x IH].
  - pose proof (Hrest EmptyString) as H0. simpl in *. now rewrite Ha, H0.
  - pose proof (Hrest (String c x)) as Hc. simpl in *. now rewrite IH, Hc.
Qed.

(** A pattern that cannot take a slash matches at a place of the directory
    part only inside the directory part. *)
Lemma match_here_slash p :
  slashless p = true ->
  forall x n, Re.match_here p (x ++ String "/" n) = Re.match_here p x.
Proof.
  induction p as [|[a starred] p IH]; intros Hp x n; [reflexivity|].
  simpl in Hp. apply andb_true_iff in Hp as [Ha Hp]. apply negb_true_iff in Ha.
  destruct starred; simpl.
  - apply match_star_slash; [exact Ha|]. intros y. now apply IH.
  - destruct x as [|c x]; simpl.
    + now rewrite Ha.
    + now rewrite IH.
Qed.

Lemma search_slash p x n :
  slashless p = true ->
  Re.search p (x ++ String "/" n) = Re.search p x || Re.search p n.
Proof.
  intros Hp. induction x as [|c x IH].
  - pose proof (match_here_slash p Hp EmptyString n) as H0. simpl in *.
    now rewrite H0, orb_false_r.
  - pose proof (match_here_slash p Hp (String c x) n) as Hc. simpl in *.
    now rewrite IH, Hc, orb_assoc.
Qed.

(** The rotation pattern is found in a path exactly when it is found in the
    directory part or in the name. *)
Lemma found_rotation_in_path d n :
  found default_log_filter (d ++ String "/" n)
  = found default_log_filter d || found default_log_filter n.
Proof.
  unfold found.
  destruct (Re.compile default_log_filter) as [r|] eqn:E; [|reflexivity].
  apply search_slash.
  vm_compute in E. injection E as <-. vm_compute. reflexivity.
Qed.

Lemma search_cons p c s :
  Re.search p (String c s) = Re.match_here p (String c s) || Re.search p s.
Proof. reflexivity. Qed.

(** The filter of the start-up run is a plain text search for [.log]. *)
Lemma found_dot_log s :
  found "\.log" s = true <-> exists a b, s = a ++ ".log" ++ b.
Proof.
  unfold found. change (Re.compile "\.log")
    with (Some [(Re.Lit ".", false); (Re.Lit "l", false); (Re.Lit "o", false);
                (Re.Lit "g", false)]).
  assert (Here : forall t,
             Re.match_here [(Re.Lit ".", false); (Re.Lit "l", false); (Re.Lit "o", false);
                            (Re.Lit "g", false)] t = true
             <-> exists b, t = ".log" ++ b).
  { intros t. split.
    - destruct t as [|c1 [|c2 [|c3 [|c4 b]]]]; simpl;
        rewrite ?andb_false_r; try discriminate.
      rewrite andb_true_r, !andb_true_iff. intros (E1 & E2 & E3 & E4).
      apply Ascii.eqb_eq in E1, E2, E3, E4. subst. now exists b.
    - intros [b ->]. reflexivity. }
  induction s as [|c s IH].
  - split.
    + intros E. discriminate E.
    + intros (a & b & E). destruct a; discriminate E.
  - rewrite search_cons, orb_true_iff, Here, IH. split.
    + intros [[b E]|(a & b & E)].
      * exists EmptyString, b. exact E.
      * exists (String c a), b. simpl. now rewrite E.
    + intros (a & b & E). destruct a as [|c' a].
      * left. exists b. exact E.
      * right. exists a, b. simpl in E. now injection E.
Qed.

(** ** Selecting the files *)

Lemma select_log_files_run archive pattern r files acc w :
  Re.compile pattern = Some r ->
  select_log_files archive pattern files acc w
  = (inl (fold_left (select_step archive pattern) files acc), w).
Proof.
  intros E. revert acc. induction files as [|file files IH]; intros acc; simpl.
  - reflexivity.
  - rewrite E, IH. unfold select_step, archive_place, found. now rewrite E.
Qed.

Lemma in_dict_set {V} k (v : V) d k' v' :
  In (k', v') (Py.dict_set k v d) -> (k' = k /\ v' = v) \/ In (k', v') d.
Proof.
  induction d as [|[k0 v0] d IH]; simpl.
  - intros [E | [ ] ]. injection E as E1 E2. now left.
  - destruct (String.eqb k0 k); simpl.
    + intros [E|Hin]; [injection E as E1 E2; now left|right; now right].
    + intros [E|Hin]; [right; now left|].
      destruct (IH Hin) as [L|R]; [now left|right; now right].
Qed.

Lemma dict_set_in {V} k (v : V) d : In (k, v) (Py.dict_set k v d).
Proof.
  induction d as [|[k0 v0] d IH]; simpl; [now left|].
  destruct (String.eqb k0 k); simpl; [now left|now right].
Qed.

Lemma dict_set_keeps {V} k (v : V) d k' v' :
  In (k', v') d -> k' <> k \/ v' = v -> In (k', v') (Py.dict_set k v d).
Proof.
  induction d as [|[k0 v0] d IH]; simpl; [intros []|].
  intros [E|Hin] Hor.
  - injection E as E1 E2. subst k0 v0.
    destruct (String.eqb_spec k' k) as [->|Hne]; simpl.
    + destruct Hor as [N | ->]; [now elim N|now left].
    + now left.
  - destruct (String.eqb k0 k); simpl; right; [exact Hin|now apply IH].
Qed.

Section Selection.

Variables archive pattern : string.

Lemma fold_selection_sound files :
forall acc,
  (forall k v, In (k, v) acc -> v = archive_place archive k) ->
  forall k v, In (k, v) (fold_left (select_step archive pattern) files acc) ->
              In (k, v) acc
              \/ (In k files /\ found pattern k = true /\ v = archive_place archive k).
Proof.
induction files as [|file files IH]; intros acc Hacc k v; simpl.
- now left.
- intros Hin. apply IH in Hin.
  + destruct Hin as [Hin|(Hf & Hm & Hv)]; [|right; repeat split; auto].
    unfold select_step in Hin. destruct (found pattern file) eqn:Ef; [|now left].
    apply in_dict_set in Hin as [[-> ->]|Hin]; [|now left].
    right. repeat split; auto.
  + intros k0 v0 Hin0. unfold select_step in Hin0.
    destruct (found pattern file); [|now apply Hacc].
    apply in_dict_set in Hin0 as [[-> ->]|Hin0]; [reflexivity|now apply Hacc].
Qed.

Lemma fold_selection_keeps files :
forall acc k,
  In (k, archive_place archive k) acc ->
  In (k, archive_place archive k) (fold_left (select_step archive pattern) files acc).
Proof.
induction files as [|file files IH]; intros acc k Hin; simpl; [exact Hin|].
apply IH. unfold select_step. destruct (found pattern file); [|exact Hin].
apply dict_set_keeps; [exact Hin|].
destruct (String.eqb_spec k file) as [->|Hne]; [now right|now left].
Qed.

Lemma fold_selection_complete files :
forall acc k,
  In k files -> found pattern k = true ->
  In (k, archive_place archive k) (fold_left (select_step archive pattern) files acc).
Proof.
induction files as [|file files IH]; intros acc k; simpl; [intros []|].
intros [->|Hin] Hm.
- apply fold_selection_keeps. unfold select_step. rewrite Hm. apply dict_set_in.
- now apply IH.
Qed.

(** The selection holds exactly the listed entries in whose path the
  pattern is found, each with its place in the archive. *)
Lemma selection_exact files k v :
In (k, v) (selection archive pattern files)
<-> In k files /\ found pattern k = true /\ v = archive_place archive k.
Proof.
unfold selection. split.
- intros Hin. apply fold_selection_sound in Hin; [ | intros ? ? [ ] ].
  destruct Hin as [ [ ] | Hin ]. exact Hin.
- intros (Hf & Hm & ->). now apply fold_selection_complete.
Qed.

End Selection.

(** ** Listing a directory *)

Lemma in_children p d t :
  In p (Fs.children d t) <-> (exists n, In (p, n) t) /\ Path.parent p = d /\ p <> d.
Proof.
  unfold Fs.children. rewrite in_map_iff. split.
  - intros ([k n] & <- & Hin). apply filter_In in Hin as [Hin Hc]. simpl in *.
    apply andb_true_iff in Hc as [Hp Hne].
    apply String.eqb_eq in Hp. apply negb_true_iff, String.eqb_neq in Hne.
    split; [now exists n|now split].
  - intros ([n Hin] & Hp & Hne). exists (p, n). split; [reflexivity|].
    apply filter_In. split; [exact Hin|]. simpl.
    apply andb_true_iff. split; [now apply String.eqb_eq|].
    now apply negb_true_iff, String.eqb_neq.
Qed.

Lemma children_app d a b :
  Fs.children d (a ++ b)%list = (Fs.children d a ++ Fs.children d b)%list.
Proof. unfold Fs.children. now rewrite filter_app, map_app. Qed.

Lemma in_exists p n t : In (p, n) t -> Fs.exists_ p t = true.
Proof.
  unfold Fs.exists_, Fs.lookup. induction t as [|[k x] t IH]; simpl; [intros []|].
  intros [E|Hin].
  - injection E as E1 E2. subst. now rewrite String.eqb_refl.
  - destruct (String.eqb k p); [reflexivity|now apply IH].
Qed.

(** ** What the upload loop sends *)

Lemma rename_keeps_uploaded src dst w : uploaded (snd (Fs.rename src dst w)) = uploaded w.
Proof.
  unfold Fs.rename.
  repeat match goal with
         | |- context [match ?x with _ => _ end] => destruct x
         end; reflexivity.
Qed.

Section UploadLoop.

Variable H : host.

Lemma upload_and_archive_uploaded e w x :
  In x (uploaded (snd (upload_and_archive H e w))) ->
  In x (uploaded w) \/ x = object_of (fst e).
Proof.
  destruct e as [log_file archived_file].
  unfold upload_and_archive, upload_file_to_s3, try, s3_client_upload_file, bind.
  destruct (s3_upload_file H log_file BUCKET (FOLDER_NAME ++ "/" ++ Path.name log_file))
    as [[t|t|t|t|t|t]|] eqn:E; simpl; try (intros Hin; now left).
  destruct (Fs.rename log_file archived_file _) as [[[]|e] w'] eqn:R;
    apply (f_equal (fun r => uploaded (snd r))) in R; rewrite rename_keeps_uploaded in R;
    simpl in *; rewrite <- R; intros Hin; apply in_app_or in Hin as [Hin|[<-|[]]];
    [now left|now right|now left|now right].
Qed.

Lemma for_each_uploaded entries :
  forall w x,
    In x (uploaded (snd (for_each entries (upload_and_archive H) w))) ->
    In x (uploaded w) \/ exists e, In e entries /\ x = object_of (fst e).
Proof.
  induction entries as [|e entries IH]; intros w x; simpl; [now left|].
  unfold bind. destruct (upload_and_archive H e w) as [[[]|err] w1] eqn:E.
  - intros Hin. apply IH in Hin as [Hin|(e' & He' & ->)].
    + assert (Hin' : In x (uploaded (snd (upload_and_archive H e w)))) by now rewrite E.
      apply upload_and_archive_uploaded in Hin' as [Hin'| ->]; [now left|].
      right. exists e. split; [now left|reflexivity].
    + right. exists e'. split; [now right|reflexivity].
  - simpl. intros Hin.
    assert (Hin' : In x (uploaded (snd (upload_and_archive H e w)))) by now rewrite E.
    apply upload_and_archive_uploaded in Hin' as [Hin'| ->]; [now left|].
    right. exists e. split; [now left|reflexivity].
Qed.

End UploadLoop.

Lemma mkdir_cases p w :
  Fs.mkdir p w = (inl tt, set_fs (fs w ++ [(p, Dir)]) w)
  \/ exists e, Fs.mkdir p w = (inr e, w).
Proof.
  unfold Fs.mkdir. destruct (Fs.exists_ p (fs w)); [right; eexists; reflexivity|].
  destruct (Fs.is_dir (Path.parent p) (fs w)); [now left|right; eexists; reflexivity].
Qed.

Lemma iterdir_dir d w :
  Fs.lookup d (fs w) = Some Dir -> Fs.iterdir d w = (inl (Fs.children d (fs w)), w).
Proof. intros E. unfold Fs.iterdir, Fs.is_dir. now rewrite E. Qed.

(** Every object a run of [upload_archive_logs_s3] sends is an entry of
    the directory in whose path the pattern is found, under the fixed bucket
    and the folder with the bare file name. *)
Lemma upload_archive_uploads H d pattern w w2 :
  upload_archive_logs_s3 H (Some d) pattern w = (inl tt, w2) ->
  forall x,
    In x (uploaded w2) ->
    In x (uploaded w)
    \/ exists file,
         x = object_of file /\ found pattern file = true /\ Path.parent file = d
         /\ (Fs.exists_ file (fs w) = true \/ file = Path.joinpath d "archive").
Proof.
  unfold upload_archive_logs_s3. destruct (ALLOW_LOG_COLLECTION H).
  2:{ intros E. injection E as <-. intros x Hin. now left. }
  run.
  assert (Scan : forall W,
             uploaded W = uploaded w ->
             (forall file, In file (Fs.children d (fs W)) ->
                Path.parent file = d
                /\ (Fs.exists_ file (fs w) = true \/ file = Path.joinpath d "archive")) ->
             bind (Fs.iterdir d)
               (fun files =>
                  bind (select_log_files (Path.joinpath d "archive") pattern files [])
                    (fun log_files =>
                       bind (logger_info "Start uploading Logs")
                         (fun _ => bind (for_each (map snd log_files) (upload_and_archive H))
                                     (fun _ => logger_info "Logs uploaded")))) W
             = (inl tt, w2) ->
             forall x, In x (uploaded w2) ->
               In x (uploaded w)
               \/ exists file,
                    x = object_of file /\ found pattern file = true /\ Path.parent file = d
                    /\ (Fs.exists_ file (fs w) = true \/ file = Path.joinpath d "archive")).
  { intros W HU Hch E x Hin.
    apply bind_returns in E as (files & W1 & E1 & E).
    unfold Fs.iterdir in E1. destruct (Fs.is_dir d (fs W)); [|discriminate E1].
    injection E1 as <- <-.
    apply bind_returns in E as (log_files & W2 & E2 & E).
    assert (Sel : W2 = W /\ forall k v, In (k, v) log_files ->
                    In k (Fs.children d (fs W)) /\ found pattern k = true
                    /\ v = (k, Path.joinpath (Path.joinpath d "archive") (Path.name k))).
    { destruct (Re.compile pattern) as [r|] eqn:Ec.
      - rewrite (select_log_files_run _ _ r _ _ _ Ec) in E2. injection E2 as <- <-.
        split; [reflexivity|]. intros k v Hkv.
        now apply (selection_exact (Path.joinpath d "archive") pattern) in Hkv.
      - destruct (Fs.children d (fs W)); simpl in E2; [|rewrite Ec in E2; discriminate E2].
        injection E2 as <- <-. split; [reflexivity|]. intros k v []. }
    destruct Sel as [-> Sel].
    revert E. run. intros E.
    apply bind_returns in E as ([] & W3 & E3 & E).
    injection E as <-. cbn [uploaded set_journal] in Hin.
    assert (Hin' : In x (uploaded (snd (for_each (map snd log_files) (upload_and_archive H)
                                          (set_journal (journal W ++ [Info "Start uploading Logs"]) W)))))
      by now rewrite E3.
    apply for_each_uploaded in Hin' as [Hin'|(e & He & ->)].
    - left. cbn [uploaded set_journal] in Hin'. now rewrite <- HU.
    - right. apply in_map_iff in He as ([k v] & <- & Hkv).
      destruct (Sel k v Hkv) as (Hk & Hm & ->). simpl.
      exists k. split; [reflexivity|]. split; [exact Hm|]. now apply Hch. }
  destruct (Fs.exists_ (Path.joinpath d "archive") (fs w)) eqn:Ex; run.
  - apply Scan; [reflexivity|].
    intros file Hf. apply in_children in Hf as ([n Hn] & Hp & _).
    split; [exact Hp|]. left. now apply (in_exists _ n).
  - destruct (mkdir_cases (Path.joinpath d "archive") w) as [Em|[e Em]].
    + rewrite (bind_inl _ Em). run. apply Scan; [reflexivity|].
      cbn [fs set_fs set_journal]. intros file Hf.
      rewrite children_app in Hf. apply in_app_or in Hf as [Hf|Hf].
      * apply in_children in Hf as ([n Hn] & Hp & _).
        split; [exact Hp|]. left. now apply (in_exists _ n).
      * apply in_children in Hf as ([n Hn] & Hp & _).
        destruct Hn as [E | [ ] ]. injection E as <- _. split; [exact Hp|now right].
    + rewrite (bind_inr _ Em). intros E. discriminate E.
Qed.

Lemma lookup_dict_set_same p n t : Fs.lookup p (Py.dict_set p n t) = Some n.
Proof.
  unfold Fs.lookup. induction t as [|[k x] t IH]; simpl.
  - now rewrite String.eqb_refl.
  - destruct (String.eqb k p) eqn:E; simpl.
    + now rewrite String.eqb_refl.
    + now rewrite E.
Qed.

(** Appending to a file either fails and changes nothing, or leaves a
    file at the path; the answer depends on the file system alone. *)
Lemma append_text_cases p text w :
  (exists t, Fs.append_text p text w = (inl tt, set_fs t w) /\ Fs.is_file p t = true)
  \/ (exists e, Fs.append_text p text w = (inr e, w)).
Proof.
  unfold Fs.append_text. destruct (Fs.lookup p (fs w)) as [[c|]|] eqn:L.
  - left. eexists. split; [reflexivity|].
    unfold Fs.is_file. now rewrite lookup_dict_set_same.
  - right. eexists. reflexivity.
  - destruct (Fs.is_dir (Path.parent p) (fs w)).
    + left. eexists. split; [reflexivity|].
      unfold Fs.is_file. now rewrite (lookup_app_none _ _ _ L), lookup_single, String.eqb_refl.
    + right. eexists. reflexivity.
Qed.

Lemma append_text_same_fs p text w w0 t :
  fs w0 = fs w ->
  Fs.append_text p text w = (inl tt, set_fs t w) ->
  Fs.append_text p text w0 = (inl tt, set_fs t w0).
Proof.
  unfold Fs.append_text. intros ->.
  destruct (Fs.lookup p (fs w)) as [[c|]|]; try discriminate.
  - intros E. injection E as E. now rewrite E.
  - destruct (Fs.is_dir (Path.parent p) (fs w)); [|discriminate].
    intros E. injection E as E. now rewrite E.
Qed.

Lemma append_text_same_fs_fails p text w w0 e :
  fs w0 = fs w ->
  Fs.append_text p text w = (inr e, w) ->
  Fs.append_text p text w0 = (inr e, w0).
Proof.
  unfold Fs.append_text. intros ->.
  destruct (Fs.lookup p (fs w)) as [[c|]|]; try discriminate.
  - intros E. injection E as <-. reflexivity.
  - destruct (Fs.is_dir (Path.parent p) (fs w)); [discriminate|].
    intros E. injection E as <-. reflexivity.
Qed.

(** ** The rotated files of a session directory (C5) *)

Lemma lookup_rekey_other p src dst t :
  p <> src -> p <> dst ->
  Fs.lookup p (Fs.rekey src dst (Fs.remove dst t)) = Fs.lookup p t.
Proof.
  intros Hs Hd. unfold Fs.lookup. induction t as [|[k n] t IH]; simpl; [reflexivity|].
  destruct (String.eqb_spec k dst) as [->|Hkd]; simpl.
  - destruct (String.eqb_spec dst p) as [E|_]; [now elim Hd|exact IH].
  - destruct (String.eqb_spec k src) as [->|Hks]; simpl.
    + destruct (String.eqb_spec dst p) as [E|_]; [now elim Hd|].
      destruct (String.eqb_spec src p) as [E|_]; [now elim Hs|exact IH].
    + destruct (String.eqb k p); [reflexivity|exact IH].
Qed.

(** An accepted upload is recorded, and the file is then moved. *)
Lemma upload_accepted_then_archived H log_file archived_file w content :
  s3_upload_file H log_file BUCKET (FOLDER_NAME ++ "/" ++ Path.name log_file) = None ->
  Fs.lookup log_file (fs w) = Some (File content) ->
  Fs.is_dir (Path.parent archived_file) (fs w) = true ->
  Fs.is_dir archived_file (fs w) = false ->
  log_file <> archived_file ->
  upload_and_archive H (log_file, archived_file) w
  = (inl tt,
     set_fs (Fs.rekey log_file archived_file (Fs.remove archived_file (fs w)))
       (set_uploaded (uploaded w ++ [object_of log_file]) w)).
Proof.
  intros Hup Hs Hp Hd Hne.
  set (w1 := set_uploaded (uploaded w ++ [object_of log_file]) w).
  assert (U : upload_file_to_s3 H log_file BUCKET None (Some FOLDER_NAME) w = (inl tt, w1)).
  { unfold upload_file_to_s3, try, s3_client_upload_file. now rewrite Hup. }
  destruct (rename_file log_file archived_file w1 content Hs Hp Hd Hne)
    as (w' & Hr & Hw' & _).
  unfold upload_and_archive. rewrite (bind_inl _ U). unfold try. rewrite Hr. now rewrite Hw'.
Qed.

(** ** Upload failure and archiving (C1) *)

Lemma upload_failure_not_client_error file bucket key e text :
  upload_failure file bucket key e <> ClientError text.
Proof. destruct e; discriminate. Qed.

Lemma upload_file_to_s3_runs H file bucket object_name folder_name w :
  (exists w', upload_file_to_s3 H file bucket object_name folder_name w = (inl tt, w')
              /\ fs w' = fs w /\ journal w' = journal w)
  \/ (exists e, upload_file_to_s3 H file bucket object_name folder_name w = (inr e, w)
                /\ forall text, e <> ClientError text).
Proof.
  unfold upload_file_to_s3, try, s3_client_upload_file.
  match goal with |- context [s3_upload_file H ?f ?b ?k] =>
    destruct (s3_upload_file H f b k) as [e|] end.
  - right. eexists. split.
    + destruct e; reflexivity.
    + intros text. apply upload_failure_not_client_error.
  - left. eexists. repeat split.
Qed.

(** C1, as the code has it: [upload_file_to_s3] catches [ClientError] only,
    and [upload_file] lets none out: a transfer that fails raises
    [S3UploadFailedError], or the exception that ended it.  So when the
    upload of a matched file fails, whatever the failure, the exception is
    neither caught nor logged; it leaves [upload_file_to_s3], the round of the
    loop and the loop at that file, in the world as it was: the file is where
    it was, nothing is recorded as uploaded, and the files after it are not
    reached.  No call of [upload_file_to_s3] logs anything.  A round of the
    loop that changes the disk is one whose upload was accepted; and after an
    accepted upload a file is moved to its place in the archive, when the
    archive is there and no directory sits at that place. *)
Theorem upload_failure_stops_the_loop H :
  (forall log_file archived_file rest w e,
     s3_upload_file H log_file BUCKET (FOLDER_NAME ++ "/" ++ Path.name log_file) = Some e ->
     exists raised,
       raised = upload_failure log_file BUCKET (FOLDER_NAME ++ "/" ++ Path.name log_file) e
       /\ (forall text, raised <> ClientError text)
       /\ upload_file_to_s3 H log_file BUCKET None (Some FOLDER_NAME) w = (inr raised, w)
       /\ upload_and_archive H (log_file, archived_file) w = (inr raised, w)
       /\ for_each ((log_file, archived_file) :: rest) (upload_and_archive H) w
          = (inr raised, w))
  /\ (forall file bucket object_name folder_name w,
        journal (snd (upload_file_to_s3 H file bucket object_name folder_name w)) = journal w)
  /\ (forall log_file archived_file w,
        fs (snd (upload_and_archive H (log_file, archived_file) w)) <> fs w ->
        s3_upload_file H log_file BUCKET (FOLDER_NAME ++ "/" ++ Path.name log_file) = None)
  /\ (forall log_file archived_file w content,
        s3_upload_file H log_file BUCKET (FOLDER_NAME ++ "/" ++ Path.name log_file) = None ->
        Fs.lookup log_file (fs w) = Some (File content) ->
        Fs.is_dir (Path.parent archived_file) (fs w) = true ->
        Fs.is_dir archived_file (fs w) = false ->
        log_file <> archived_file ->
        exists w',
          upload_and_archive H (log_file, archived_file) w = (inl tt, w')
          /\ uploaded w' = (uploaded w ++ [object_of log_file])%list
          /\ journal w' = journal w
          /\ Fs.lookup log_file (fs w') = None
          /\ Fs.lookup archived_file (fs w') = Some (File content)).
Proof.
  split; [|split; [|split]].
  - intros log_file archived_file rest w e Hup.
    exists (upload_failure log_file BUCKET (FOLDER_NAME ++ "/" ++ Path.name log_file) e).
    assert (U : upload_file_to_s3 H log_file BUCKET None (Some FOLDER_NAME) w
                = (inr (upload_failure log_file BUCKET
                          (FOLDER_NAME ++ "/" ++ Path.name log_file) e), w)).
    { unfold upload_file_to_s3, try, s3_client_upload_file. rewrite Hup.
      destruct e; reflexivity. }
    assert (B : upload_and_archive H (log_file, archived_file) w
                = (inr (upload_failure log_file BUCKET
                          (FOLDER_NAME ++ "/" ++ Path.name log_file) e), w)).
    { unfold upload_and_archive. now rewrite (bind_inr _ U). }
    split; [reflexivity|].
    split; [intros text; apply upload_failure_not_client_error|].
    split; [exact U|]. split; [exact B|].
    cbn [for_each]. now rewrite (bind_inr _ B).
  - intros file bucket object_name folder_name w.
    destruct (upload_file_to_s3_runs H file bucket object_name folder_name w)
      as [(w' & -> & _ & J)|(x & -> & _)]; [exact J|reflexivity].
  - intros f a w Hfs.
    destruct (s3_upload_file H f BUCKET (FOLDER_NAME ++ "/" ++ Path.name f)) as [x|] eqn:Ex;
      [exfalso|reflexivity].
    apply Hfs. unfold upload_and_archive, upload_file_to_s3, try, s3_client_upload_file, bind.
    rewrite Ex. destruct x; reflexivity.
  - intros f a w content Hacc Hf Hp Hd Hne.
    rewrite (upload_accepted_then_archived H f a w content Hacc Hf Hp Hd Hne).
    eexists. split; [reflexivity|]. cbn [uploaded journal fs set_fs set_uploaded].
    repeat split.
    + now apply lookup_rekey_src.
    + now apply lookup_rekey_dst.
Qed.

Lemma upload_failure_stops_the_loop_witness :
  s3_upload_file (sample_host true refusing_store) rotated_a BUCKET
    (FOLDER_NAME ++ "/" ++ Path.name rotated_a) = Some (ClientError refusal)
  /\ (exists raised,
        raised = upload_failure rotated_a BUCKET (FOLDER_NAME ++ "/" ++ Path.name rotated_a)
                   (ClientError refusal)
        /\ (forall text, raised <> ClientError text)
        /\ upload_file_to_s3 (sample_host true refusing_store) rotated_a BUCKET None
             (Some FOLDER_NAME) (world_on archive_ready_disk)
           = (inr raised, world_on archive_ready_disk)
        /\ upload_and_archive (sample_host true refusing_store) (rotated_a, archived_a)
             (world_on archive_ready_disk)
           = (inr raised, world_on archive_ready_disk)
        /\ for_each [(rotated_a, archived_a); (rotated_b, archived_b)]
             (upload_and_archive (sample_host true refusing_store)) (world_on archive_ready_disk)
           = (inr raised, world_on archive_ready_disk))
  /\ s3_upload_file (sample_host true refusing_store) rotated_b BUCKET
       (FOLDER_NAME ++ "/" ++ Path.name rotated_b) = None
  /\ Fs.lookup rotated_b (fs (world_on archive_ready_disk)) = Some (File "second")
  /\ Fs.is_dir (Path.parent archived_b) (fs (world_on archive_ready_disk)) = true
  /\ Fs.is_dir archived_b (fs (world_on archive_ready_disk)) = false
  /\ rotated_b <> archived_b
  /\ exists w',
       upload_and_archive (sample_host true refusing_store) (rotated_b, archived_b)
         (world_on archive_ready_disk) = (inl tt, w')
       /\ uploaded w' = (uploaded (world_on archive_ready_disk) ++ [object_of rotated_b])%list
       /\ journal w' = journal (world_on archive_ready_disk)
       /\ Fs.lookup rotated_b (fs w') = None
       /\ Fs.lookup archived_b (fs w') = Some (File "second").
Proof.
  assert (Hne : rotated_b <> archived_b) by (apply String.eqb_neq; vm_compute; reflexivity).
  destruct (upload_failure_stops_the_loop (sample_host true refusing_store))
    as (Fails & _ & _ & Moves).
  split; [vm_compute; reflexivity|]. split.
  { apply (Fails rotated_a archived_a [(rotated_b, archived_b)] (world_on archive_ready_disk)
             (ClientError refusal)).
    vm_compute; reflexivity. }
  split; [vm_compute; reflexivity|]. split; [vm_compute; reflexivity|].
  split; [vm_compute; reflexivity|]. split; [vm_compute; reflexivity|].
  split; [exact Hne|].
  apply (Moves rotated_b archived_b (world_on archive_ready_disk) "second").
  - vm_compute; reflexivity.
  - vm_compute; reflexivity.
  - vm_compute; reflexivity.
  - vm_compute; reflexivity.
  - exact Hne.
Defined.

(** C1 as stated fails: the store refuses [a.log.2023-01-01_00] and would
    accept [b.log.2023-01-02_00].  The run ends with the error of the failed
    upload: the error is not logged, the loop does not go on to the second
    file, which is neither uploaded nor moved, and the closing line of the
    run is not logged. *)
Lemma upload_failure_ends_the_run :
  s3_upload_file (sample_host true refusing_store) rotated_a BUCKET
    (FOLDER_NAME ++ "/" ++ Path.name rotated_a) = Some (ClientError refusal)
  /\ s3_upload_file (sample_host true refusing_store) rotated_b BUCKET
       (FOLDER_NAME ++ "/" ++ Path.name rotated_b) = None
  /\ selected sample_session_dir default_log_filter (fs (world_on archive_ready_disk))
     = [rotated_a; rotated_b]
  /\ exists text w',
       upload_archive_logs_s3 (sample_host true refusing_store) (Some sample_session_dir)
         default_log_filter (world_on archive_ready_disk) = (inr (S3Error text), w')
       /\ journal w' = [Info "Start uploading Logs"]
       /\ uploaded w' = []
       /\ fs w' = fs (world_on archive_ready_disk)
       /\ Fs.is_file rotated_a (fs w') = true
       /\ Fs.is_file rotated_b (fs w') = true
       /\ Fs.exists_ archived_b (fs w') = false.
Proof.
  split; [vm_compute; reflexivity|]. split; [vm_compute; reflexivity|].
  split; [vm_compute; reflexivity|].
  exists (str_exn (upload_failure rotated_a BUCKET (FOLDER_NAME ++ "/" ++ Path.name rotated_a)
                     (ClientError refusal))).
  exists (snd (upload_archive_logs_s3 (sample_host true refusing_store)
                 (Some sample_session_dir) default_log_filter (world_on archive_ready_disk))).
  split; [vm_compute; reflexivity|]. split; [vm_compute; reflexivity|].
  split; [vm_compute; reflexivity|]. split; [vm_compute; reflexivity|].
  split; [vm_compute; reflexivity|]. split; vm_compute; reflexivity.
Qed.

Ltac path_differs :=
  rewrite ?append_assoc; simpl;
  first [ rewrite eqb_app_l; reflexivity
        | apply eqb_self_app
        | apply eqb_app_self ].

Ltac path_ne := apply String.eqb_neq; path_differs.

(** C5, as the code has it: the directory is listed without descending,
    and an entry is selected exactly when the rotation pattern is found in
    its path, the path of the session directory included; when the pattern
    is not found in the path of the session directory, that is when it is
    found in the name of the entry.  For such a session directory, holding
    [a.log.2023-01-01_00], [b.log.2023-01-02_00] and [current.log] and no
    archive yet, with upload enabled and a store that accepts the two
    objects: the two rotated files are uploaded, in this order, under the
    fixed bucket and folder with their bare names as keys, and moved into
    [archive/]; [current.log] stays where it is with its content. *)
Theorem rotated_files_are_archived H d w ca cb cc :
  ALLOW_LOG_COLLECTION H = true ->
  d <> EmptyString ->
  found default_log_filter d = false ->
  Fs.is_dir d (fs w) = true ->
  Fs.children d (fs w)
  = [d ++ "/a.log.2023-01-01_00"; d ++ "/b.log.2023-01-02_00"; d ++ "/current.log"] ->
  Fs.lookup (d ++ "/a.log.2023-01-01_00") (fs w) = Some (File ca) ->
  Fs.lookup (d ++ "/b.log.2023-01-02_00") (fs w) = Some (File cb) ->
  Fs.lookup (d ++ "/current.log") (fs w) = Some (File cc) ->
  Fs.lookup (d ++ "/archive") (fs w) = None ->
  Fs.lookup (d ++ "/archive/a.log.2023-01-01_00") (fs w) = None ->
  Fs.lookup (d ++ "/archive/b.log.2023-01-02_00") (fs w) = None ->
  s3_upload_file H (d ++ "/a.log.2023-01-01_00") BUCKET "gst-app/logs/a.log.2023-01-01_00" = None ->
  s3_upload_file H (d ++ "/b.log.2023-01-02_00") BUCKET "gst-app/logs/b.log.2023-01-02_00" = None ->
  (forall files w0,
     select_log_files (d ++ "/archive") default_log_filter files [] w0
     = (inl (selection (d ++ "/archive") default_log_filter files), w0))
  /\ (forall files k v,
        In (k, v) (selection (d ++ "/archive") default_log_filter files)
        <-> In k files /\ found default_log_filter k = true
            /\ v = (k, Path.joinpath (d ++ "/archive") (Path.name k)))
  /\ (forall n, found default_log_filter (d ++ String "/" n) = found default_log_filter n)
  /\ exists w',
       upload_archive_logs_s3 H (Some d) default_log_filter w = (inl tt, w')
       /\ uploaded w'
          = List.app (uploaded w)
              [ (d ++ "/a.log.2023-01-01_00", BUCKET, "gst-app/logs/a.log.2023-01-01_00");
                (d ++ "/b.log.2023-01-02_00", BUCKET, "gst-app/logs/b.log.2023-01-02_00") ]
       /\ Fs.lookup (d ++ "/a.log.2023-01-01_00") (fs w') = None
       /\ Fs.lookup (d ++ "/archive/a.log.2023-01-01_00") (fs w') = Some (File ca)
       /\ Fs.lookup (d ++ "/b.log.2023-01-02_00") (fs w') = None
       /\ Fs.lookup (d ++ "/archive/b.log.2023-01-02_00") (fs w') = Some (File cb)
       /\ Fs.lookup (d ++ "/current.log") (fs w') = Some (File cc).
Proof.
  intros Hconsent Hd Hdir Hisdir Hchildren LA LB LC LX LA' LB' UA UB.
  split.
  { intros files w0. destruct (Re.compile default_log_filter) as [r0|] eqn:Ec0.
    - apply (select_log_files_run _ _ r0 _ _ _ Ec0).
    - vm_compute in Ec0. discriminate Ec0. }
  split; [intros files k v; apply selection_exact|].
  split; [intros n; now rewrite found_rotation_in_path, Hdir|].
  apply is_dir_lookup in Hisdir.
  (* names and parents *)
  assert (NA : Path.name (d ++ "/a.log.2023-01-01_00") = "a.log.2023-01-01_00")
    by (apply name_join; reflexivity).
  assert (NB : Path.name (d ++ "/b.log.2023-01-02_00") = "b.log.2023-01-02_00")
    by (apply name_join; reflexivity).
  assert (EX : Path.joinpath d "archive" = d ++ "/archive") by reflexivity.
  assert (EA' : Path.joinpath (d ++ "/archive") "a.log.2023-01-01_00"
                = d ++ "/archive/a.log.2023-01-01_00")
    by (unfold Path.joinpath; simpl; now rewrite append_assoc).
  assert (EB' : Path.joinpath (d ++ "/archive") "b.log.2023-01-02_00"
                = d ++ "/archive/b.log.2023-01-02_00")
    by (unfold Path.joinpath; simpl; now rewrite append_assoc).
  assert (PX : Path.parent (d ++ "/archive") = d) by (apply parent_join; [exact Hd|reflexivity]).
  assert (PA' : Path.parent (d ++ "/archive/a.log.2023-01-01_00") = d ++ "/archive").
  { change (d ++ "/archive/a.log.2023-01-01_00")
      with (d ++ ("/archive" ++ String "/" "a.log.2023-01-01_00")).
    rewrite <- append_assoc. apply parent_join; [apply append_not_empty|reflexivity]. }
  assert (PB' : Path.parent (d ++ "/archive/b.log.2023-01-02_00") = d ++ "/archive").
  { change (d ++ "/archive/b.log.2023-01-02_00")
      with (d ++ ("/archive" ++ String "/" "b.log.2023-01-02_00")).
    rewrite <- append_assoc. apply parent_join; [apply append_not_empty|reflexivity]. }
  (* which entries the pattern is found in *)
  assert (FA : found default_log_filter (d ++ "/a.log.2023-01-01_00") = true)
    by (rewrite found_rotation_in_path, Hdir; vm_compute; reflexivity).
  assert (FB : found default_log_filter (d ++ "/b.log.2023-01-02_00") = true)
    by (rewrite found_rotation_in_path, Hdir; vm_compute; reflexivity).
  assert (FC : found default_log_filter (d ++ "/current.log") = false)
    by (rewrite found_rotation_in_path, Hdir; vm_compute; reflexivity).
  assert (FX : found default_log_filter (d ++ "/archive") = false)
    by (rewrite found_rotation_in_path, Hdir; vm_compute; reflexivity).
  assert (Ec : exists r, Re.compile default_log_filter = Some r)
    by (vm_compute; eexists; reflexivity).
  destruct Ec as [r Ec].
  (* the file system once the archive directory is made *)
  set (t1 := List.app (fs w) [(d ++ "/archive", Dir)]).
  assert (L1d : Fs.lookup d t1 = Some Dir) by now apply lookup_app_some.
  assert (L1A : Fs.lookup (d ++ "/a.log.2023-01-01_00") t1 = Some (File ca))
    by now apply lookup_app_some.
  assert (L1B : Fs.lookup (d ++ "/b.log.2023-01-02_00") t1 = Some (File cb))
    by now apply lookup_app_some.
  assert (L1C : Fs.lookup (d ++ "/current.log") t1 = Some (File cc))
    by now apply lookup_app_some.
  assert (L1X : Fs.lookup (d ++ "/archive") t1 = Some Dir)
    by (unfold t1; now rewrite (lookup_app_none _ _ _ LX), lookup_single, String.eqb_refl).
  assert (L1A' : Fs.lookup (d ++ "/archive/a.log.2023-01-01_00") t1 = None).
  { unfold t1. rewrite (lookup_app_none _ _ _ LA'), lookup_single.
    replace (String.eqb (d ++ "/archive") (d ++ "/archive/a.log.2023-01-01_00")) with false;
      [reflexivity|symmetry; path_differs]. }
  assert (L1B' : Fs.lookup (d ++ "/archive/b.log.2023-01-02_00") t1 = None).
  { unfold t1. rewrite (lookup_app_none _ _ _ LB'), lookup_single.
    replace (String.eqb (d ++ "/archive") (d ++ "/archive/b.log.2023-01-02_00")) with false;
      [reflexivity|symmetry; path_differs]. }
  assert (C1 : Fs.children d t1
               = [d ++ "/a.log.2023-01-01_00"; d ++ "/b.log.2023-01-02_00";
                  d ++ "/current.log"; d ++ "/archive"]).
  { unfold t1. rewrite children_app, Hchildren. unfold Fs.children. simpl.
    rewrite PX, String.eqb_refl.
    replace (String.eqb (d ++ "/archive") d) with false; [reflexivity|symmetry; path_differs]. }
  unfold upload_archive_logs_s3. rewrite Hconsent. run.
  rewrite EX. unfold Fs.exists_ at 1. rewrite LX. run.
  erewrite bind_inl; [|apply mkdir_new; [exact LX|rewrite PX; exact Hisdir]].
  fold t1. run.
  erewrite bind_inl; [|apply iterdir_dir; exact L1d].
  cbn [fs set_fs set_journal]. rewrite C1.
  erewrite bind_inl; [|apply (select_log_files_run _ _ r); exact Ec].
  cbn [fold_left]. unfold select_step, archive_place.
  rewrite FA, FB, FC, FX, NA, NB, EA', EB'. cbn [Py.dict_set].
  replace (String.eqb (d ++ "/a.log.2023-01-01_00") (d ++ "/b.log.2023-01-02_00")) with false
    by (symmetry; path_differs).
  cbn [Py.dict_set map snd]. run. cbn [for_each].
  (* the file system after each move *)
  set (t2 := Fs.rekey (d ++ "/a.log.2023-01-01_00") (d ++ "/archive/a.log.2023-01-01_00")
               (Fs.remove (d ++ "/archive/a.log.2023-01-01_00") t1)).
  assert (L2A : Fs.lookup (d ++ "/a.log.2023-01-01_00") t2 = None)
    by (apply lookup_rekey_src; path_ne).
  assert (L2A' : Fs.lookup (d ++ "/archive/a.log.2023-01-01_00") t2 = Some (File ca))
    by (apply lookup_rekey_dst; [path_ne|exact L1A]).
  assert (L2B : Fs.lookup (d ++ "/b.log.2023-01-02_00") t2 = Some (File cb))
    by (unfold t2; rewrite lookup_rekey_other; [exact L1B|path_ne|path_ne]).
  assert (L2C : Fs.lookup (d ++ "/current.log") t2 = Some (File cc))
    by (unfold t2; rewrite lookup_rekey_other; [exact L1C|path_ne|path_ne]).
  assert (L2X : Fs.lookup (d ++ "/archive") t2 = Some Dir)
    by (unfold t2; rewrite lookup_rekey_other; [exact L1X|path_ne|path_ne]).
  assert (L2B' : Fs.lookup (d ++ "/archive/b.log.2023-01-02_00") t2 = None)
    by (unfold t2; rewrite lookup_rekey_other; [exact L1B'|path_ne|path_ne]).
  set (t3 := Fs.rekey (d ++ "/b.log.2023-01-02_00") (d ++ "/archive/b.log.2023-01-02_00")
               (Fs.remove (d ++ "/archive/b.log.2023-01-02_00") t2)).
  assert (L3A : Fs.lookup (d ++ "/a.log.2023-01-01_00") t3 = None)
    by (unfold t3; rewrite lookup_rekey_other; [exact L2A|path_ne|path_ne]).
  assert (L3A' : Fs.lookup (d ++ "/archive/a.log.2023-01-01_00") t3 = Some (File ca))
    by (unfold t3; rewrite lookup_rekey_other; [exact L2A'|path_ne|path_ne]).
  assert (L3B : Fs.lookup (d ++ "/b.log.2023-01-02_00") t3 = None)
    by (apply lookup_rekey_src; path_ne).
  assert (L3B' : Fs.lookup (d ++ "/archive/b.log.2023-01-02_00") t3 = Some (File cb))
    by (apply lookup_rekey_dst; [path_ne|exact L2B]).
  assert (L3C : Fs.lookup (d ++ "/current.log") t3 = Some (File cc))
    by (unfold t3; rewrite lookup_rekey_other; [exact L2C|path_ne|path_ne]).
  run.
  erewrite bind_inl;
    [|apply (upload_accepted_then_archived H _ _ _ ca);
      [rewrite NA; exact UA
      |exact L1A
      |rewrite PA'; apply is_dir_lookup; exact L1X
      |unfold Fs.is_dir; cbn [fs set_fs set_journal]; now rewrite L1A'
      |path_ne]].
  cbn [fs set_fs set_journal set_uploaded uploaded]. fold t2. run.
  erewrite bind_inl;
    [|apply (upload_accepted_then_archived H _ _ _ cb);
      [rewrite NB; exact UB
      |exact L2B
      |rewrite PB'; apply is_dir_lookup; exact L2X
      |unfold Fs.is_dir; cbn [fs set_fs set_journal set_uploaded]; now rewrite L2B'
      |path_ne]].
  cbn [fs set_fs set_journal set_uploaded uploaded]. fold t3. run.
  eexists. split; [reflexivity|].
  cbn [fs set_fs set_journal set_uploaded uploaded].
  split.
  { unfold object_of. rewrite NA, NB, <- app_assoc. reflexivity. }
  repeat split; assumption.
Qed.

Lemma rotated_files_are_archived_witness :
  ALLOW_LOG_COLLECTION (sample_host true accepting_store) = true
  /\ sample_session_dir <> EmptyString
  /\ found default_log_filter sample_session_dir = false
  /\ Fs.is_dir sample_session_dir (fs (world_on rotated_disk)) = true
  /\ Fs.children sample_session_dir (fs (world_on rotated_disk))
     = [sample_session_dir ++ "/a.log.2023-01-01_00";
        sample_session_dir ++ "/b.log.2023-01-02_00";
        sample_session_dir ++ "/current.log"]
  /\ (forall files w0,
        select_log_files (sample_session_dir ++ "/archive") default_log_filter files [] w0
        = (inl (selection (sample_session_dir ++ "/archive") default_log_filter files), w0))
  /\ (forall files k v,
        In (k, v) (selection (sample_session_dir ++ "/archive") default_log_filter files)
        <-> In k files /\ found default_log_filter k = true
            /\ v = (k, Path.joinpath (sample_session_dir ++ "/archive") (Path.name k)))
  /\ (forall n, found default_log_filter (sample_session_dir ++ String "/" n)
                = found default_log_filter n)
  /\ exists w',
       upload_archive_logs_s3 (sample_host true accepting_store) (Some sample_session_dir)
         default_log_filter (world_on rotated_disk) = (inl tt, w')
       /\ uploaded w'
          = List.app (uploaded (world_on rotated_disk))
              [ (sample_session_dir ++ "/a.log.2023-01-01_00", BUCKET,
                 "gst-app/logs/a.log.2023-01-01_00");
                (sample_session_dir ++ "/b.log.2023-01-02_00", BUCKET,
                 "gst-app/logs/b.log.2023-01-02_00") ]
       /\ Fs.lookup (sample_session_dir ++ "/a.log.2023-01-01_00") (fs w') = None
       /\ Fs.lookup (sample_session_dir ++ "/archive/a.log.2023-01-01_00") (fs w')
          = Some (File "first")
       /\ Fs.lookup (sample_session_dir ++ "/b.log.2023-01-02_00") (fs w') = None
       /\ Fs.lookup (sample_session_dir ++ "/archive/b.log.2023-01-02_00") (fs w')
          = Some (File "second")
       /\ Fs.lookup (sample_session_dir ++ "/current.log") (fs w') = Some (File "third").
Proof.
  split; [reflexivity|]. split; [discriminate|].
  do 3 (split; [vm_compute; reflexivity|]).
  apply (rotated_files_are_archived (sample_host true accepting_store) sample_session_dir
           (world_on rotated_disk) "first" "second" "third").
  - reflexivity.
  - discriminate.
  - vm_compute; reflexivity.
  - vm_compute; reflexivity.
  - vm_compute; reflexivity.
  - vm_compute; reflexivity.
  - vm_compute; reflexivity.
  - vm_compute; reflexivity.
  - vm_compute; reflexivity.
  - vm_compute; reflexivity.
  - vm_compute; reflexivity.
  - reflexivity.
  - reflexivity.
Defined.

(** C5 as stated fails when the path of the session directory itself has a
    rotation suffix: the pattern is searched in the whole path, so it is
    found for [current.log] although not in its name, and [current.log] is
    uploaded and moved into [archive/] with the two rotated files. *)
Lemma path_match_takes_current_log :
  found default_log_filter "current.log" = false
  /\ found default_log_filter (suffixed_session_dir ++ "/current.log") = true
  /\ Fs.children suffixed_session_dir (fs (world_on suffixed_disk))
     = [suffixed_session_dir ++ "/a.log.2023-01-01_00";
        suffixed_session_dir ++ "/b.log.2023-01-02_00";
        suffixed_session_dir ++ "/current.log"]
  /\ uploaded (snd (upload_archive_logs_s3 (sample_host true files_only_store)
                      (Some suffixed_session_dir) default_log_filter (world_on suffixed_disk)))
     = [object_of (suffixed_session_dir ++ "/a.log.2023-01-01_00");
        object_of (suffixed_session_dir ++ "/b.log.2023-01-02_00");
        object_of (suffixed_session_dir ++ "/current.log")]
  /\ Fs.exists_ (suffixed_session_dir ++ "/current.log")
       (fs (snd (upload_archive_logs_s3 (sample_host true files_only_store)
                   (Some suffixed_session_dir) default_log_filter (world_on suffixed_disk))))
     = false
  /\ Fs.is_file (suffixed_session_dir ++ "/archive/current.log")
       (fs (snd (upload_archive_logs_s3 (sample_host true files_only_store)
                   (Some suffixed_session_dir) default_log_filter (world_on suffixed_disk))))
     = true.
Proof.
  do 5 (split; [vm_compute; reflexivity|]). vm_compute; reflexivity.
Qed.

(** ** The two verbosity thresholds (C8) *)

Local Open Scope Z_scope.

(** Rounding to nearest stays within half a unit. *)
Lemma round_half_even_close n d :
  0 < d ->
  2 * d * Float.round_half_even n d - d <= 2 * n <= 2 * d * Float.round_half_even n d + d.
Proof.
  intros Hd. unfold Float.round_half_even.
  pose proof (Z.div_mod n d ltac:(lia)) as E.
  pose proof (Z.mod_pos_bound n d Hd) as B.
  destruct (Z.ltb_spec (2 * (n mod d)) d);
    [|destruct (Z.ltb_spec d (2 * (n mod d))); [|destruct (Z.even (n / d))]]; nia.
Qed.

(** The exponent of the quotient by ten of an integer a double holds
    exactly. *)
Lemma quotient_log2_small x :
  0 < x <= 2 ^ 53 -> Float.quotient_log2 x 10 <= 49.
Proof.
  intros [Hx Hle]. unfold Float.quotient_log2.
  change (Z.log2 10) with 3.
  assert (Hl : Z.log2 x <= 53).
  { change 53 with (Z.log2 (2 ^ 53)). now apply Z.log2_le_mono. }
  destruct (Z.eq_dec (Z.log2 x) 53) as [E|N].
  - rewrite E.
    match goal with |- context [if ?c then _ else _] => destruct c eqn:C end; [|lia].
    apply Z.leb_le in C.
    rewrite Z.max_l, Z.max_r, Z.pow_0_r in C by lia.
    assert (E53 : 2 ^ 53 = 8 * 2 ^ (53 - 3)) by reflexivity.
    assert (0 < 2 ^ (53 - 3)) by (apply Z.pow_pos_nonneg; lia). lia.
  - match goal with |- context [if ?c then _ else _] => destruct c end; lia.
Qed.

(** Floor and ceiling of the rounded quotient agree with the exact ones
    when the significand is scaled by at least eight. *)
Lemma scaled_quotient x k :
  0 < x -> 3 <= k ->
  let m := Float.round_half_even (x * 2 ^ k) 10 in
  m / 2 ^ k = x / 10
  /\ (- m) / 2 ^ k = (- x) / 10.
Proof.
  intros Hx Hk m.
  assert (HP : 8 <= 2 ^ k).
  { change 8 with (2 ^ 3). apply Z.pow_le_mono_r; lia. }
  pose proof (round_half_even_close (x * 2 ^ k) 10 ltac:(lia)) as C. fold m in C.
  set (P := 2 ^ k) in *.
  pose proof (Z.div_mod x 10 ltac:(lia)) as E.
  pose proof (Z.mod_pos_bound x 10 ltac:(lia)) as B.
  set (q := x / 10) in *. set (r := x mod 10) in *.
  assert (Lo : q * P <= m) by nia.
  assert (Hi : m < (q + 1) * P) by nia.
  split.
  - symmetry. apply (Z.div_unique m P q (m - P * q)); [left; nia|lia].
  - destruct (Z.eq_dec r 0) as [R0|R1].
    + assert (Em : m = q * P) by nia.
      assert (Ex : - x = 10 * (- q)) by lia.
      rewrite Em, Ex. rewrite <- Z.mul_opp_l, Z.div_mul by lia.
      rewrite Z.mul_comm, Z.div_mul by lia. reflexivity.
    + assert (Lo' : q * P < m) by nia.
      transitivity (- (q + 1)).
      * symmetry. apply (Z.div_unique (- m) P (- (q + 1)) ((q + 1) * P - m)); [left; nia|lia].
      * apply (Z.div_unique (- x) 10 (- (q + 1)) (10 - r)); [left; lia|lia].
Qed.

(** For a setting a double holds exactly, the rounded quotient has the
    exact floor and the exact ceiling. *)
Lemma truediv_ten_exact v :
  Z.abs v <= 2 ^ 53 ->
  exists q, Float.truediv v 10 = Some q
            /\ Float.floor q = v / 10
            /\ Float.ceil q = - ((- v) / 10).
Proof.
  intros Hv. unfold Float.truediv.
  destruct (Z.eqb_spec v 0) as [->|Hne].
  - exists (0, 0). repeat split.
  - assert (Hx : 0 < Z.abs v <= 2 ^ 53) by lia.
    pose proof (quotient_log2_small (Z.abs v) Hx) as HL.
    set (L := Float.quotient_log2 (Z.abs v) 10) in *.
    set (e := Z.max (L - 52) (-1074)).
    assert (He : -1074 <= e <= -3) by (unfold e; lia).
    destruct (Z.leb_spec 0 e) as [C|_]; [lia|].
    assert (Hz : 2 ^ e = 0) by (apply Z.pow_neg_r; lia).
    rewrite Hz, Z.mul_0_r.
    destruct (Z.leb_spec (2 ^ 1024) 0) as [C|_].
    { assert (0 < 2 ^ 1024) by (apply Z.pow_pos_nonneg; lia). lia. }
    eexists. split; [reflexivity|].
    destruct (scaled_quotient (Z.abs v) (- e) ltac:(lia) ltac:(lia)) as [F1 F2].
    set (m := Float.round_half_even (Z.abs v * 2 ^ (- e)) 10) in *.
    unfold Float.floor, Float.ceil.
    destruct (Z.leb_spec 0 e) as [C|_]; [lia|].
    destruct (Z.abs_spec v) as [[Hpos Ha]|[Hneg Ha]].
    + rewrite Ha in *. rewrite Z.sgn_pos by lia. rewrite Z.mul_1_l.
      now rewrite F1, F2.
    + rewrite Ha in *. rewrite Z.sgn_neg by lia.
      replace (-1 * m) with (- m) by lia. rewrite Z.opp_involutive.
      rewrite Z.opp_involutive in F2. now rewrite F1, F2.
Qed.

Lemma dict_get_set_same {V} k (v : V) d : Py.dict_get k (Py.dict_set k v d) = Some v.
Proof.
  induction d as [|[k0 v0] d IH]; simpl.
  - now rewrite String.eqb_refl.
  - destruct (String.eqb k0 k) eqn:E; simpl.
    + now rewrite String.eqb_refl.
    + now rewrite E.
Qed.

Lemma dict_get_set_other {V} k k' (v : V) d :
  k <> k' -> Py.dict_get k (Py.dict_set k' v d) = Py.dict_get k d.
Proof.
  intros Hne. induction d as [|[k0 v0] d IH]; simpl.
  - destruct (String.eqb_spec k' k) as [E|_]; [now elim Hne|reflexivity].
  - destruct (String.eqb_spec k0 k') as [->|Hk]; simpl.
    + destruct (String.eqb_spec k' k) as [E|_]; [now elim Hne|reflexivity].
    + destruct (String.eqb k0 k); [reflexivity|exact IH].
Qed.

(** The exact floor and ceiling to tens are the multiples of ten next to
    the setting. *)
Lemma floor_ceil_tens_spec v :
  floor_tens v <= v < floor_tens v + 10
  /\ ceil_tens v - 10 < v <= ceil_tens v
  /\ floor_tens v mod 10 = 0 /\ ceil_tens v mod 10 = 0.
Proof.
  unfold floor_tens, ceil_tens.
  pose proof (Z.div_mod v 10 ltac:(lia)). pose proof (Z.mod_pos_bound v 10 ltac:(lia)).
  pose proof (Z.div_mod (- v) 10 ltac:(lia)). pose proof (Z.mod_pos_bound (- v) 10 ltac:(lia)).
  rewrite !Z.mod_mul by lia. lia.
Qed.

(** C8, as the code has it: the quotient [LOGGING_VERBOSITY / 10] is a
    double.  For every setting a double holds exactly (absolute value at
    most 2^53) the terminal verbosity is floor(v/10)*10 and the library
    verbosity is ceil(v/10)*10 on the exact quotient; and whenever
    [setup_logging] returns, the loggers [requests] and [urllib3] have the
    library verbosity as their level. *)
Theorem verbosity_thresholds H w w' :
  Z.abs (LOGGING_VERBOSITY H) <= 2 ^ 53 ->
  setup_logging H w = (inl tt, w') ->
  verbosity_terminal (LOGGING_VERBOSITY H) = Some (floor_tens (LOGGING_VERBOSITY H))
  /\ verbosity_libraries (LOGGING_VERBOSITY H) = Some (ceil_tens (LOGGING_VERBOSITY H))
  /\ Py.dict_get "requests" (levels w') = Some (ceil_tens (LOGGING_VERBOSITY H))
  /\ Py.dict_get "urllib3" (levels w') = Some (ceil_tens (LOGGING_VERBOSITY H)).
Proof.
  intros Hv E.
  destruct (truediv_ten_exact (LOGGING_VERBOSITY H) Hv) as (q & Eq & Fq & Cq).
  assert (T : verbosity_terminal (LOGGING_VERBOSITY H) = Some (floor_tens (LOGGING_VERBOSITY H)))
    by (unfold verbosity_terminal, floor_tens; rewrite Eq; simpl; now rewrite Fq).
  assert (L : verbosity_libraries (LOGGING_VERBOSITY H) = Some (ceil_tens (LOGGING_VERBOSITY H)))
    by (unfold verbosity_libraries, ceil_tens; rewrite Eq; simpl; now rewrite Cq).
  split; [exact T|]. split; [exact L|].
  revert E. unfold setup_logging. run. rewrite T, L. cbn [or_overflow]. run.
  intros E.
  apply bind_returns in E as ([] & w1 & _ & E).
  apply bind_returns in E as ([] & w2 & _ & E).
  apply bind_returns in E as ([] & w3 & _ & E).
  revert E. unfold library_loggers, setLevel. run. intros E. injection E as <-.
  cbn [levels set_levels set_journal]. split.
  - rewrite dict_get_set_other by discriminate. apply dict_get_set_same.
  - apply dict_get_set_same.
Qed.

Lemma verbosity_thresholds_witness :
  Z.abs (LOGGING_VERBOSITY (sample_host true accepting_store)) <= 2 ^ 53
  /\ setup_logging (sample_host true accepting_store) (world_on fresh_disk)
     = (inl tt, snd (setup_logging (sample_host true accepting_store) (world_on fresh_disk)))
  /\ verbosity_terminal (LOGGING_VERBOSITY (sample_host true accepting_store))
     = Some (floor_tens (LOGGING_VERBOSITY (sample_host true accepting_store)))
  /\ verbosity_libraries (LOGGING_VERBOSITY (sample_host true accepting_store))
     = Some (ceil_tens (LOGGING_VERBOSITY (sample_host true accepting_store)))
  /\ Py.dict_get "requests"
       (levels (snd (setup_logging (sample_host true accepting_store) (world_on fresh_disk))))
     = Some (ceil_tens (LOGGING_VERBOSITY (sample_host true accepting_store)))
  /\ Py.dict_get "urllib3"
       (levels (snd (setup_logging (sample_host true accepting_store) (world_on fresh_disk))))
     = Some (ceil_tens (LOGGING_VERBOSITY (sample_host true accepting_store))).
Proof.
  assert (B : Z.abs (LOGGING_VERBOSITY (sample_host true accepting_store)) <= 2 ^ 53)
    by (vm_compute; discriminate).
  split; [exact B|]. split; [vm_compute; reflexivity|].
  apply (verbosity_thresholds (sample_host true accepting_store) (world_on fresh_disk)
           (snd (setup_logging (sample_host true accepting_store) (world_on fresh_disk)))).
  - exact B.
  - vm_compute; reflexivity.
Defined.

(** The split of the sample setting 25: terminal 20, libraries 30. *)
Example verbosity_of_25 :
  verbosity_terminal 25 = Some 20 /\ verbosity_libraries 25 = Some 30
  /\ verbosity_terminal (-25) = Some (-30) /\ verbosity_libraries (-25) = Some (-20)
  /\ verbosity_terminal 30 = Some 30 /\ verbosity_libraries 30 = Some 30.
Proof. repeat split; vm_compute; reflexivity. Qed.

(** C8 as stated fails beyond the integers a double holds exactly: the
    quotient of 90071992547409919 by ten rounds up to the double
    9007199254740992, so the terminal verbosity is 90071992547409920, which
    is above the setting and not its floor to tens; the quotient of
    90071992547409911 rounds down to 9007199254740991, so the library
    verbosity is 90071992547409910, which is below the setting and not its
    ceiling to tens. *)
Lemma verbosity_of_huge_settings :
  verbosity_terminal huge_verbosity = Some 90071992547409920
  /\ floor_tens huge_verbosity = 90071992547409910
  /\ verbosity_terminal huge_verbosity <> Some (floor_tens huge_verbosity)
  /\ verbosity_libraries 90071992547409911 = Some 90071992547409910
  /\ ceil_tens 90071992547409911 = 90071992547409920
  /\ verbosity_libraries 90071992547409911 <> Some (ceil_tens 90071992547409911).
Proof.
  split; [vm_compute; reflexivity|]. split; [vm_compute; reflexivity|].
  split; [vm_compute; discriminate|].
  split; [vm_compute; reflexivity|]. split; [vm_compute; reflexivity|].
  vm_compute; discriminate.
Qed.

(** * Further properties of the module *)

(** ** The call site a record is shown with *)

Lemma base_format_call_site (strftime : string -> Z -> string) self r :
  funcName (snd (base_format strftime self r)) = funcName r
  /\ lineno (snd (base_format strftime self r)) = lineno r.
Proof.
  unfold base_format. destruct (Py.percent _ _); [|split; reflexivity].
  destruct (exc_info _); [destruct (Py.truthy _)|]; split; reflexivity.
Qed.

(** X1: a record that carries [func_name_override] is rendered, by any
    formatter, with that name and the line number 0: the function name and
    the line number the record had do not reach the line, and the call
    leaves the record with the override as its [funcName] and 0 as its
    [lineno]. *)
Theorem format_override_hides_call_site (strftime : string -> Z -> string) self r f g l :
  func_name_override r = Some f ->
  format strftime self (with_call_site g l r) = format strftime self r
  /\ funcName (snd (fst (format strftime self r))) = f
  /\ lineno (snd (fst (format strftime self r))) = 0.
Proof.
  intros Hf. split.
  - unfold format. cbn [func_name_override with_call_site]. rewrite Hf. reflexivity.
  - unfold format. rewrite Hf.
    destruct (base_format_call_site strftime self (with_call_site f 0 r)) as [E1 E2].
    destruct (base_format strftime self (with_call_site f 0 r)) as [[s|] r'].
    + cbn [snd] in E1, E2.
      destruct (Py.truthy (exc_text r')); destruct (Py.percent _ _); cbn [fst snd];
        rewrite E1, E2; split; reflexivity.
    + cbn [fst snd] in *. rewrite E1, E2. split; reflexivity.
Qed.

Lemma format_override_hides_call_site_witness :
  func_name_override record_override = Some "call_sh"
  /\ format sample_strftime sample_formatter (with_call_site "main" 7 record_override)
     = format sample_strftime sample_formatter record_override
  /\ funcName (snd (fst (format sample_strftime sample_formatter record_override))) = "call_sh"
  /\ lineno (snd (fst (format sample_strftime sample_formatter record_override))) = 0.
Proof.
  split; [reflexivity|].
  apply (format_override_hides_call_site sample_strftime sample_formatter record_override
           "call_sh" "main" 7).
  reflexivity.
Defined.

(** ** The exception text *)

Lemma replace_absent c new s : Py.contains c s = false -> Py.replace c new s = s.
Proof.
  induction s as [|d s IH]; simpl; [reflexivity|].
  intros E. apply orb_false_iff in E as [E1 E2]. rewrite E1. now rewrite IH.
Qed.

Lemma repr_char_no_control q c x :
  q = Py.SQUOTE \/ q = Py.DQUOTE ->
  x = Py.LF \/ x = Py.CR \/ x = Py.TAB ->
  Py.contains x (Py.repr_char q c) = false.
Proof.
  intros [-> | ->] [-> | [-> | ->]];
    destruct c as [[] [] [] [] [] [] [] []]; vm_compute; reflexivity.
Qed.

Lemma repr_body_no_control q s x :
  q = Py.SQUOTE \/ q = Py.DQUOTE ->
  x = Py.LF \/ x = Py.CR \/ x = Py.TAB ->
  Py.contains x (Py.repr_body q s) = false.
Proof.
  intros Hq Hx. induction s as [|c s IH]; simpl; [reflexivity|].
  now rewrite contains_app, repr_char_no_control, IH.
Qed.

Lemma repr_no_control s x :
  x = Py.LF \/ x = Py.CR \/ x = Py.TAB -> Py.contains x (Py.repr s) = false.
Proof.
  intros Hx. unfold Py.repr.
  set (q := if Py.contains Py.SQUOTE s && negb (Py.contains Py.DQUOTE s)
            then Py.DQUOTE else Py.SQUOTE).
  assert (Hq : q = Py.SQUOTE \/ q = Py.DQUOTE)
    by (unfold q; destruct (_ && _); [now right|now left]).
  cbn [Py.contains]. rewrite contains_app, repr_body_no_control by assumption.
  destruct Hq as [-> | ->], Hx as [-> | [-> | ->]]; reflexivity.
Qed.

(** X2: whatever the traceback text, [formatException] returns a text
    without line feed, carriage return or tab ([repr] writes them as
    escapes), so the first three replacements of [format] leave the
    exception text as it is. *)
Theorem formatException_keeps_one_line ei :
  Py.contains Py.LF (formatException ei) = false
  /\ Py.contains Py.CR (formatException ei) = false
  /\ Py.contains Py.TAB (formatException ei) = false
  /\ Py.replace Py.CR EmptyString
       (Py.replace Py.TAB " " (Py.replace Py.LF " - " (formatException ei)))
     = formatException ei.
Proof.
  unfold formatException.
  assert (L : Py.contains Py.LF (Py.repr ei) = false) by (apply repr_no_control; auto).
  assert (C : Py.contains Py.CR (Py.repr ei) = false) by (apply repr_no_control; auto).
  assert (T : Py.contains Py.TAB (Py.repr ei) = false) by (apply repr_no_control; auto).
  repeat split; try assumption.
  now rewrite (replace_absent _ _ _ L), (replace_absent _ _ _ T), (replace_absent _ _ _ C).
Qed.

(** ** The two thresholds, for any setting *)

(** X3: for every setting, of any size, for which the division does not
    overflow, the two thresholds are multiples of ten, and the library
    threshold is the terminal threshold or the next multiple of ten above
    it. *)
Theorem verbosity_thresholds_ordered v t l :
  verbosity_terminal v = Some t -> verbosity_libraries v = Some l ->
  (l = t \/ l = t + 10) /\ t mod 10 = 0 /\ l mod 10 = 0.
Proof.
  unfold verbosity_terminal, verbosity_libraries.
  destruct (Float.truediv v 10) as [[m e]|]; [|discriminate].
  simpl. intros Et El. injection Et as <-. injection El as <-.
  rewrite !Z.mod_mul by lia. split; [|split; reflexivity].
  destruct (Z.leb_spec 0 e) as [_|He]; [now left|].
  assert (HP : 0 < 2 ^ (- e)) by (apply Z.pow_pos_nonneg; lia).
  set (P := 2 ^ (- e)) in *.
  pose proof (Z.div_mod m P ltac:(lia)) as E1.
  pose proof (Z.mod_pos_bound m P HP) as B1.
  pose proof (Z.div_mod (- m) P ltac:(lia)) as E2.
  pose proof (Z.mod_pos_bound (- m) P HP) as B2.
  assert (- ((- m) / P) = m / P \/ - ((- m) / P) = m / P + 1) by nia.
  lia.
Qed.

Lemma verbosity_thresholds_ordered_witness :
  verbosity_terminal 25 = Some 20
  /\ verbosity_libraries 25 = Some 30
  /\ (30 = 20 \/ 30 = 20 + 10) /\ 20 mod 10 = 0 /\ 30 mod 10 = 0.
Proof.
  split; [vm_compute; reflexivity|]. split; [vm_compute; reflexivity|].
  apply (verbosity_thresholds_ordered 25); vm_compute; reflexivity.
Defined.

Lemma round_half_even_floor n d : 0 < d -> n / d <= Float.round_half_even n d.
Proof.
  intros Hd. unfold Float.round_half_even.
  destruct (2 * (n mod d) <? d); [lia|].
  destruct (d <? 2 * (n mod d)); [lia|]. destruct (Z.even (n / d)); lia.
Qed.

Lemma quotient_log2_large x :
  10 * 2 ^ 1024 <= x ->
  1024 <= Float.quotient_log2 x 10 /\ 10 * 2 ^ Float.quotient_log2 x 10 <= x.
Proof.
  intros Hx.
  assert (HB : 0 < 2 ^ 1024) by (apply Z.pow_pos_nonneg; lia).
  assert (Hl : 1027 <= Z.log2 x).
  { change 1027 with (Z.log2 (10 * 2 ^ 1024)). now apply Z.log2_le_mono. }
  pose proof (Z.log2_spec x ltac:(lia)) as [Lo _].
  unfold Float.quotient_log2. change (Z.log2 10) with 3.
  set (t := Z.log2 x - 3) in *.
  rewrite Z.max_l, Z.max_r, Z.pow_0_r, Z.mul_1_r by lia.
  assert (E3 : 2 ^ Z.log2 x = 16 * 2 ^ (t - 1)).
  { replace (Z.log2 x) with (4 + (t - 1)) by (unfold t; lia).
    rewrite Z.pow_add_r by lia. reflexivity. }
  assert (0 < 2 ^ (t - 1)) by (apply Z.pow_pos_nonneg; lia).
  destruct (Z.leb_spec (10 * 2 ^ t) x) as [C|C].
  - split; [lia|exact C].
  - split; [|lia].
    destruct (Z.eq_dec t 1024) as [E|N]; [|lia].
    rewrite E in C. lia.
Qed.

Lemma truediv_overflows v : 10 * 2 ^ 1024 <= Z.abs v -> Float.truediv v 10 = None.
Proof.
  intros Hv.
  assert (HB : 0 < 2 ^ 1024) by (apply Z.pow_pos_nonneg; lia).
  unfold Float.truediv.
  destruct (Z.eqb_spec v 0) as [->|_]; [simpl in Hv; lia|].
  destruct (quotient_log2_large (Z.abs v) Hv) as [HL Hx].
  set (L := Float.quotient_log2 (Z.abs v) 10) in *.
  rewrite Z.max_l by lia.
  destruct (Z.leb_spec 0 (L - 52)) as [_|C]; [|lia].
  set (e := L - 52) in *.
  assert (He : 0 < 2 ^ e) by (apply Z.pow_pos_nonneg; lia).
  assert (EL : 2 ^ L = 2 ^ 52 * 2 ^ e).
  { replace L with (52 + e) by (unfold e; lia). apply Z.pow_add_r; lia. }
  pose proof (round_half_even_floor (Z.abs v) (10 * 2 ^ e) ltac:(lia)) as Hm.
  assert (Hq : 2 ^ 52 <= Z.abs v / (10 * 2 ^ e)).
  { apply Z.div_le_lower_bound; [lia|]. rewrite EL in Hx. lia. }
  assert (Hle : 2 ^ 1024 <= 2 ^ L) by (apply Z.pow_le_mono_r; lia).
  set (m := Float.round_half_even (Z.abs v) (10 * 2 ^ e)) in *.
  destruct (Z.leb_spec (2 ^ 1024) (m * 2 ^ e)) as [_|C]; [reflexivity|].
  assert (2 ^ 52 * 2 ^ e <= m * 2 ^ e) by (apply Z.mul_le_mono_nonneg_r; lia).
  lia.
Qed.

(** X4: a setting of absolute value 10 * 2^1024 or more makes the
    division raise [OverflowError]; [setup_logging] ends there, having read
    the clock once and configured nothing. *)
Theorem setup_logging_overflow H w :
  10 * 2 ^ 1024 <= Z.abs (LOGGING_VERBOSITY H) ->
  setup_logging H w
  = (inr (OverflowError "integer division result too large for a float"),
     set_clock_reads (S (clock_reads w)) w).
Proof.
  intros Hv. unfold setup_logging. run.
  unfold verbosity_terminal. rewrite (truediv_overflows _ Hv). reflexivity.
Qed.

Lemma setup_logging_overflow_witness :
  10 * 2 ^ 1024 <= Z.abs (LOGGING_VERBOSITY overflowing_host)
  /\ setup_logging overflowing_host (world_on fresh_disk)
     = (inr (OverflowError "integer division result too large for a float"),
        set_clock_reads (S (clock_reads (world_on fresh_disk))) (world_on fresh_disk)).
Proof.
  split; [vm_compute; discriminate|].
  apply (setup_logging_overflow overflowing_host (world_on fresh_disk)).
  vm_compute; discriminate.
Defined.

(** ** What a computation leaves alone *)

Section Keeping.

Variable R : world -> world -> Prop.
Hypothesis R_refl : forall w, R w w.
Hypothesis R_trans : forall a b c, R a b -> R b c -> R a c.

Lemma keeps_ret A (a : A) : keeps R (ret a).
Proof. intros w. apply R_refl. Qed.

Lemma keeps_raise A e : keeps R (@raise A e).
Proof. intros w. apply R_refl. Qed.

Lemma keeps_gets A (f : world -> A) : keeps R (gets f).
Proof. intros w. apply R_refl. Qed.

Lemma keeps_bind A B (m : M A) (k : A -> M B) :
  keeps R m -> (forall a, keeps R (k a)) -> keeps R (bind m k).
Proof.
  intros Hm Hk w. unfold bind. specialize (Hm w).
  destruct (m w) as [[a|e] w1]; simpl in *; [|exact Hm].
  apply (R_trans _ _ _ Hm). apply Hk.
Qed.

Lemma keeps_try A (m : M A) h :
  keeps R m -> (forall e k, h e = Some k -> keeps R k) -> keeps R (try m h).
Proof.
  intros Hm Hh w. unfold try. specialize (Hm w).
  destruct (m w) as [[a|e] w1]; simpl in *; [exact Hm|].
  destruct (h e) as [k|] eqn:E; [|exact Hm].
  apply (R_trans _ _ _ Hm). now apply (Hh e k).
Qed.

Lemma keeps_when b m : keeps R m -> keeps R (when b m).
Proof. intros Hm. destruct b; [exact Hm|apply keeps_ret]. Qed.

Lemma keeps_for_each A (xs : list A) body :
  (forall x, keeps R (body x)) -> keeps R (for_each xs body).
Proof.
  intros Hb. induction xs as [|x xs IH]; simpl; [apply keeps_ret|].
  apply keeps_bind; [apply Hb|intros _; exact IH].
Qed.

Lemma keeps_modify f : (forall w, R w (f w)) -> keeps R (modify f).
Proof. intros Hf w. apply Hf. Qed.

End Keeping.

Lemma keeps_pointwise R A (m m' : M A) : (forall w, m w = m' w) -> keeps R m -> keeps R m'.
Proof. intros E Hm w. rewrite <- E. apply Hm. Qed.

Lemma same_refl X (f : world -> X) w : same f w w.
Proof. reflexivity. Qed.

Lemma same_trans X (f : world -> X) a b c : same f a b -> same f b c -> same f a c.
Proof. unfold same. congruence. Qed.

(** What the functions of the module leave alone: any reading of the world
    that the setters they use do not change. *)

Section Same.

Variable X : Type.
Variable f : world -> X.

Hypothesis f_fs : forall x w, f (set_fs x w) = f w.
Hypothesis f_journal : forall x w, f (set_journal x w) = f w.
Hypothesis f_uploaded : forall x w, f (set_uploaded x w) = f w.
Hypothesis f_id : forall x w, f (set_LOGGING_ID x w) = f w.
Hypothesis f_version : forall x w, f (set_LOGGING_VERSION x w) = f w.
Hypothesis f_file : forall x w, f (set_LOGGING_FILE x w) = f w.
Hypothesis f_handlers : forall x w, f (set_root_handlers x w) = f w.
Hypothesis f_clock : forall x w, f (set_clock_reads x w) = f w.
Hypothesis f_entropy : forall x w, f (set_entropy_reads x w) = f w.

Lemma same_bind A B (m : M A) (k : A -> M B) : keeps (same f) m -> (forall a, keeps (same f) (k a)) -> keeps (same f) (bind m k).
Proof. apply keeps_bind, same_trans. Qed.

Lemma same_ret A (a : A) : keeps (same f) (ret a).
Proof. apply keeps_ret, same_refl. Qed.

Lemma same_gets A (g : world -> A) : keeps (same f) (gets g).
Proof. apply keeps_gets, same_refl. Qed.

Lemma same_when b m : keeps (same f) m -> keeps (same f) (when b m).
Proof. apply keeps_when, same_refl. Qed.

Lemma same_try A (m : M A) h : keeps (same f) m -> (forall e k, h e = Some k -> keeps (same f) k) -> keeps (same f) (try m h).
Proof. apply keeps_try, same_trans. Qed.

Lemma same_for_each A (xs : list A) body : (forall x, keeps (same f) (body x)) -> keeps (same f) (for_each xs body).
Proof. apply keeps_for_each; [apply same_refl|apply same_trans]. Qed.

Lemma same_debug t : keeps (same f) (logger_debug t).
Proof. intros w. apply f_journal. Qed.

Lemma same_info t : keeps (same f) (logger_info t).
Proof. intros w. apply f_journal. Qed.

Lemma same_exception t e : keeps (same f) (logger_exception t e).
Proof. intros w. apply f_journal. Qed.

Lemma same_mkdir p : keeps (same f) (Fs.mkdir p).
Proof.
  intros w. unfold Fs.mkdir, same.
  destruct (Fs.exists_ p (fs w)); [reflexivity|].
  destruct (Fs.is_dir (Path.parent p) (fs w)); [apply f_fs|reflexivity].
Qed.

Lemma same_append_text p text : keeps (same f) (Fs.append_text p text).
Proof.
  intros w. unfold Fs.append_text, same.
  destruct (Fs.lookup p (fs w)) as [[c|]|]; [apply f_fs|reflexivity|].
  destruct (Fs.is_dir (Path.parent p) (fs w)); [apply f_fs|reflexivity].
Qed.

Lemma same_readline p : keeps (same f) (Fs.readline p).
Proof.
  intros w. unfold Fs.readline, same.
  destruct (Fs.lookup p (fs w)) as [[c|]|]; reflexivity.
Qed.

Lemma same_iterdir d : keeps (same f) (Fs.iterdir d).
Proof. intros w. unfold Fs.iterdir, same. destruct (Fs.is_dir d (fs w)); reflexivity. Qed.

Lemma same_rename src dst : keeps (same f) (Fs.rename src dst).
Proof.
  intros w. unfold Fs.rename, same.
  repeat match goal with
         | |- context [match ?x with _ => _ end] => destruct x
         end; first [reflexivity | apply f_fs].
Qed.

Lemma same_get_log_dir H : keeps (same f) (get_log_dir H).
Proof.
  unfold get_log_dir.
  apply same_bind; [apply same_debug|intros _].
  apply same_bind; [apply same_debug|intros _].
  apply same_bind; [apply same_gets|intros is_d].
  apply same_bind.
  { apply same_when, same_bind; [apply same_debug|intros _; apply same_mkdir]. }
  intros _.
  apply same_bind; [apply same_gets|intros is_f].
  apply same_bind.
  { destruct is_f; cbn [negb].
    - apply same_bind; [apply same_debug|intros _].
      apply same_bind; [apply same_readline|intros line].
      intros w. apply f_id.
    - apply same_bind; [apply same_debug|intros _].
      apply same_bind; [intros w; apply f_entropy|intros u].
      apply same_bind; [intros w; apply f_id|intros _].
      apply same_append_text. }
  intros _.
  apply same_bind; [apply same_gets|intros logging_id].
  apply same_bind; [apply same_debug|intros _].
  apply same_bind; [apply same_debug|intros _].
  apply same_bind; [apply same_gets|intros is_d2].
  apply same_bind; [|intros _; apply same_ret].
  apply same_when, same_bind; [apply same_debug|intros _; apply same_mkdir].
Qed.

Lemma same_upload_file_to_s3 H file bucket object_name folder_name :
  keeps (same f) (upload_file_to_s3 H file bucket object_name folder_name).
Proof.
  unfold upload_file_to_s3. apply same_try.
  - intros w. unfold s3_client_upload_file, same.
    destruct (s3_upload_file H file bucket _); [reflexivity|apply f_uploaded].
  - intros e k E. destruct e; try discriminate E. injection E as <-. apply same_exception.
Qed.

Lemma same_upload_and_archive H entry : keeps (same f) (upload_and_archive H entry).
Proof.
  destruct entry as [log_file archived_file]. unfold upload_and_archive.
  apply same_bind; [apply same_upload_file_to_s3|intros _].
  apply same_try; [apply same_rename|].
  intros e k E. injection E as <-. apply same_exception.
Qed.

Lemma same_select_log_files archive log_filter files acc :
  keeps (same f) (select_log_files archive log_filter files acc).
Proof.
  revert acc. induction files as [|file files IH]; intros acc; simpl.
  - apply same_ret.
  - destruct (Re.compile log_filter); [apply IH|intros w; reflexivity].
Qed.

Lemma same_upload_archive_in H d log_filter :
  keeps (same f) (upload_archive_logs_s3 H (Some d) log_filter).
Proof.
  unfold upload_archive_logs_s3. destruct (ALLOW_LOG_COLLECTION H); [|apply same_info].
  apply same_bind; [apply same_ret|intros directory].
  apply same_bind; [apply same_gets|intros present].
  apply same_bind.
  { apply same_when, same_bind; [apply same_mkdir|intros _; apply same_debug]. }
  intros _.
  apply same_bind; [apply same_iterdir|intros files].
  apply same_bind; [apply same_select_log_files|intros log_files].
  apply same_bind; [apply same_info|intros _].
  apply same_bind; [|intros _; apply same_info].
  apply same_for_each. intros x. apply same_upload_and_archive.
Qed.

Lemma same_upload_archive_logs_s3 H directory_str log_filter :
  keeps (same f) (upload_archive_logs_s3 H directory_str log_filter).
Proof.
  destruct directory_str as [d|]; [apply same_upload_archive_in|].
  destruct (ALLOW_LOG_COLLECTION H) eqn:Hc.
  - apply (keeps_pointwise _ _
             (bind (get_log_dir H) (fun d => upload_archive_logs_s3 H (Some d) log_filter))).
    + intros w. unfold upload_archive_logs_s3. rewrite Hc. reflexivity.
    + apply same_bind; [apply same_get_log_dir|intros d; apply same_upload_archive_in].
  - unfold upload_archive_logs_s3. rewrite Hc. apply same_info.
Qed.

Lemma same_setup_file_logger H session_id : keeps (same f) (setup_file_logger H session_id).
Proof.
  unfold setup_file_logger.
  apply same_bind; [apply same_get_log_dir|intros d].
  apply same_bind; [apply same_upload_archive_logs_s3|intros _].
  apply same_bind; [intros w; apply f_clock|intros t].
  apply same_bind; [intros w; apply f_file|intros _].
  apply same_bind; [apply same_debug|intros _].
  apply same_bind; [apply same_append_text|intros _].
  apply same_bind; [apply same_gets|intros v].
  intros w. apply f_handlers.
Qed.

Lemma same_get_commit_hash H : keeps (same f) (get_commit_hash H).
Proof.
  unfold get_commit_hash.
  apply same_bind; [apply same_gets|intros is_d].
  apply same_when. destruct (git_short_sha H); [intros w; reflexivity|intros w; apply f_version].
Qed.

Lemma same_attach_handler H T id a_handler : keeps (same f) (attach_handler H T id a_handler).
Proof.
  unfold attach_handler.
  repeat match goal with
         | |- keeps (same f) (if ?b then _ else _) => destruct b
         end;
    first [ apply same_debug
          | apply same_setup_file_logger
          | apply same_bind; [apply same_gets|intros v; intros w; apply f_handlers] ].
Qed.

End Same.

Lemma grows_refl w : grows w w.
Proof. intros p n E. exact E. Qed.

Lemma grows_trans a b c : grows a b -> grows b c -> grows a c.
Proof. intros Hab Hbc p n E. apply Hbc, Hab, E. Qed.

Lemma grows_debug t : keeps grows (logger_debug t).
Proof. intros w p n E. exact E. Qed.

Lemma handlers_kept_refl w : handlers_kept w w.
Proof. exists []. now rewrite app_nil_r. Qed.

Lemma handlers_kept_trans a b c : handlers_kept a b -> handlers_kept b c -> handlers_kept a c.
Proof.
  intros [h1 E1] [h2 E2]. exists (h1 ++ h2)%list. now rewrite E2, E1, app_assoc.
Qed.

Lemma same_handlers_kept A (m : M A) : keeps (same root_handlers) m -> keeps handlers_kept m.
Proof. intros Hm w. exists []. rewrite app_nil_r. apply Hm. Qed.

Lemma bind_raises A B (m : M A) (k : A -> M B) w e w' :
  bind m k w = (inr e, w') ->
  m w = (inr e, w') \/ exists a w1, m w = (inl a, w1) /\ k a w1 = (inr e, w').
Proof.
  unfold bind. destruct (m w) as [[a|e0] w1]; intros E.
  - right. now exists a, w1.
  - left. injection E as <- <-. reflexivity.
Qed.

(** ** What [get_log_dir] leaves behind *)

Lemma mkdir_returns p w w' :
  Fs.mkdir p w = (inl tt, w') ->
  w' = set_fs (fs w ++ [(p, Dir)]) w /\ Fs.lookup p (fs w) = None.
Proof.
  unfold Fs.mkdir, Fs.exists_.
  destruct (Fs.lookup p (fs w)) as [n|]; [discriminate|].
  destruct (Fs.is_dir (Path.parent p) (fs w)); [|discriminate].
  intros E. injection E as <-. now split.
Qed.

Lemma lookup_snoc_new p n t q :
  Fs.lookup p t = None -> Fs.lookup q (t ++ [(p, n)])%list
                          = if String.eqb p q then Some n else Fs.lookup q t.
Proof.
  intros Hp. rewrite lookup_app, lookup_single.
  destruct (String.eqb_spec p q) as [->|_]; [now rewrite Hp|].
  now destruct (Fs.lookup q t).
Qed.

Lemma lookup_snoc_keeps p n t q x :
  Fs.lookup q t = Some x -> Fs.lookup q (t ++ [(p, n)])%list = Some x.
Proof. intros E. now apply lookup_app_some. Qed.

(** The second half of [get_log_dir]: the session directory of the
    identity that [cfg] holds is made unless it is there. *)
Lemma ensure_session_dir_returns root w d w' :
  bind (gets (fun w => match LOGGING_ID w with Some i => i | None => "None" end))
    (fun logging_id =>
       bind (logger_debug ("Log id: " ++ logging_id))
         (fun _ =>
            bind (logger_debug ("Current log dir: " ++ Path.joinpath root logging_id))
              (fun _ =>
                 bind (gets (fun w => Fs.is_dir (Path.joinpath root logging_id) (fs w)))
                   (fun is_d =>
                      bind (when (negb is_d)
                              (bind (logger_debug
                                       ("UUID log dir does not exist: "
                                        ++ Path.joinpath root logging_id ++ ". Creating."))
                                 (fun _ => Fs.mkdir (Path.joinpath root logging_id))))
                        (fun _ => ret (Path.joinpath root logging_id)))))) w
  = (inl d, w') ->
  d = Path.joinpath root (match LOGGING_ID w with Some i => i | None => "None" end)
  /\ LOGGING_ID w' = LOGGING_ID w
  /\ Fs.is_dir d (fs w') = true
  /\ (forall p n, Fs.lookup p (fs w) = Some n -> Fs.lookup p (fs w') = Some n).
Proof.
  run. set (D := Path.joinpath root _).
  destruct (Fs.is_dir D (fs w)) eqn:Ed; run.
  - intros E. injection E as <- <-. cbn [LOGGING_ID fs set_journal]. repeat split; auto.
  - intros E. apply bind_returns in E as ([] & w1 & Em & E).
    apply mkdir_returns in Em as [-> L]. cbn [fs set_journal] in L.
    revert E. run. intros E. injection E as <- <-. cbn [LOGGING_ID fs set_fs set_journal].
    split; [reflexivity|]. split; [reflexivity|]. split.
    + apply is_dir_lookup. now rewrite lookup_snoc_new, String.eqb_refl.
    + intros p n Hp. now apply lookup_snoc_keeps.
Qed.

Lemma append_text_creates p text w w' :
  Fs.is_file p (fs w) = false ->
  Fs.append_text p text w = (inl tt, w') ->
  w' = set_fs (fs w ++ [(p, File text)]) w /\ Fs.lookup p (fs w) = None.
Proof.
  unfold Fs.is_file, Fs.append_text.
  destruct (Fs.lookup p (fs w)) as [[c|]|]; try discriminate.
  intros _. destruct (Fs.is_dir (Path.parent p) (fs w)); [|discriminate].
  intros E. injection E as <-. now split.
Qed.

Lemma get_log_dir_returns H w d w' :
  get_log_dir H w = (inl d, w') ->
  exists id content,
    LOGGING_ID w' = Some id
    /\ d = Path.joinpath (log_root H) id
    /\ Fs.is_dir (log_root H) (fs w') = true
    /\ Fs.lookup (sentinel H) (fs w') = Some (File content)
    /\ Py.rstrip (Fs.first_line content) = id
    /\ Fs.is_dir d (fs w') = true
    /\ (forall p n, Fs.lookup p (fs w) = Some n -> Fs.lookup p (fs w') = Some n).
Proof.
  unfold get_log_dir.
  change (Path.joinpath (package_parent H) "logs") with (log_root H).
  change (Path.joinpath (log_root H) ".logid") with (sentinel H).
  run. intros E.
  apply bind_returns in E as ([] & w1 & E1 & E).
  assert (S1 : Fs.is_dir (log_root H) (fs w1) = true
               /\ forall p n, Fs.lookup p (fs w) = Some n -> Fs.lookup p (fs w1) = Some n).
  { destruct (Fs.is_dir (log_root H) (fs w)) eqn:Ed; cbn [negb when] in E1.
    - injection E1 as <-. cbn [fs set_journal]. now split.
    - revert E1. run. intros E1. apply mkdir_returns in E1 as [-> L].
      cbn [fs set_fs set_journal] in *. split.
      + apply is_dir_lookup. now rewrite lookup_snoc_new, String.eqb_refl.
      + intros p n Hp. now apply lookup_snoc_keeps. }
  destruct S1 as [R1 K1].
  revert E. run. intros E. apply bind_returns in E as ([] & w2 & E2 & E).
  assert (S2 : exists id content,
             LOGGING_ID w2 = Some id
             /\ Fs.lookup (sentinel H) (fs w2) = Some (File content)
             /\ Py.rstrip (Fs.first_line content) = id
             /\ Fs.is_dir (log_root H) (fs w2) = true
             /\ forall p n, Fs.lookup p (fs w1) = Some n -> Fs.lookup p (fs w2) = Some n).
  { destruct (Fs.is_file (sentinel H) (fs w1)) eqn:Ef; cbn [negb] in E2.
    - revert E2. run. intros E2. apply bind_returns in E2 as (line & w3 & Er & E2).
      unfold Fs.readline in Er. cbn [fs set_journal] in Er.
      destruct (Fs.lookup (sentinel H) (fs w1)) as [[c|]|] eqn:Ls; try discriminate Er.
      injection Er as <- <-. injection E2 as <-.
      exists (Py.rstrip (Fs.first_line c)), c.
      cbn [LOGGING_ID fs set_LOGGING_ID set_journal]. repeat split; auto.
    - revert E2. run. intros E2.
      apply append_text_creates in E2 as [-> L]; [|exact Ef].
      cbn [fs set_fs set_journal set_LOGGING_ID set_entropy_reads] in *.
      eexists. eexists.
      cbn [LOGGING_ID fs set_fs set_LOGGING_ID set_journal set_entropy_reads].
      split; [reflexivity|]. split; [|split; [|split]].
      + now rewrite lookup_snoc_new, String.eqb_refl.
      + apply read_back_identity, str_uuid_is_uuid_text.
      + apply is_dir_lookup. apply lookup_snoc_keeps. now apply is_dir_lookup.
      + intros p n Hp. now apply lookup_snoc_keeps. }
  destruct S2 as (id & content & I2 & F2 & B2 & R2 & K2).
  apply ensure_session_dir_returns in E as (-> & Hid & Hd & K3).
  rewrite I2 in *. exists id, content. split; [exact Hid|]. split; [reflexivity|].
  split; [apply is_dir_lookup, K3; now apply is_dir_lookup|].
  split; [now apply K3|]. split; [exact B2|].
  split; [exact Hd|]. intros p n Hp. auto.
Qed.

(** X5: whenever [get_log_dir] returns, from any state of the disk, the
    settings hold an identity, the directory returned is the log root joined
    with that identity and is a directory, the log root is a directory and
    the sentinel is a file. *)
Theorem get_log_dir_postcondition H w d w' :
  get_log_dir H w = (inl d, w') ->
  exists id,
    LOGGING_ID w' = Some id
    /\ d = Path.joinpath (log_root H) id
    /\ Fs.is_dir (log_root H) (fs w') = true
    /\ Fs.is_file (sentinel H) (fs w') = true
    /\ Fs.is_dir d (fs w') = true.
Proof.
  intros E.
  destruct (get_log_dir_returns H w d w' E) as (id & content & A & B & C & D & _ & F & _).
  exists id. repeat split; try assumption.
  unfold Fs.is_file. now rewrite D.
Qed.

Lemma get_log_dir_postcondition_witness :
  get_log_dir (sample_host true accepting_store) (world_on fresh_disk)
  = (inl sample_session_dir,
     snd (get_log_dir (sample_host true accepting_store) (world_on fresh_disk)))
  /\ exists id,
       LOGGING_ID (snd (get_log_dir (sample_host true accepting_store) (world_on fresh_disk)))
       = Some id
       /\ sample_session_dir = Path.joinpath (log_root (sample_host true accepting_store)) id
       /\ Fs.is_dir (log_root (sample_host true accepting_store))
            (fs (snd (get_log_dir (sample_host true accepting_store) (world_on fresh_disk))))
          = true
       /\ Fs.is_file (sentinel (sample_host true accepting_store))
            (fs (snd (get_log_dir (sample_host true accepting_store) (world_on fresh_disk))))
          = true
       /\ Fs.is_dir sample_session_dir
            (fs (snd (get_log_dir (sample_host true accepting_store) (world_on fresh_disk))))
          = true.
Proof.
  split; [vm_compute; reflexivity|].
  apply (get_log_dir_postcondition (sample_host true accepting_store) (world_on fresh_disk)
           sample_session_dir
           (snd (get_log_dir (sample_host true accepting_store) (world_on fresh_disk)))).
  vm_compute; reflexivity.
Defined.

Lemma grows_mkdir p : keeps grows (Fs.mkdir p).
Proof.
  intros w. destruct (mkdir_cases p w) as [E|[e E]]; rewrite E; [|apply grows_refl].
  intros q n Hq. now apply lookup_snoc_keeps.
Qed.

Lemma grows_sentinel_step H S :
  keeps grows
    (bind (gets (fun w => Fs.is_file S (fs w)))
       (fun is_f =>
          if negb is_f then
            bind (logger_debug ("Log ID does not exist: " ++ S))
              (fun _ =>
                 bind (uuid4 H)
                   (fun u =>
                      bind (modify (set_LOGGING_ID (Some (str_uuid u))))
                        (fun _ => Fs.append_text S (str_uuid u ++ Py.chr Py.LF))))
          else
            bind (logger_debug ("Log ID exists: " ++ S))
              (fun _ =>
                 bind (Fs.readline S)
                   (fun line => modify (set_LOGGING_ID (Some (Py.rstrip line))))))).
Proof.
  intros w. run. destruct (Fs.is_file S (fs w)) eqn:Ef; cbn [negb]; run.
  - unfold bind, Fs.readline. cbn [fs set_journal].
    destruct (Fs.lookup S (fs w)) as [[c|]|]; intros q n Hq; exact Hq.
  - unfold Fs.append_text. cbn [fs set_journal set_LOGGING_ID set_entropy_reads].
    unfold Fs.is_file in Ef.
    destruct (Fs.lookup S (fs w)) as [[c|]|]; [discriminate Ef|intros q n Hq; exact Hq|].
    destruct (Fs.is_dir (Path.parent S) (fs w)); [|intros q n Hq; exact Hq].
    intros q n Hq. now apply lookup_snoc_keeps.
Qed.

Lemma get_log_dir_grows H : keeps grows (get_log_dir H).
Proof.
  unfold get_log_dir.
  apply keeps_bind; [apply grows_trans|apply grows_debug|intros _].
  apply keeps_bind; [apply grows_trans|apply grows_debug|intros _].
  apply keeps_bind; [apply grows_trans|apply keeps_gets, grows_refl|intros is_d].
  apply keeps_bind; [apply grows_trans| |intros _].
  { apply keeps_when; [apply grows_refl|].
    apply keeps_bind; [apply grows_trans|apply grows_debug|intros _; apply grows_mkdir]. }
  eapply keeps_pointwise; [intros w; apply bind_assoc|].
  apply keeps_bind; [apply grows_trans|apply grows_sentinel_step|intros _].
  apply keeps_bind; [apply grows_trans|apply keeps_gets, grows_refl|intros logging_id].
  apply keeps_bind; [apply grows_trans|apply grows_debug|intros _].
  apply keeps_bind; [apply grows_trans|apply grows_debug|intros _].
  apply keeps_bind; [apply grows_trans|apply keeps_gets, grows_refl|intros is_d2].
  apply keeps_bind; [apply grows_trans| |intros _; apply keeps_ret, grows_refl].
  apply keeps_when; [apply grows_refl|].
  apply keeps_bind; [apply grows_trans|apply grows_debug|intros _; apply grows_mkdir].
Qed.

(** X6: [get_log_dir] never removes or rewrites what is on the disk:
    every file and directory there before the call is there after it with
    the same content, whether the call returns or raises. *)
Theorem get_log_dir_keeps_entries H w p n :
  Fs.lookup p (fs w) = Some n ->
  Fs.lookup p (fs (snd (get_log_dir H w))) = Some n.
Proof. intros E. now apply (get_log_dir_grows H w). Qed.

Lemma get_log_dir_keeps_entries_witness :
  Fs.lookup "/opt/gst/logs/.logid" (fs (world_on rotated_disk))
  = Some (File ("7d9f4c1e-0000-4000-8000-000000000001" ++ Py.chr Py.LF))
  /\ Fs.lookup "/opt/gst/logs/.logid"
       (fs (snd (get_log_dir (sample_host true accepting_store) (world_on rotated_disk))))
     = Some (File ("7d9f4c1e-0000-4000-8000-000000000001" ++ Py.chr Py.LF)).
Proof.
  split; [vm_compute; reflexivity|].
  apply (get_log_dir_keeps_entries (sample_host true accepting_store) (world_on rotated_disk)).
  vm_compute; reflexivity.
Defined.

(** ** The sentinel as it is found *)

Lemma rstrip_blank s : all_chars Py.isspace s = true -> Py.rstrip s = EmptyString.
Proof.
  induction s as [|c s IH]; simpl; [reflexivity|].
  intros E. apply andb_true_iff in E as [Ec Es]. now rewrite (IH Es), Ec.
Qed.

Lemma get_log_dir_settled_any H w content :
  Fs.is_dir (log_root H) (fs w) = true ->
  Fs.lookup (sentinel H) (fs w) = Some (File content) ->
  Fs.is_dir (Path.joinpath (log_root H) (Py.rstrip (Fs.first_line content))) (fs w) = true ->
  exists w',
    get_log_dir H w
    = (inl (Path.joinpath (log_root H) (Py.rstrip (Fs.first_line content))), w')
    /\ fs w' = fs w
    /\ LOGGING_ID w' = Some (Py.rstrip (Fs.first_line content))
    /\ entropy_reads w' = entropy_reads w
    /\ uploaded w' = uploaded w.
Proof.
  intros Hroot Hsent Hd. unfold sentinel, log_root in *. unfold get_log_dir.
  run. rewrite Hroot. run. unfold Fs.is_file at 1. rewrite Hsent. run.
  erewrite bind_inl; [|apply readline_file; exact Hsent].
  run. rewrite Hd. run. eexists. repeat split.
Qed.

(** X7: with the log root and the sentinel present, the sentinel holding
    plain ASCII text without carriage return, the identity is the first line
    with all its trailing white space stripped, no random identity is drawn,
    and the sentinel is not written; when the session directory of that
    identity exists, the call returns it and leaves the disk as it was. *)
Theorem get_log_dir_reads_any_sentinel H w content :
  plain_text content = true ->
  Fs.is_dir (log_root H) (fs w) = true ->
  Fs.lookup (sentinel H) (fs w) = Some (File content) ->
  LOGGING_ID (snd (get_log_dir H w)) = Some (Py.rstrip (Fs.first_line content))
  /\ entropy_reads (snd (get_log_dir H w)) = entropy_reads w
  /\ Fs.lookup (sentinel H) (fs (snd (get_log_dir H w))) = Some (File content)
  /\ (Fs.is_dir (Path.joinpath (log_root H) (Py.rstrip (Fs.first_line content))) (fs w) = true ->
      fst (get_log_dir H w)
      = inl (Path.joinpath (log_root H) (Py.rstrip (Fs.first_line content)))
      /\ fs (snd (get_log_dir H w)) = fs w).
Proof.
  intros _ Hroot Hsent.
  split; [now apply get_log_dir_reads_sentinel|].
  split; [|split; [now apply get_log_dir_keeps_entries|]].
  - unfold sentinel, log_root in *. unfold get_log_dir.
    run. rewrite Hroot. run. unfold Fs.is_file at 1. rewrite Hsent. run.
    erewrite bind_inl; [|apply readline_file; exact Hsent].
    run.
    match goal with |- context [when ?b ?m] => destruct b end; cbn [when]; run.
    + match goal with |- context [bind (Fs.mkdir ?p) _ ?W] =>
        destruct (mkdir_cases p W) as [E|[e E]] end.
      * rewrite (bind_inl _ E). reflexivity.
      * rewrite (bind_inr _ E). reflexivity.
    + reflexivity.
  - intros Hd.
    assert (E : exists w', get_log_dir H w
                           = (inl (Path.joinpath (log_root H)
                                     (Py.rstrip (Fs.first_line content))), w')
                           /\ fs w' = fs w).
    { unfold sentinel, log_root in *. unfold get_log_dir.
      run. rewrite Hroot. run. unfold Fs.is_file at 1. rewrite Hsent. run.
      erewrite bind_inl; [|apply readline_file; exact Hsent].
      run. rewrite Hd. run. eexists. split; reflexivity. }
    destruct E as (w' & -> & F). split; [reflexivity|exact F].
Qed.

Lemma get_log_dir_reads_any_sentinel_witness :
  plain_text (" " ++ Py.chr Py.LF ++ "7d9f4c1e") = true
  /\ Fs.is_dir (log_root (sample_host true accepting_store)) (fs (world_on blank_sentinel_disk)) = true
  /\ Fs.lookup (sentinel (sample_host true accepting_store)) (fs (world_on blank_sentinel_disk))
     = Some (File (" " ++ Py.chr Py.LF ++ "7d9f4c1e"))
  /\ LOGGING_ID (snd (get_log_dir (sample_host true accepting_store) (world_on blank_sentinel_disk)))
     = Some (Py.rstrip (Fs.first_line (" " ++ Py.chr Py.LF ++ "7d9f4c1e")))
  /\ entropy_reads (snd (get_log_dir (sample_host true accepting_store)
                           (world_on blank_sentinel_disk)))
     = entropy_reads (world_on blank_sentinel_disk)
  /\ Fs.lookup (sentinel (sample_host true accepting_store))
       (fs (snd (get_log_dir (sample_host true accepting_store) (world_on blank_sentinel_disk))))
     = Some (File (" " ++ Py.chr Py.LF ++ "7d9f4c1e"))
  /\ (Fs.is_dir (Path.joinpath (log_root (sample_host true accepting_store))
                   (Py.rstrip (Fs.first_line (" " ++ Py.chr Py.LF ++ "7d9f4c1e"))))
        (fs (world_on blank_sentinel_disk)) = true ->
      fst (get_log_dir (sample_host true accepting_store) (world_on blank_sentinel_disk))
      = inl (Path.joinpath (log_root (sample_host true accepting_store))
               (Py.rstrip (Fs.first_line (" " ++ Py.chr Py.LF ++ "7d9f4c1e"))))
      /\ fs (snd (get_log_dir (sample_host true accepting_store) (world_on blank_sentinel_disk)))
         = fs (world_on blank_sentinel_disk)).
Proof.
  split; [vm_compute; reflexivity|].
  split; [vm_compute; reflexivity|]. split; [vm_compute; reflexivity|].
  apply (get_log_dir_reads_any_sentinel (sample_host true accepting_store)
           (world_on blank_sentinel_disk) (" " ++ Py.chr Py.LF ++ "7d9f4c1e")).
  - vm_compute; reflexivity.
  - vm_compute; reflexivity.
  - vm_compute; reflexivity.
Defined.

(** X8: when the first line of the sentinel is empty or blank, the
    identity is the empty string and the session directory is the log root
    itself: the call returns the log root and makes no directory. *)
Theorem get_log_dir_blank_sentinel H w content :
  Fs.is_dir (log_root H) (fs w) = true ->
  Fs.lookup (sentinel H) (fs w) = Some (File content) ->
  all_chars Py.isspace (Fs.first_line content) = true ->
  exists w',
    get_log_dir H w = (inl (log_root H), w')
    /\ LOGGING_ID w' = Some EmptyString
    /\ fs w' = fs w.
Proof.
  intros Hroot Hsent Hblank.
  pose proof (rstrip_blank _ Hblank) as Hr.
  unfold sentinel, log_root in *. unfold get_log_dir.
  run. rewrite Hroot. run. unfold Fs.is_file at 1. rewrite Hsent. run.
  erewrite bind_inl; [|apply readline_file; exact Hsent].
  run. rewrite Hr.
  change (Path.joinpath (Path.joinpath (package_parent H) "logs") "")
    with (Path.joinpath (package_parent H) "logs").
  rewrite Hroot. run. eexists. repeat split.
Qed.

Lemma get_log_dir_blank_sentinel_witness :
  Fs.is_dir (log_root (sample_host true accepting_store)) (fs (world_on blank_sentinel_disk)) = true
  /\ Fs.lookup (sentinel (sample_host true accepting_store)) (fs (world_on blank_sentinel_disk))
     = Some (File (" " ++ Py.chr Py.LF ++ "7d9f4c1e"))
  /\ all_chars Py.isspace (Fs.first_line (" " ++ Py.chr Py.LF ++ "7d9f4c1e")) = true
  /\ exists w',
       get_log_dir (sample_host true accepting_store) (world_on blank_sentinel_disk)
       = (inl (log_root (sample_host true accepting_store)), w')
       /\ LOGGING_ID w' = Some EmptyString
       /\ fs w' = fs (world_on blank_sentinel_disk).
Proof.
  split; [vm_compute; reflexivity|]. split; [vm_compute; reflexivity|].
  split; [vm_compute; reflexivity|].
  apply (get_log_dir_blank_sentinel (sample_host true accepting_store)
           (world_on blank_sentinel_disk) (" " ++ Py.chr Py.LF ++ "7d9f4c1e")).
  - vm_compute; reflexivity.
  - vm_compute; reflexivity.
  - vm_compute; reflexivity.
Defined.

(** X9: when a directory sits at the place of the sentinel, the call
    raises an [OSError] from opening it, after it has drawn a random identity
    and stored it in the settings; the disk is unchanged. *)
Theorem get_log_dir_sentinel_is_directory H w :
  Fs.is_dir (log_root H) (fs w) = true ->
  Fs.is_dir (sentinel H) (fs w) = true ->
  exists text w',
    get_log_dir H w = (inr (OSError text), w')
    /\ LOGGING_ID w' = Some (str_uuid (entropy H (entropy_reads w)))
    /\ entropy_reads w' = S (entropy_reads w)
    /\ fs w' = fs w.
Proof.
  intros Hroot Hsent. apply is_dir_lookup in Hsent.
  unfold sentinel, log_root in *. unfold get_log_dir.
  run. rewrite Hroot. run. unfold Fs.is_file at 1. rewrite Hsent. run.
  erewrite bind_inr.
  2:{ unfold Fs.append_text. cbn [fs set_journal set_LOGGING_ID set_entropy_reads].
      rewrite Hsent. reflexivity. }
  do 2 eexists. repeat split.
Qed.

Lemma get_log_dir_sentinel_is_directory_witness :
  Fs.is_dir (log_root (sample_host true accepting_store))
    (fs (world_on sentinel_directory_disk)) = true
  /\ Fs.is_dir (sentinel (sample_host true accepting_store))
       (fs (world_on sentinel_directory_disk)) = true
  /\ exists text w',
       get_log_dir (sample_host true accepting_store) (world_on sentinel_directory_disk)
       = (inr (OSError text), w')
       /\ LOGGING_ID w'
          = Some (str_uuid (entropy (sample_host true accepting_store)
                              (entropy_reads (world_on sentinel_directory_disk))))
       /\ entropy_reads w' = S (entropy_reads (world_on sentinel_directory_disk))
       /\ fs w' = fs (world_on sentinel_directory_disk).
Proof.
  split; [vm_compute; reflexivity|]. split; [vm_compute; reflexivity|].
  apply (get_log_dir_sentinel_is_directory (sample_host true accepting_store)
           (world_on sentinel_directory_disk)).
  - vm_compute; reflexivity.
  - vm_compute; reflexivity.
Defined.

(** X10: from any state in which a call of [get_log_dir] returns, the
    next call returns the same directory, keeps the identity, draws no random
    identity and leaves the disk alone. *)
Theorem get_log_dir_again H w d w1 :
  get_log_dir H w = (inl d, w1) ->
  exists w2,
    get_log_dir H w1 = (inl d, w2)
    /\ LOGGING_ID w2 = LOGGING_ID w1
    /\ fs w2 = fs w1
    /\ entropy_reads w2 = entropy_reads w1.
Proof.
  intros E.
  destruct (get_log_dir_returns H w d w1 E) as (id & content & I & -> & R & S & B & D & _).
  rewrite <- B in D.
  destruct (get_log_dir_settled_any H w1 content R S D) as (w2 & E2 & F2 & I2 & N2 & _).
  exists w2. rewrite <- B. split; [exact E2|]. split; [congruence|]. now split.
Qed.

Lemma get_log_dir_again_witness :
  get_log_dir (sample_host true accepting_store) (world_on blank_sentinel_disk)
  = (inl "/opt/gst/logs",
     snd (get_log_dir (sample_host true accepting_store) (world_on blank_sentinel_disk)))
  /\ exists w2,
       get_log_dir (sample_host true accepting_store)
         (snd (get_log_dir (sample_host true accepting_store) (world_on blank_sentinel_disk)))
       = (inl "/opt/gst/logs", w2)
       /\ LOGGING_ID w2
          = LOGGING_ID (snd (get_log_dir (sample_host true accepting_store)
                               (world_on blank_sentinel_disk)))
       /\ fs w2
          = fs (snd (get_log_dir (sample_host true accepting_store)
                       (world_on blank_sentinel_disk)))
       /\ entropy_reads w2
          = entropy_reads (snd (get_log_dir (sample_host true accepting_store)
                                  (world_on blank_sentinel_disk))).
Proof.
  split; [vm_compute; reflexivity|].
  apply (get_log_dir_again (sample_host true accepting_store) (world_on blank_sentinel_disk)
           "/opt/gst/logs").
  vm_compute; reflexivity.
Defined.

(** ** The identity, from any state (C6) *)

Lemma rstrip_strip_newline s : Py.rstrip s = Py.rstrip (strip_newline s).
Proof.
  induction s as [|c s IH]; [reflexivity|].
  destruct s as [|d s].
  - cbn. destruct (Ascii.eqb_spec c Py.LF) as [->|_]; reflexivity.
  - change (strip_newline (String c (String d s)))
      with (String c (strip_newline (String d s))).
    cbn [Py.rstrip]. now rewrite <- IH.
Qed.

Lemma get_log_dir_repeats H n :
  forall w d w1,
    get_log_dir H w = (inl d, w1) ->
    exists wn,
      get_log_dir_times H n w1 = (repeat (inl d) n, wn)
      /\ LOGGING_ID wn = LOGGING_ID w1
      /\ fs wn = fs w1.
Proof.
  induction n as [|n IH]; intros w d w1 E.
  - exists w1. repeat split.
  - destruct (get_log_dir_returns H w d w1 E) as (id & content & I & Ed & R & S & B & D & _).
    rewrite Ed, <- B in D.
    destruct (get_log_dir_settled_any H w1 content R S D) as (w2 & E2 & F2 & I2 & _).
    rewrite B, <- Ed in E2.
    destruct (IH w1 d w2 E2) as (wn & En & In & Fn).
    exists wn. cbn [get_log_dir_times repeat]. rewrite E2, En.
    split; [reflexivity|]. split; congruence.
Qed.

(** C6, as the code has it.  On a log root that is missing or empty, the
    first call mints an identity, writes it with a line feed to the sentinel
    [.logid] and returns the session directory of that identity, which is the
    first line of the sentinel without its trailing newline; every further
    call, however many, returns the same directory and identity and leaves
    the disk as the first call left it.  On any state with the log root and
    the sentinel present, the sentinel holding ASCII text, the identity a call
    reads back is the first line of the sentinel with all its trailing white
    space stripped, that is, the line without its newline and without the
    blanks before it; the sentinel is left as it is.  From any state in
    which a call returns, every further call returns the same directory and
    keeps the identity and the disk.  With the log root present and the
    sentinel gone, a call draws a new identity. *)
Theorem identity_is_stable H :
  (forall w n,
     package_parent H <> EmptyString ->
     Fs.is_dir (package_parent H) (fs w) = true ->
     Fs.is_file (log_root H) (fs w) = false ->
     log_root_empty H (fs w) = true ->
     exists id content w1 wn,
       get_log_dir H w = (inl (Path.joinpath (log_root H) id), w1)
       /\ LOGGING_ID w1 = Some id
       /\ Fs.lookup (sentinel H) (fs w1) = Some (File content)
       /\ strip_newline (Fs.first_line content) = id
       /\ get_log_dir_times H n w1 = (repeat (inl (Path.joinpath (log_root H) id)) n, wn)
       /\ LOGGING_ID wn = Some id
       /\ fs wn = fs w1)
  /\ (forall w content,
        ascii_text content = true ->
        Fs.is_dir (log_root H) (fs w) = true ->
        Fs.lookup (sentinel H) (fs w) = Some (File content) ->
        LOGGING_ID (snd (get_log_dir H w)) = Some (Py.rstrip (Fs.first_line content))
        /\ Py.rstrip (Fs.first_line content)
           = Py.rstrip (strip_newline (Fs.first_line content))
        /\ Fs.lookup (sentinel H) (fs (snd (get_log_dir H w))) = Some (File content))
  /\ (forall w d w1 n,
        get_log_dir H w = (inl d, w1) ->
        exists wn,
          get_log_dir_times H n w1 = (repeat (inl d) n, wn)
          /\ LOGGING_ID wn = LOGGING_ID w1
          /\ fs wn = fs w1)
  /\ (forall w,
        package_parent H <> EmptyString ->
        Fs.is_dir (log_root H) (fs w) = true ->
        Fs.lookup (sentinel H) (fs w) = None ->
        LOGGING_ID (snd (get_log_dir H w)) = Some (str_uuid (entropy H (entropy_reads w)))).
Proof.
  split; [|split; [|split]].
  - intros w n Hpp Hparent Hroot Hempty.
    destruct (get_log_dir_first H w Hpp Hparent Hroot (log_root_empty_lookup H _ Hempty))
      as (w1 & E1 & L1 & S1).
    set (id := str_uuid (entropy H (entropy_reads w))) in *.
    assert (Hid : all_chars is_uuid_char id = true) by apply str_uuid_is_uuid_text.
    destruct (get_log_dir_times_settled H id w1 n Hid S1 L1) as (wn & En & Ln & Fn).
    exists id, (id ++ Py.chr Py.LF), w1, wn.
    split; [exact E1|]. split; [exact L1|]. split; [apply S1|].
    split; [apply (read_back_identity id Hid)|].
    repeat split; assumption.
  - intros w content _ HR HS.
    split; [now apply get_log_dir_reads_sentinel|].
    split; [apply rstrip_strip_newline|].
    now apply (get_log_dir_grows H w).
  - intros w d w1 n E. now apply (get_log_dir_repeats H n w d w1).
  - intros w Hpp HR HS. now apply get_log_dir_without_sentinel.
Qed.

Lemma identity_is_stable_witness :
  package_parent (sample_host true accepting_store) <> EmptyString
  /\ Fs.is_dir (package_parent (sample_host true accepting_store)) (fs (world_on fresh_disk)) = true
  /\ Fs.is_file (log_root (sample_host true accepting_store)) (fs (world_on fresh_disk)) = false
  /\ log_root_empty (sample_host true accepting_store) (fs (world_on fresh_disk)) = true
  /\ (exists id content w1 wn,
        get_log_dir (sample_host true accepting_store) (world_on fresh_disk)
        = (inl (Path.joinpath (log_root (sample_host true accepting_store)) id), w1)
        /\ LOGGING_ID w1 = Some id
        /\ Fs.lookup (sentinel (sample_host true accepting_store)) (fs w1) = Some (File content)
        /\ strip_newline (Fs.first_line content) = id
        /\ get_log_dir_times (sample_host true accepting_store) 2 w1
           = (repeat (inl (Path.joinpath (log_root (sample_host true accepting_store)) id)) 2, wn)
        /\ LOGGING_ID wn = Some id
        /\ fs wn = fs w1)
  /\ ascii_text ("my-id  " ++ Py.chr Py.LF ++ "second") = true
  /\ Fs.is_dir (log_root (sample_host true accepting_store)) (fs (world_on padded_sentinel_disk))
     = true
  /\ Fs.lookup (sentinel (sample_host true accepting_store)) (fs (world_on padded_sentinel_disk))
     = Some (File ("my-id  " ++ Py.chr Py.LF ++ "second"))
  /\ LOGGING_ID (snd (get_log_dir (sample_host true accepting_store)
                        (world_on padded_sentinel_disk)))
     = Some (Py.rstrip (Fs.first_line ("my-id  " ++ Py.chr Py.LF ++ "second")))
  /\ get_log_dir (sample_host true accepting_store) (world_on padded_sentinel_disk)
     = (inl "/opt/gst/logs/my-id",
        snd (get_log_dir (sample_host true accepting_store) (world_on padded_sentinel_disk)))
  /\ (exists wn,
        get_log_dir_times (sample_host true accepting_store) 3
          (snd (get_log_dir (sample_host true accepting_store) (world_on padded_sentinel_disk)))
        = (repeat (inl "/opt/gst/logs/my-id") 3, wn)
        /\ LOGGING_ID wn
           = LOGGING_ID (snd (get_log_dir (sample_host true accepting_store)
                                (world_on padded_sentinel_disk)))
        /\ fs wn
           = fs (snd (get_log_dir (sample_host true accepting_store)
                        (world_on padded_sentinel_disk))))
  /\ Fs.is_dir (log_root (sample_host true accepting_store))
       (fs (world_on (List.app fresh_disk [("/opt/gst/logs", Dir)]))) = true
  /\ Fs.lookup (sentinel (sample_host true accepting_store))
       (fs (world_on (List.app fresh_disk [("/opt/gst/logs", Dir)]))) = None
  /\ LOGGING_ID (snd (get_log_dir (sample_host true accepting_store)
                        (world_on (List.app fresh_disk [("/opt/gst/logs", Dir)]))))
     = Some (str_uuid sample_uuid).
Proof.
  destruct (identity_is_stable (sample_host true accepting_store))
    as (First & Read & Again & Gone).
  split; [discriminate|].
  do 3 (split; [vm_compute; reflexivity|]).
  split.
  { apply (First (world_on fresh_disk) 2%nat).
    - discriminate.
    - vm_compute; reflexivity.
    - vm_compute; reflexivity.
    - vm_compute; reflexivity. }
  do 3 (split; [vm_compute; reflexivity|]).
  split.
  { refine (proj1 (Read (world_on padded_sentinel_disk)
                     ("my-id  " ++ Py.chr Py.LF ++ "second") _ _ _)).
    - vm_compute; reflexivity.
    - vm_compute; reflexivity.
    - vm_compute; reflexivity. }
  split; [vm_compute; reflexivity|].
  split.
  { apply (Again (world_on padded_sentinel_disk) "/opt/gst/logs/my-id"
             (snd (get_log_dir (sample_host true accepting_store)
                     (world_on padded_sentinel_disk))) 3%nat).
    vm_compute; reflexivity. }
  do 2 (split; [vm_compute; reflexivity|]).
  apply (Gone (world_on (List.app fresh_disk [("/opt/gst/logs", Dir)]))).
  - discriminate.
  - vm_compute; reflexivity.
  - vm_compute; reflexivity.
Defined.

(** C6 as stated fails for a sentinel the code did not write: the first
    line of the sentinel is [my-id], two blanks and a line feed; without its
    trailing newline it still ends in the two blanks, but the identity the
    call reads back, and the session directory it returns, have none. *)
Lemma identity_drops_trailing_blanks :
  Fs.lookup (sentinel (sample_host true accepting_store)) (fs (world_on padded_sentinel_disk))
  = Some (File ("my-id  " ++ Py.chr Py.LF ++ "second"))
  /\ strip_newline (Fs.first_line ("my-id  " ++ Py.chr Py.LF ++ "second")) = "my-id  "
  /\ LOGGING_ID (snd (get_log_dir (sample_host true accepting_store)
                        (world_on padded_sentinel_disk)))
     = Some "my-id"
  /\ fst (get_log_dir (sample_host true accepting_store) (world_on padded_sentinel_disk))
     = inl "/opt/gst/logs/my-id".
Proof. repeat split; vm_compute; reflexivity. Qed.

(** ** Failures in the upload loop *)

(** X11: an upload that fails with an exception other than [ClientError]
    is not caught: the exception leaves the loop at that file, which is
    neither logged nor moved, and the files after it are not reached. *)
Theorem upload_error_stops_the_run H log_file archived_file rest w e :
  s3_upload_file H log_file BUCKET (FOLDER_NAME ++ "/" ++ Path.name log_file) = Some e ->
  (forall text, e <> ClientError text) ->
  upload_and_archive H (log_file, archived_file) w = (inr e, w)
  /\ for_each ((log_file, archived_file) :: rest) (upload_and_archive H) w = (inr e, w).
Proof.
  intros Hup Hne.
  assert (U : upload_file_to_s3 H log_file BUCKET None (Some FOLDER_NAME) w = (inr e, w)).
  { unfold upload_file_to_s3, try, s3_client_upload_file. rewrite Hup.
    destruct e; try reflexivity. now elim (Hne text). }
  assert (B : upload_and_archive H (log_file, archived_file) w = (inr e, w)).
  { unfold upload_and_archive. now rewrite (bind_inr _ U). }
  split; [exact B|]. cbn [for_each]. now rewrite (bind_inr _ B).
Qed.

Lemma upload_error_stops_the_run_witness :
  s3_upload_file (sample_host true failing_store) rotated_a BUCKET
    (FOLDER_NAME ++ "/" ++ Path.name rotated_a)
  = Some (S3Error "Failed to upload a.log.2023-01-01_00")
  /\ (forall text, S3Error "Failed to upload a.log.2023-01-01_00" <> ClientError text)
  /\ upload_and_archive (sample_host true failing_store) (rotated_a, archived_a)
       (world_on archive_ready_disk)
     = (inr (S3Error "Failed to upload a.log.2023-01-01_00"), world_on archive_ready_disk)
  /\ for_each [(rotated_a, archived_a); (rotated_b, archived_b)]
       (upload_and_archive (sample_host true failing_store)) (world_on archive_ready_disk)
     = (inr (S3Error "Failed to upload a.log.2023-01-01_00"), world_on archive_ready_disk).
Proof.
  split; [vm_compute; reflexivity|]. split; [intros text; discriminate|].
  apply (upload_error_stops_the_run (sample_host true failing_store) rotated_a archived_a
           [(rotated_b, archived_b)] (world_on archive_ready_disk)
           (S3Error "Failed to upload a.log.2023-01-01_00")).
  - vm_compute; reflexivity.
  - intros text; discriminate.
Defined.

Lemma rename_into_missing_directory src dst w :
  Fs.exists_ src (fs w) = true ->
  Fs.is_dir (Path.parent dst) (fs w) = false ->
  Fs.rename src dst w = (inr (OSError ("No such file or directory: " ++ dst)), w).
Proof.
  intros Hs Hp. unfold Fs.rename, Fs.exists_ in *.
  destruct (Fs.lookup src (fs w)); [|discriminate Hs]. now rewrite Hp.
Qed.

(** X12: when the archive is not a directory (a regular file sits at its
    place, or it has gone), an accepted upload is followed by a rename that
    fails; the failure is logged as [Cannot archive file: ...], the file
    stays where it was, already uploaded, and the loop goes on with the next
    file. *)
Theorem rename_failure_is_logged H log_file archived_file rest w :
  s3_upload_file H log_file BUCKET (FOLDER_NAME ++ "/" ++ Path.name log_file) = None ->
  Fs.exists_ log_file (fs w) = true ->
  Fs.is_dir (Path.parent archived_file) (fs w) = false ->
  exists text w',
    upload_and_archive H (log_file, archived_file) w = (inl tt, w')
    /\ uploaded w' = (uploaded w ++ [object_of log_file])%list
    /\ fs w' = fs w
    /\ journal w' = (journal w ++ [Exception ("Cannot archive file: " ++ text) (OSError text)])%list
    /\ for_each ((log_file, archived_file) :: rest) (upload_and_archive H) w
       = for_each rest (upload_and_archive H) w'.
Proof.
  intros Hup Hs Hp.
  set (w1 := set_uploaded (uploaded w ++ [object_of log_file]) w).
  assert (U : upload_file_to_s3 H log_file BUCKET None (Some FOLDER_NAME) w = (inl tt, w1)).
  { unfold upload_file_to_s3, try, s3_client_upload_file. now rewrite Hup. }
  pose proof (rename_into_missing_directory log_file archived_file w1 Hs Hp) as R.
  set (text := "No such file or directory: " ++ archived_file) in *.
  set (w2 := set_journal (journal w1 ++ [Exception ("Cannot archive file: " ++ text)
                                           (OSError text)]) w1).
  assert (B : upload_and_archive H (log_file, archived_file) w = (inl tt, w2)).
  { unfold upload_and_archive. rewrite (bind_inl _ U). unfold try. now rewrite R. }
  exists text, w2. split; [exact B|]. repeat split.
  cbn [for_each]. now rewrite (bind_inl _ B).
Qed.

Lemma rename_failure_is_logged_witness :
  s3_upload_file (sample_host true accepting_store) rotated_a BUCKET
    (FOLDER_NAME ++ "/" ++ Path.name rotated_a) = None
  /\ Fs.exists_ rotated_a (fs (world_on archive_file_disk)) = true
  /\ Fs.is_dir (Path.parent archived_a) (fs (world_on archive_file_disk)) = false
  /\ exists text w',
       upload_and_archive (sample_host true accepting_store) (rotated_a, archived_a)
         (world_on archive_file_disk) = (inl tt, w')
       /\ uploaded w' = (uploaded (world_on archive_file_disk) ++ [object_of rotated_a])%list
       /\ fs w' = fs (world_on archive_file_disk)
       /\ journal w'
          = (journal (world_on archive_file_disk)
             ++ [Exception ("Cannot archive file: " ++ text) (OSError text)])%list
       /\ for_each [(rotated_a, archived_a); (rotated_b, archived_b)]
            (upload_and_archive (sample_host true accepting_store)) (world_on archive_file_disk)
          = for_each [(rotated_b, archived_b)]
              (upload_and_archive (sample_host true accepting_store)) w'.
Proof.
  split; [reflexivity|]. split; [vm_compute; reflexivity|]. split; [vm_compute; reflexivity|].
  apply (rename_failure_is_logged (sample_host true accepting_store) rotated_a archived_a
           [(rotated_b, archived_b)] (world_on archive_file_disk)).
  - reflexivity.
  - vm_compute; reflexivity.
  - vm_compute; reflexivity.
Defined.

(** X13: with upload enabled, a run on a directory that does not exist
    (and has no archive) raises the [OSError] of making the archive; nothing
    is logged, listed or uploaded. *)
Theorem upload_archive_missing_directory H d log_filter w :
  ALLOW_LOG_COLLECTION H = true ->
  d <> EmptyString ->
  Fs.is_dir d (fs w) = false ->
  Fs.exists_ (d ++ "/archive") (fs w) = false ->
  exists text, upload_archive_logs_s3 H (Some d) log_filter w = (inr (OSError text), w).
Proof.
  intros Hc Hd Hdir Hex. unfold upload_archive_logs_s3. rewrite Hc. run.
  change (Path.joinpath d "archive") with (d ++ String "/" "archive").
  change (d ++ "/archive") with (d ++ String "/" "archive") in Hex.
  rewrite Hex. run.
  eexists. erewrite bind_inr; [reflexivity|].
  unfold Fs.mkdir. rewrite Hex, parent_join, Hdir by (assumption || reflexivity).
  reflexivity.
Qed.

Lemma upload_archive_missing_directory_witness :
  ALLOW_LOG_COLLECTION (sample_host true accepting_store) = true
  /\ sample_session_dir <> EmptyString
  /\ Fs.is_dir sample_session_dir (fs (world_on fresh_disk)) = false
  /\ Fs.exists_ (sample_session_dir ++ "/archive") (fs (world_on fresh_disk)) = false
  /\ exists text,
       upload_archive_logs_s3 (sample_host true accepting_store) (Some sample_session_dir)
         default_log_filter (world_on fresh_disk)
       = (inr (OSError text), world_on fresh_disk).
Proof.
  split; [reflexivity|]. split; [discriminate|].
  split; [vm_compute; reflexivity|]. split; [vm_compute; reflexivity|].
  apply (upload_archive_missing_directory (sample_host true accepting_store)
           sample_session_dir default_log_filter (world_on fresh_disk)).
  - reflexivity.
  - discriminate.
  - vm_compute; reflexivity.
  - vm_compute; reflexivity.
Defined.

(** ** Where an upload goes *)

(** X14: the key of an uploaded file is the fixed folder and the bare
    file name: files of the same name in two directories are sent to the
    same bucket under the same key. *)
Theorem upload_key_ignores_directory H d1 d2 n w :
  Py.contains "/" n = false ->
  s3_upload_file H (d1 ++ String "/" n) BUCKET (FOLDER_NAME ++ "/" ++ n) = None ->
  s3_upload_file H (d2 ++ String "/" n) BUCKET (FOLDER_NAME ++ "/" ++ n) = None ->
  exists w',
    bind (upload_file_to_s3 H (d1 ++ String "/" n) BUCKET None (Some FOLDER_NAME))
      (fun _ => upload_file_to_s3 H (d2 ++ String "/" n) BUCKET None (Some FOLDER_NAME)) w
    = (inl tt, w')
    /\ uploaded w'
       = List.app (uploaded w)
           [ (d1 ++ String "/" n, BUCKET, FOLDER_NAME ++ "/" ++ n);
             (d2 ++ String "/" n, BUCKET, FOLDER_NAME ++ "/" ++ n) ].
Proof.
  intros Hn H1 H2. unfold bind, upload_file_to_s3, try, s3_client_upload_file.
  rewrite !(name_join _ _ Hn), H1, H2.
  eexists. split; [reflexivity|]. cbn [uploaded set_uploaded].
  now rewrite <- app_assoc.
Qed.

Lemma upload_key_ignores_directory_witness :
  Py.contains "/" "a.log.2023-01-01_00" = false
  /\ s3_upload_file (sample_host true accepting_store)
       (sample_session_dir ++ String "/" "a.log.2023-01-01_00") BUCKET
       (FOLDER_NAME ++ "/" ++ "a.log.2023-01-01_00") = None
  /\ s3_upload_file (sample_host true accepting_store)
       (suffixed_session_dir ++ String "/" "a.log.2023-01-01_00") BUCKET
       (FOLDER_NAME ++ "/" ++ "a.log.2023-01-01_00") = None
  /\ exists w',
       bind (upload_file_to_s3 (sample_host true accepting_store)
               (sample_session_dir ++ String "/" "a.log.2023-01-01_00") BUCKET None
               (Some FOLDER_NAME))
         (fun _ => upload_file_to_s3 (sample_host true accepting_store)
                     (suffixed_session_dir ++ String "/" "a.log.2023-01-01_00") BUCKET None
                     (Some FOLDER_NAME)) (world_on rotated_disk)
       = (inl tt, w')
       /\ uploaded w'
          = List.app (uploaded (world_on rotated_disk))
              [ (sample_session_dir ++ String "/" "a.log.2023-01-01_00", BUCKET,
                 FOLDER_NAME ++ "/" ++ "a.log.2023-01-01_00");
                (suffixed_session_dir ++ String "/" "a.log.2023-01-01_00", BUCKET,
                 FOLDER_NAME ++ "/" ++ "a.log.2023-01-01_00") ].
Proof.
  split; [reflexivity|]. split; [reflexivity|]. split; [reflexivity|].
  apply (upload_key_ignores_directory (sample_host true accepting_store)
           sample_session_dir suffixed_session_dir "a.log.2023-01-01_00"
           (world_on rotated_disk)); reflexivity.
Defined.

(** ** The default filter *)

Lemma search_iff p s :
  Re.search p s = true <-> exists pre rest, s = pre ++ rest /\ Re.match_here p rest = true.
Proof.
  induction s as [|c s IH].
  - simpl. rewrite orb_false_r. split.
    + intros E. now exists EmptyString, EmptyString.
    + intros (pre & rest & E & Hm). destruct pre; [|discriminate E].
      simpl in E. now subst rest.
  - cbn [Re.search]. rewrite orb_true_iff, IH. split.
    + intros [Hm|(pre & rest & -> & Hm)].
      * now exists EmptyString, (String c s).
      * now exists (String c pre), rest.
    + intros (pre & rest & E & Hm). destruct pre as [|d pre].
      * simpl in E. subst rest. now left.
      * injection E as -> ->. right. now exists pre, rest.
Qed.

(** X15: the default filter is found in a text exactly when the text
    holds [.log.20], a digit 2-3, a digit, [-], a digit 0-2, a digit, [-],
    a digit 0-3, a digit, [_] and a digit 0-2: one digit of the hour is
    enough, anything may follow, and the pattern checks digit ranges, not
    dates. *)
Theorem default_filter_shape text :
  found default_log_filter text = true
  <-> exists pre y1 y2 m1 m2 d1 d2 h post,
        text = pre ++ ".log.20"
               ++ String y1 (String y2 (String "-" (String m1 (String m2
                    (String "-" (String d1 (String d2 (String "_" (String h post)))))))))
        /\ Re.in_range y1 ("2", "3")%char = true /\ Re.in_range y2 ("0", "9")%char = true
        /\ Re.in_range m1 ("0", "2")%char = true /\ Re.in_range m2 ("0", "9")%char = true
        /\ Re.in_range d1 ("0", "3")%char = true /\ Re.in_range d2 ("0", "9")%char = true
        /\ Re.in_range h ("0", "2")%char = true.
Proof.
  unfold found.
  assert (Ec : Re.compile default_log_filter
               = Some [ (Re.Lit ".", false); (Re.Lit "l", false); (Re.Lit "o", false);
                        (Re.Lit "g", false); (Re.Lit ".", false); (Re.Lit "2", false);
                        (Re.Lit "0", false);
                        (Re.Class [("2", "3")], false); (Re.Class [("0", "9")], false);
                        (Re.Lit "-", false);
                        (Re.Class [("0", "2")], false); (Re.Class [("0", "9")], false);
                        (Re.Lit "-", false);
                        (Re.Class [("0", "3")], false); (Re.Class [("0", "9")], false);
                        (Re.Lit "_", false);
                        (Re.Class [("0", "2")], false); (Re.Class [("0", "9")], true) ]%char)
    by reflexivity.
  rewrite Ec, search_iff. split.
  - intros (pre & rest & -> & Hm).
    do 17 (destruct rest as [|? rest]; [discriminate Hm|];
           cbn [Re.match_here Re.atom_matches existsb] in Hm;
           apply andb_true_iff in Hm as [? Hm]).
    repeat match goal with
           | E : Ascii.eqb _ _ = true |- _ => apply Ascii.eqb_eq in E; subst
           | E : (_ || false) = true |- _ => rewrite orb_false_r in E
           end.
    do 9 eexists. split; [reflexivity|]. repeat split; assumption.
  - intros (pre & y1 & y2 & m1 & m2 & d1 & d2 & h & post & -> & A1 & A2 & A3 & A4 & A5 & A6 & A7).
    exists pre. eexists. split; [reflexivity|].
    cbn [append Re.match_here Re.atom_matches existsb Ascii.eqb Bool.eqb andb].
    rewrite A1, A2, A3, A4, A5, A6, A7. cbn [orb andb].
    destruct post; reflexivity.
Qed.

(** ** A run over any session directory *)

Lemma rsplit_some sep s a b :
  Path.rsplit sep s = Some (a, b) -> s = a ++ String sep b /\ Py.contains sep b = false.
Proof.
  revert a. induction s as [|c s IH]; intros a; simpl; [discriminate|].
  destruct (Path.rsplit sep s) as [[a' b']|] eqn:E.
  - intros E'. injection E' as <- <-. destruct (IH a' eq_refl) as [-> Hb]. now split.
  - destruct (Ascii.eqb_spec c sep) as [->|_]; [|discriminate].
    intros E'. injection E' as <- <-. split; [reflexivity|].
    clear IH. induction s as [|d s IH]; [reflexivity|]. simpl in *.
    destruct (Path.rsplit sep s) as [[a' b']|]; [discriminate E|].
    destruct (Ascii.eqb d sep); [discriminate E|]. now rewrite IH.
Qed.

Lemma child_shape d f :
  absolute_directory d = true -> Path.parent f = d ->
  f = d ++ String "/" (Path.name f) /\ Py.contains "/" (Path.name f) = false.
Proof.
  intros Hd. unfold Path.parent, Path.name.
  destruct (Path.rsplit "/" f) as [[a b]|] eqn:E.
  - apply rsplit_some in E as [-> Hb].
    destruct a as [|c a]; intros <-; [discriminate Hd|]. now split.
  - intros <-. discriminate Hd.
Qed.

Lemma dict_set_keys {V} k (v : V) d :
  NoDup (map fst d) -> NoDup (map fst (Py.dict_set k v d)).
Proof.
  induction d as [|[k0 v0] d IH]; simpl; intros Hn.
  - constructor; [intros []|constructor].
  - apply NoDup_cons_iff in Hn as [Hk0 Hn].
    destruct (String.eqb_spec k0 k) as [->|Hne]; simpl.
    + now constructor.
    + constructor; [|now apply IH].
      intros Hin. apply in_map_iff in Hin as ([k1 v1] & E1 & Hin). simpl in E1. subst k1.
      apply in_dict_set in Hin as [[E _]|Hin]; [now elim Hne|].
      apply Hk0. apply in_map_iff. now exists (k0, v1).
Qed.

Lemma selection_keys archive pattern files : NoDup (map fst (selection archive pattern files)).
Proof.
  unfold selection.
  assert (G : forall acc, NoDup (map fst acc) ->
                NoDup (map fst (fold_left (select_step archive pattern) files acc))).
  { induction files as [|f files IH]; intros acc Hacc; simpl; [exact Hacc|].
    apply IH. unfold select_step. destruct (found pattern f); [|exact Hacc].
    now apply dict_set_keys. }
  apply G. constructor.
Qed.

Lemma selection_entries archive pattern files :
  map snd (selection archive pattern files)
  = map (archive_place archive) (map fst (selection archive pattern files)).
Proof.
  assert (G : forall l : list (string * (string * string)),
             (forall k v, In (k, v) l -> v = archive_place archive k) ->
             map snd l = map (archive_place archive) (map fst l)).
  { induction l as [|[k v] l IH]; intros Hl; simpl; [reflexivity|].
    rewrite (Hl k v (or_introl eq_refl)), IH; [reflexivity|].
    intros k' v' Hin. apply Hl. now right. }
  apply G. intros k v Hin. now apply selection_exact in Hin.
Qed.

Lemma selected_iff d pattern t f :
  In f (selected d pattern t) <-> In f (Fs.children d t) /\ found pattern f = true.
Proof.
  unfold selected. rewrite in_map_iff. split.
  - intros ([k v] & <- & Hin). apply selection_exact in Hin as (A & B & _). now split.
  - intros [A B]. exists (f, archive_place (Path.joinpath d "archive") f).
    split; [reflexivity|]. apply selection_exact. repeat split; assumption.
Qed.

(** The loop over files that are there, accepted by the store and free to
    move. *)
Lemma archive_loop H archive :
  forall (files : list string) W,
    NoDup files ->
    Fs.is_dir archive (fs W) = true ->
    (forall f, In f files ->
       Fs.is_file f (fs W) = true
       /\ s3_upload_file H f BUCKET (FOLDER_NAME ++ "/" ++ Path.name f) = None
       /\ Fs.is_dir (snd (archive_place archive f)) (fs W) = false
       /\ Path.parent (snd (archive_place archive f)) = archive
       /\ snd (archive_place archive f) <> archive
       /\ (forall g, In g files -> g <> snd (archive_place archive f))
       /\ (forall g, In g files -> g <> f ->
             snd (archive_place archive g) <> snd (archive_place archive f))) ->
    exists W',
      for_each (map (archive_place archive) files) (upload_and_archive H) W = (inl tt, W')
      /\ uploaded W' = (uploaded W ++ map object_of files)%list
      /\ journal W' = journal W
      /\ (forall f, In f files ->
            Fs.lookup f (fs W') = None
            /\ Fs.lookup (snd (archive_place archive f)) (fs W') = Fs.lookup f (fs W))
      /\ (forall p, (forall f, In f files -> p <> f /\ p <> snd (archive_place archive f)) ->
            Fs.lookup p (fs W') = Fs.lookup p (fs W)).
Proof.
  induction files as [|f files IH]; intros W Hnd Harch Hfiles.
  - exists W. cbn [map for_each]. rewrite app_nil_r.
    split; [reflexivity|]. split; [reflexivity|]. split; [reflexivity|].
    split; [intros g []|reflexivity].
  - apply NoDup_cons_iff in Hnd as [Hf Hnd].
    destruct (Hfiles f (or_introl eq_refl)) as (Ff & Uf & Df & Pf & Af & Xf & Yf).
    set (dst := snd (archive_place archive f)) in *.
    unfold Fs.is_file in Ff.
    destruct (Fs.lookup f (fs W)) as [[c|]|] eqn:Lf; try discriminate Ff.
    assert (Hne : f <> dst) by (apply Xf; now left).
    pose proof (upload_accepted_then_archived H f dst W c Uf Lf
                  ltac:(rewrite Pf; exact Harch) Df Hne) as Step.
    set (W1 := set_fs (Fs.rekey f dst (Fs.remove dst (fs W)))
                 (set_uploaded (uploaded W ++ [object_of f]) W)) in *.
    assert (Other : forall p, p <> f -> p <> dst -> Fs.lookup p (fs W1) = Fs.lookup p (fs W)).
    { intros p N1 N2. unfold W1. cbn [fs set_fs]. now apply lookup_rekey_other. }
    assert (Harch1 : Fs.is_dir archive (fs W1) = true).
    { unfold Fs.is_dir in *. rewrite Other; [exact Harch| |now apply not_eq_sym].
      intros ->. now rewrite Lf in Harch. }
    assert (Hfiles1 : forall g, In g files ->
              Fs.is_file g (fs W1) = true
              /\ s3_upload_file H g BUCKET (FOLDER_NAME ++ "/" ++ Path.name g) = None
              /\ Fs.is_dir (snd (archive_place archive g)) (fs W1) = false
              /\ Path.parent (snd (archive_place archive g)) = archive
              /\ snd (archive_place archive g) <> archive
              /\ (forall g', In g' files -> g' <> snd (archive_place archive g))
              /\ (forall g', In g' files -> g' <> g ->
                    snd (archive_place archive g') <> snd (archive_place archive g))).
    { intros g Hg.
      destruct (Hfiles g (or_intror Hg)) as (Fg & Ug & Dg & Pg & Ag & Xg & Yg).
      assert (Ngf : g <> f) by (intros ->; contradiction).
      assert (Ngd : g <> dst) by (apply Xf; now right).
      assert (Ndf : snd (archive_place archive g) <> f)
        by (apply not_eq_sym, Xg; now left).
      assert (Ndd : snd (archive_place archive g) <> dst)
        by (apply Yf; [now right|exact Ngf]).
      unfold Fs.is_file, Fs.is_dir in *.
      rewrite (Other g Ngf Ngd), (Other _ Ndf Ndd).
      repeat split; try assumption.
      - intros g' Hg'. apply Xg. now right.
      - intros g' Hg' N. apply Yg; [now right|exact N]. }
    destruct (IH W1 Hnd Harch1 Hfiles1) as (W' & E & U & J & Moved & Kept).
    exists W'. split.
    { cbn [map for_each]. fold dst.
      replace (archive_place archive f) with (f, dst) by reflexivity.
      now rewrite (bind_inl _ Step). }
    split.
    { rewrite U. unfold W1. cbn [uploaded set_fs set_uploaded map].
      now rewrite <- app_assoc. }
    split; [rewrite J; reflexivity|]. split.
    + intros g [<-|Hg].
      * assert (Kf : forall g, In g files -> f <> g /\ f <> snd (archive_place archive g)).
        { intros g Hg. split; [intros ->; contradiction|].
          destruct (Hfiles g (or_intror Hg)) as (_ & _ & _ & _ & _ & Xg & _).
          apply Xg. now left. }
        assert (Kd : forall g, In g files -> dst <> g /\ dst <> snd (archive_place archive g)).
        { intros g Hg. split; [apply not_eq_sym, Xf; now right|].
          apply not_eq_sym, Yf; [now right|intros ->; contradiction]. }
        fold dst. rewrite (Kept f Kf), (Kept dst Kd). unfold W1. cbn [fs set_fs]. split.
        -- now apply lookup_rekey_src.
        -- rewrite Lf. now apply lookup_rekey_dst.
      * destruct (Moved g Hg) as [M1 M2]. split; [exact M1|]. rewrite M2.
        apply Other; [intros ->; contradiction|apply Xf; now right].
    + intros p Hp. destruct (Hp f (or_introl eq_refl)) as [N1 N2].
      rewrite Kept; [now apply Other|]. intros g Hg. apply Hp. now right.
Qed.

Lemma app_inv_head_string a b c : a ++ b = a ++ c -> b = c.
Proof. induction a as [|x a IH]; simpl; [auto|]. intros E. injection E as E. auto. Qed.

Lemma upload_archive_run H d pattern w :
  ALLOW_LOG_COLLECTION H = true ->
  absolute_directory d = true ->
  Re.compile pattern <> None ->
  Fs.is_dir d (fs w) = true ->
  Fs.is_dir (Path.joinpath d "archive") (fs w) = true ->
  (forall f, In f (selected d pattern (fs w)) ->
     Fs.is_file f (fs w) = true
     /\ s3_upload_file H f BUCKET (FOLDER_NAME ++ "/" ++ Path.name f) = None
     /\ Fs.is_dir (Path.joinpath (Path.joinpath d "archive") (Path.name f)) (fs w) = false) ->
  exists w',
    upload_archive_logs_s3 H (Some d) pattern w = (inl tt, w')
    /\ uploaded w' = (uploaded w ++ map object_of (selected d pattern (fs w)))%list
    /\ journal w' = (journal w ++ [Info "Start uploading Logs"; Info "Logs uploaded"])%list
    /\ Fs.is_dir d (fs w') = true
    /\ Fs.is_dir (Path.joinpath d "archive") (fs w') = true
    /\ (forall f, In f (selected d pattern (fs w)) ->
          Fs.lookup f (fs w') = None
          /\ Fs.lookup (Path.joinpath (Path.joinpath d "archive") (Path.name f)) (fs w')
             = Fs.lookup f (fs w))
    /\ (forall p,
          (forall f, In f (selected d pattern (fs w)) ->
             p <> f /\ p <> Path.joinpath (Path.joinpath d "archive") (Path.name f)) ->
          Fs.lookup p (fs w') = Fs.lookup p (fs w)).
Proof.
  intros Hc Hd Hre Hdir Harch Hsel.
  destruct (Re.compile pattern) as [r|] eqn:Ec; [clear Hre|now elim Hre].
  set (archive := Path.joinpath d "archive") in *.
  assert (EA : archive = d ++ String "/" "archive") by reflexivity.
  assert (NA : archive <> EmptyString) by (rewrite EA; apply append_not_empty).
  (* the shape of a selected entry and of its place *)
  assert (Shape : forall f, In f (selected d pattern (fs w)) ->
            exists c n, Path.name f = String c n
                        /\ Py.contains "/" (String c n) = false
                        /\ f = d ++ String "/" (String c n)
                        /\ snd (archive_place archive f) = archive ++ String "/" (String c n)).
  { intros f Hf. destruct (Hsel f Hf) as (_ & _ & Df).
    apply selected_iff in Hf as [Hch _].
    apply in_children in Hch as (_ & Hp & _).
    destruct (child_shape d f Hd Hp) as [Ef Hn].
    destruct (Path.name f) as [|c n] eqn:En.
    - change (Path.joinpath archive "") with archive in Df. congruence.
    - exists c, n. split; [reflexivity|]. split; [exact Hn|]. split; [exact Ef|].
      unfold archive_place. cbn [snd]. rewrite En. unfold Path.joinpath.
      cbn [Py.contains] in Hn. apply orb_false_iff in Hn as [Hc0 _].
      now rewrite Hc0. }
  set (W := set_journal (journal w ++ [Info "Start uploading Logs"]) w).
  destruct (archive_loop H archive (selected d pattern (fs w)) W) as (W' & E & U & J & Moved & Kept).
  { apply selection_keys. }
  { exact Harch. }
  { intros f Hf. destruct (Hsel f Hf) as (Ff & Uf & Df).
    destruct (Shape f Hf) as (c & n & En & Hn & Ef & Edst).
    split; [exact Ff|]. split; [exact Uf|].
    split; [unfold archive_place; exact Df|].
    split; [rewrite Edst; now apply parent_join|].
    split; [rewrite Edst; apply String.eqb_neq, eqb_app_self|].
    split.
    - intros g Hg. destruct (Shape g Hg) as (c' & n' & _ & Hn' & Eg & _).
      rewrite Edst, Eg, EA, append_assoc. intros Eq.
      apply app_inv_head_string in Eq. cbn [append] in Eq. injection Eq as Eq1 Eq2.
      rewrite Eq1, Eq2 in Hn'. cbn in Hn'. discriminate Hn'.
    - intros g Hg Ngf. destruct (Shape g Hg) as (c' & n' & _ & _ & Eg & Edg).
      rewrite Edst, Edg. intros Eq. apply app_inv_head_string in Eq.
      injection Eq as Eq1 Eq2. apply Ngf. rewrite Eg, Ef. now subst. }
  exists (set_journal (journal W' ++ [Info "Logs uploaded"]) W'). split.
  { unfold upload_archive_logs_s3. rewrite Hc. run. fold archive.
    unfold Fs.exists_. apply is_dir_lookup in Harch. rewrite Harch. cbn [negb when]. run.
    apply is_dir_lookup in Hdir. rewrite (bind_inl _ (iterdir_dir d w Hdir)).
    rewrite (bind_inl _ (select_log_files_run archive pattern r _ [] w Ec)).
    run. fold (selection archive pattern (Fs.children d (fs w))).
    rewrite selection_entries. fold (selected d pattern (fs w)). fold W.
    rewrite (bind_inl _ E). reflexivity. }
  cbn [uploaded journal fs set_journal].
  split; [exact U|]. split; [rewrite J; unfold W; cbn [journal set_journal];
                             now rewrite <- app_assoc|].
  split.
  { unfold Fs.is_dir. rewrite Kept; [exact Hdir|].
    intros f Hf. destruct (Shape f Hf) as (c & n & _ & _ & Ef & Edst).
    rewrite Edst, Ef, EA, append_assoc. split; apply String.eqb_neq, eqb_self_app. }
  split.
  { unfold Fs.is_dir. rewrite Kept; [exact Harch|].
    intros f Hf. destruct (Shape f Hf) as (c & n & _ & _ & Ef & Edst).
    destruct (Hsel f Hf) as (Ff & _). split.
    - intros <-. unfold Fs.is_file, Fs.is_dir in *.
      destruct (Fs.lookup archive (fs w)) as [[x|]|]; discriminate.
    - rewrite Edst. apply String.eqb_neq, eqb_self_app. }
  split; [intros f Hf; apply (Moved f Hf)|].
  intros p Hp. apply Kept. intros f Hf. apply (Hp f Hf).
Qed.

(** X16: for any session directory with its archive in place and any
    pattern of the fragment of [re] that [Re.compile] reads (characters,
    escaped characters, the dot and bracketed classes, each with or without a
    star; the two filters of the module are written in it), when the selected
    entries are regular files, the store accepts them and no directory sits
    at their places in the archive: the run returns, uploads the selected
    entries in the order of the listing, logs its two info lines, moves every
    selected file into the archive with its content, and leaves every other
    path as it was.  Patterns outside the fragment are not covered. *)
Theorem upload_archive_moves_selected H d pattern w :
  ALLOW_LOG_COLLECTION H = true ->
  absolute_directory d = true ->
  Re.compile pattern <> None ->
  Fs.is_dir d (fs w) = true ->
  Fs.is_dir (Path.joinpath d "archive") (fs w) = true ->
  (forall f, In f (selected d pattern (fs w)) ->
     Fs.is_file f (fs w) = true
     /\ s3_upload_file H f BUCKET (FOLDER_NAME ++ "/" ++ Path.name f) = None
     /\ Fs.is_dir (Path.joinpath (Path.joinpath d "archive") (Path.name f)) (fs w) = false) ->
  exists w',
    upload_archive_logs_s3 H (Some d) pattern w = (inl tt, w')
    /\ uploaded w' = (uploaded w ++ map object_of (selected d pattern (fs w)))%list
    /\ journal w' = (journal w ++ [Info "Start uploading Logs"; Info "Logs uploaded"])%list
    /\ (forall f, In f (selected d pattern (fs w)) ->
          Fs.lookup f (fs w') = None
          /\ Fs.lookup (Path.joinpath (Path.joinpath d "archive") (Path.name f)) (fs w')
             = Fs.lookup f (fs w))
    /\ (forall p,
          (forall f, In f (selected d pattern (fs w)) ->
             p <> f /\ p <> Path.joinpath (Path.joinpath d "archive") (Path.name f)) ->
          Fs.lookup p (fs w') = Fs.lookup p (fs w)).
Proof.
  intros Hc Hd Hre Hdir Harch Hsel.
  destruct (upload_archive_run H d pattern w Hc Hd Hre Hdir Harch Hsel)
    as (w' & E & U & J & _ & _ & Moved & Kept).
  exists w'. repeat split; try assumption; now apply Moved.
Qed.

Lemma selected_on_the_rotated_disk :
  selected sample_session_dir default_log_filter (fs (world_on archive_ready_disk))
  = [rotated_a; rotated_b].
Proof. vm_compute; reflexivity. Qed.

Lemma upload_archive_moves_selected_witness :
  ALLOW_LOG_COLLECTION (sample_host true accepting_store) = true
  /\ absolute_directory sample_session_dir = true
  /\ Re.compile default_log_filter <> None
  /\ Fs.is_dir sample_session_dir (fs (world_on archive_ready_disk)) = true
  /\ Fs.is_dir (Path.joinpath sample_session_dir "archive") (fs (world_on archive_ready_disk))
     = true
  /\ (forall f,
        In f (selected sample_session_dir default_log_filter (fs (world_on archive_ready_disk))) ->
        Fs.is_file f (fs (world_on archive_ready_disk)) = true
        /\ s3_upload_file (sample_host true accepting_store) f BUCKET
             (FOLDER_NAME ++ "/" ++ Path.name f) = None
        /\ Fs.is_dir (Path.joinpath (Path.joinpath sample_session_dir "archive") (Path.name f))
             (fs (world_on archive_ready_disk)) = false)
  /\ exists w',
       upload_archive_logs_s3 (sample_host true accepting_store) (Some sample_session_dir)
         default_log_filter (world_on archive_ready_disk) = (inl tt, w')
       /\ uploaded w'
          = (uploaded (world_on archive_ready_disk)
             ++ map object_of
                  (selected sample_session_dir default_log_filter
                     (fs (world_on archive_ready_disk))))%list
       /\ journal w'
          = (journal (world_on archive_ready_disk)
             ++ [Info "Start uploading Logs"; Info "Logs uploaded"])%list
       /\ (forall f,
             In f (selected sample_session_dir default_log_filter
                     (fs (world_on archive_ready_disk))) ->
             Fs.lookup f (fs w') = None
             /\ Fs.lookup (Path.joinpath (Path.joinpath sample_session_dir "archive")
                             (Path.name f)) (fs w')
                = Fs.lookup f (fs (world_on archive_ready_disk)))
       /\ (forall p,
             (forall f,
                In f (selected sample_session_dir default_log_filter
                        (fs (world_on archive_ready_disk))) ->
                p <> f
                /\ p <> Path.joinpath (Path.joinpath sample_session_dir "archive") (Path.name f)) ->
             Fs.lookup p (fs w') = Fs.lookup p (fs (world_on archive_ready_disk))).
Proof.
  assert (Files : forall f,
            In f (selected sample_session_dir default_log_filter
                    (fs (world_on archive_ready_disk))) ->
            Fs.is_file f (fs (world_on archive_ready_disk)) = true
            /\ s3_upload_file (sample_host true accepting_store) f BUCKET
                 (FOLDER_NAME ++ "/" ++ Path.name f) = None
            /\ Fs.is_dir (Path.joinpath (Path.joinpath sample_session_dir "archive")
                            (Path.name f))
                 (fs (world_on archive_ready_disk)) = false).
  { rewrite selected_on_the_rotated_disk. intros f [<-|[<-|[]]];
      (split; [vm_compute; reflexivity|]); (split; [reflexivity|]); vm_compute; reflexivity. }
  split; [reflexivity|]. split; [reflexivity|]. split; [vm_compute; discriminate|].
  split; [vm_compute; reflexivity|]. split; [vm_compute; reflexivity|].
  split; [exact Files|].
  apply (upload_archive_moves_selected (sample_host true accepting_store) sample_session_dir
           default_log_filter (world_on archive_ready_disk)).
  - reflexivity.
  - reflexivity.
  - vm_compute; discriminate.
  - vm_compute; reflexivity.
  - vm_compute; reflexivity.
  - exact Files.
Defined.

Lemma lookup_in p n t : Fs.lookup p t = Some n -> In (p, n) t.
Proof.
  unfold Fs.lookup. induction t as [|[k x] t IH]; simpl; [discriminate|].
  destruct (String.eqb_spec k p) as [->|_].
  - intros E. injection E as ->. now left.
  - intros E. right. now apply IH.
Qed.

Lemma in_lookup p n t : In (p, n) t -> Fs.lookup p t <> None.
Proof.
  intros Hin E. apply in_exists in Hin. unfold Fs.exists_ in Hin. now rewrite E in Hin.
Qed.

Lemma upload_archive_idle H d pattern w :
  ALLOW_LOG_COLLECTION H = true ->
  Re.compile pattern <> None ->
  Fs.is_dir d (fs w) = true ->
  Fs.is_dir (Path.joinpath d "archive") (fs w) = true ->
  selected d pattern (fs w) = [] ->
  upload_archive_logs_s3 H (Some d) pattern w
  = (inl tt, set_journal (journal w ++ [Info "Start uploading Logs"; Info "Logs uploaded"]) w).
Proof.
  intros Hc Hre Hdir Harch Hnone.
  destruct (Re.compile pattern) as [r|] eqn:Ec; [clear Hre|now elim Hre].
  unfold upload_archive_logs_s3. rewrite Hc. run.
  unfold Fs.exists_. apply is_dir_lookup in Harch. rewrite Harch. cbn [negb when]. run.
  apply is_dir_lookup in Hdir. rewrite (bind_inl _ (iterdir_dir d w Hdir)).
  rewrite (bind_inl _ (select_log_files_run (Path.joinpath d "archive") pattern r _ [] w Ec)).
  run. fold (selection (Path.joinpath d "archive") pattern (Fs.children d (fs w))).
  unfold selected in Hnone. apply map_eq_nil in Hnone. rewrite Hnone.
  cbn [map for_each]. run. unfold logger_info, modify.
  cbn [journal set_journal]. rewrite <- List.app_assoc. reflexivity.
Qed.

(** X17: for a pattern of the fragment of [re] that [Re.compile] reads,
    after such a run nothing in the session directory is selected any more: a
    second run right after it returns, uploads nothing and leaves the disk
    alone.  Patterns outside the fragment are not covered. *)
Theorem upload_archive_second_run H d pattern w :
  ALLOW_LOG_COLLECTION H = true ->
  absolute_directory d = true ->
  Re.compile pattern <> None ->
  Fs.is_dir d (fs w) = true ->
  Fs.is_dir (Path.joinpath d "archive") (fs w) = true ->
  (forall f, In f (selected d pattern (fs w)) ->
     Fs.is_file f (fs w) = true
     /\ s3_upload_file H f BUCKET (FOLDER_NAME ++ "/" ++ Path.name f) = None
     /\ Fs.is_dir (Path.joinpath (Path.joinpath d "archive") (Path.name f)) (fs w) = false) ->
  exists w' w'',
    upload_archive_logs_s3 H (Some d) pattern w = (inl tt, w')
    /\ selected d pattern (fs w') = []
    /\ upload_archive_logs_s3 H (Some d) pattern w' = (inl tt, w'')
    /\ uploaded w'' = uploaded w'
    /\ fs w'' = fs w'.
Proof.
  intros Hc Hd Hre Hdir Harch Hsel.
  destruct (upload_archive_run H d pattern w Hc Hd Hre Hdir Harch Hsel)
    as (w' & E & U & J & Hdir' & Harch' & Moved & Kept).
  assert (Hnone : selected d pattern (fs w') = []).
  { destruct (selected d pattern (fs w')) as [|p rest] eqn:Es; [reflexivity|exfalso].
    assert (Hp : In p (selected d pattern (fs w'))) by (rewrite Es; now left).
    apply selected_iff in Hp as [Hch Hfound].
    apply in_children in Hch as ([n Hin] & Hpar & Hne).
    apply in_lookup in Hin.
    destruct (in_dec string_dec p (selected d pattern (fs w))) as [Hold|Hnew].
    - destruct (Moved p Hold) as [M _]. contradiction.
    - assert (Hk : forall f, In f (selected d pattern (fs w)) ->
                p <> f /\ p <> Path.joinpath (Path.joinpath d "archive") (Path.name f)).
      { intros f Hf. split; [intros ->; contradiction|].
        intros Ep. destruct (Hsel f Hf) as (Ff & _ & Df).
        assert (Hch : In f (Fs.children d (fs w))) by now apply selected_iff in Hf.
        apply in_children in Hch as (_ & Hp & _).
        destruct (child_shape d f Hd Hp) as [Ef Hn].
        destruct (Path.name f) as [|c n0] eqn:En.
        - change (Path.joinpath (Path.joinpath d "archive") "")
            with (Path.joinpath d "archive") in Df. congruence.
        - assert (Ej : Path.joinpath (Path.joinpath d "archive") (String c n0)
                       = Path.joinpath d "archive" ++ String "/" (String c n0)).
          { unfold Path.joinpath at 1. cbn [Py.contains] in Hn.
            apply orb_false_iff in Hn as [Hc0 _]. now rewrite Hc0. }
          rewrite Ej in Ep. rewrite Ep, parent_join in Hpar.
          + revert Hpar. apply String.eqb_neq, eqb_app_self.
          + change (Path.joinpath d "archive") with (d ++ String "/" "archive").
            apply append_not_empty.
          + exact Hn. }
      rewrite (Kept p Hk) in Hin.
      destruct (Fs.lookup p (fs w)) as [x|] eqn:L; [|now elim Hin].
      apply lookup_in in L. apply Hnew, selected_iff. split; [|exact Hfound].
      apply in_children. split; [now exists x|now split]. }
  exists w'. eexists. split; [exact E|]. split; [exact Hnone|].
  split; [now apply upload_archive_idle|]. split; reflexivity.
Qed.

Lemma upload_archive_second_run_witness :
  ALLOW_LOG_COLLECTION (sample_host true accepting_store) = true
  /\ absolute_directory sample_session_dir = true
  /\ Re.compile default_log_filter <> None
  /\ Fs.is_dir sample_session_dir (fs (world_on archive_ready_disk)) = true
  /\ Fs.is_dir (Path.joinpath sample_session_dir "archive") (fs (world_on archive_ready_disk))
     = true
  /\ (forall f,
        In f (selected sample_session_dir default_log_filter (fs (world_on archive_ready_disk))) ->
        Fs.is_file f (fs (world_on archive_ready_disk)) = true
        /\ s3_upload_file (sample_host true accepting_store) f BUCKET
             (FOLDER_NAME ++ "/" ++ Path.name f) = None
        /\ Fs.is_dir (Path.joinpath (Path.joinpath sample_session_dir "archive") (Path.name f))
             (fs (world_on archive_ready_disk)) = false)
  /\ exists w' w'',
       upload_archive_logs_s3 (sample_host true accepting_store) (Some sample_session_dir)
         default_log_filter (world_on archive_ready_disk) = (inl tt, w')
       /\ selected sample_session_dir default_log_filter (fs w') = []
       /\ upload_archive_logs_s3 (sample_host true accepting_store) (Some sample_session_dir)
            default_log_filter w' = (inl tt, w'')
       /\ uploaded w'' = uploaded w'
       /\ fs w'' = fs w'.
Proof.
  assert (Files : forall f,
            In f (selected sample_session_dir default_log_filter
                    (fs (world_on archive_ready_disk))) ->
            Fs.is_file f (fs (world_on archive_ready_disk)) = true
            /\ s3_upload_file (sample_host true accepting_store) f BUCKET
                 (FOLDER_NAME ++ "/" ++ Path.name f) = None
            /\ Fs.is_dir (Path.joinpath (Path.joinpath sample_session_dir "archive")
                            (Path.name f))
                 (fs (world_on archive_ready_disk)) = false).
  { rewrite selected_on_the_rotated_disk. intros f [<-|[<-|[]]];
      (split; [vm_compute; reflexivity|]); (split; [reflexivity|]); vm_compute; reflexivity. }
  split; [reflexivity|]. split; [reflexivity|]. split; [vm_compute; discriminate|].
  split; [vm_compute; reflexivity|]. split; [vm_compute; reflexivity|].
  split; [exact Files|].
  apply (upload_archive_second_run (sample_host true accepting_store) sample_session_dir
           default_log_filter (world_on archive_ready_disk)).
  - reflexivity.
  - reflexivity.
  - vm_compute; discriminate.
  - vm_compute; reflexivity.
  - vm_compute; reflexivity.
  - exact Files.
Defined.

(** ** [setup_logging] without the file handler *)

Lemma attach_streams H T id names :
  existsb (String.eqb "file") names = false ->
  forall w,
    for_each names (attach_handler H T id) w
    = (inl tt,
       set_journal (journal w ++ unknown_handler_calls names)
         (set_root_handlers
            (root_handlers w ++ stream_handlers (LOGGING_VERSION w) id (Py.str_int T) names) w)).
Proof.
  induction names as [|n names IH]; intros Hn w.
  - simpl. unfold ret. rewrite !app_nil_r. now destruct w.
  - cbn [existsb] in Hn. apply orb_false_iff in Hn as [Hn Hrest].
    cbn [for_each]. unfold attach_handler at 1.
    unfold stream_handlers, unknown_handler_calls. cbn [flat_map].
    fold (stream_handlers (LOGGING_VERSION w) id (Py.str_int T) names).
    fold (unknown_handler_calls names).
    unfold stream_sink.
    destruct (String.eqb n "stdout"); [|destruct (String.eqb n "stderr");
      [|destruct (String.eqb n "noop"); [|rewrite String.eqb_sym, Hn]]].
    all: unfold addHandler; run; rewrite (IH Hrest);
      cbn [journal root_handlers LOGGING_VERSION set_journal set_root_handlers];
      rewrite <- ?app_assoc; reflexivity.
Qed.

Lemma get_commit_hash_runs H w :
  (Fs.is_dir (Path.joinpath (package_parent H) ".git") (fs w) = true ->
   exists short_sha, git_short_sha H = inr short_sha) ->
  get_commit_hash H w = (inl tt, set_LOGGING_VERSION (version_after H w) w).
Proof.
  intros Hgit. unfold get_commit_hash, version_after. run.
  destruct (Fs.is_dir (Path.joinpath (package_parent H) ".git") (fs w)); cbn [when].
  - destruct (Hgit eq_refl) as [sha ->]. reflexivity.
  - unfold ret. now destruct w.
Qed.

Lemma setup_logging_streams H w t l :
  existsb (String.eqb "file") (split "," (LOGGING_HANDLERS H)) = false ->
  verbosity_terminal (LOGGING_VERBOSITY H) = Some t ->
  verbosity_libraries (LOGGING_VERBOSITY H) = Some l ->
  (Fs.is_dir (Path.joinpath (package_parent H) ".git") (fs w) = true ->
   exists short_sha, git_short_sha H = inr short_sha) ->
  exists w',
    setup_logging H w = (inl tt, w')
    /\ fs w' = fs w
    /\ uploaded w' = uploaded w
    /\ LOGGING_ID w' = LOGGING_ID w
    /\ LOGGING_FILE w' = LOGGING_FILE w
    /\ LOGGING_VERSION w' = version_after H w
    /\ clock_reads w' = S (clock_reads w)
    /\ levels w' = levels_after t l w
    /\ root_handlers w'
       = (root_handlers w
          ++ stream_handlers (version_after H w) (entry_identity w)
               (Py.str_int (clock H (clock_reads w))) (split "," (LOGGING_HANDLERS H)))%list
    /\ journal w'
       = (journal w ++ unknown_handler_calls (split "," (LOGGING_HANDLERS H))
          ++ closing_calls H l)%list.
Proof.
  intros Hnames Ht Hl Hgit. unfold setup_logging. run. rewrite Ht, Hl. cbn [or_overflow]. run.
  unfold basicConfig at 1. run.
  set (w1 := set_clock_reads (S (clock_reads w)) w).
  assert (B : exists w2,
             when (negb match root_handlers w with [] => false | _ => true end)
               (setLevel "root" t) w1 = (inl tt, w2)
             /\ w2 = set_levels match root_handlers w with
                                | [] => Py.dict_set "root" t (levels w)
                                | _ => levels w
                                end w1).
  { destruct (root_handlers w); cbn [negb when]; eexists; (split; [reflexivity|]).
    - reflexivity.
    - unfold w1. now destruct w. }
  destruct B as (w2 & E2 & Ew2). rewrite (bind_inl _ E2).
  assert (G : get_commit_hash H w2 = (inl tt, set_LOGGING_VERSION (version_after H w2) w2)).
  { apply get_commit_hash_runs. rewrite Ew2. exact Hgit. }
  rewrite (bind_inl _ G).
  rewrite (bind_inl _ (attach_streams H _ _ _ Hnames _)).
  unfold library_loggers, setLevel. run.
  eexists. split; [reflexivity|].
  cbn [fs uploaded LOGGING_ID LOGGING_FILE LOGGING_VERSION clock_reads levels root_handlers
         journal set_fs set_journal set_levels set_root_handlers set_LOGGING_VERSION].
  assert (V : version_after H w2 = version_after H w) by (rewrite Ew2; reflexivity).
  rewrite V, Ew2.
  cbn [fs uploaded LOGGING_ID LOGGING_FILE LOGGING_VERSION clock_reads levels root_handlers
         journal set_fs set_journal set_levels set_root_handlers set_LOGGING_VERSION
         set_clock_reads w1].
  unfold w1.
  cbn [fs uploaded LOGGING_ID LOGGING_FILE LOGGING_VERSION clock_reads levels root_handlers
         journal set_clock_reads].
  repeat split.
  unfold closing_calls. rewrite <- !app_assoc. reflexivity.
Qed.

Lemma attached_init s version logging_id session_id :
  attached (s, Some (Formatter_init version logging_id session_id LOGFORMAT DATEFORMAT))
  = (s, Some (module_context version logging_id session_id)).
Proof. reflexivity. Qed.

Lemma attached_stream_handlers version logging_id session_id names :
  map attached (stream_handlers version logging_id session_id names)
  = stream_contexts version logging_id session_id names.
Proof.
  unfold stream_handlers, stream_contexts.
  induction names as [|n names IH]; cbn [flat_map map]; [reflexivity|].
  rewrite map_app, IH. destruct (stream_sink n); reflexivity.
Qed.

(** X18: when the setting names no [file] handler, the division does not
    overflow and git answers, [setup_logging] returns without touching the
    disk, the store, the identity or the log file of the settings; it
    attaches one handler for every name [stdout], [stderr] and [noop] of the
    setting, after the handlers the root logger had, in order and as often
    as named, each with a formatter built with the two formats of the module,
    the version [get_commit_hash] left, the identity the settings held on
    entry and the start time as session; every other name (an empty one, one
    with a blank) attaches nothing and is logged as unknown.  The handlers
    are compared by their sinks and the contexts of their formatters: the
    level character a formatter holds besides is left open. *)
Theorem setup_logging_without_file H w t l :
  existsb (String.eqb "file") (split "," (LOGGING_HANDLERS H)) = false ->
  verbosity_terminal (LOGGING_VERBOSITY H) = Some t ->
  verbosity_libraries (LOGGING_VERBOSITY H) = Some l ->
  (Fs.is_dir (Path.joinpath (package_parent H) ".git") (fs w) = true ->
   exists short_sha, git_short_sha H = inr short_sha) ->
  exists w',
    setup_logging H w = (inl tt, w')
    /\ fs w' = fs w
    /\ uploaded w' = uploaded w
    /\ LOGGING_ID w' = LOGGING_ID w
    /\ LOGGING_FILE w' = LOGGING_FILE w
    /\ map attached (root_handlers w')
       = (map attached (root_handlers w)
          ++ stream_contexts (version_after H w) (entry_identity w)
               (Py.str_int (clock H (clock_reads w))) (split "," (LOGGING_HANDLERS H)))%list
    /\ journal w'
       = (journal w ++ unknown_handler_calls (split "," (LOGGING_HANDLERS H))
          ++ closing_calls H l)%list.
Proof.
  intros Hnames Ht Hl Hgit.
  destruct (setup_logging_streams H w t l Hnames Ht Hl Hgit)
    as (w' & E & A1 & A2 & A3 & A4 & _ & _ & _ & A8 & A9).
  exists w'. rewrite A8, map_app, attached_stream_handlers. repeat split; assumption.
Qed.

Lemma setup_logging_without_file_witness :
  existsb (String.eqb "file")
    (split "," (LOGGING_HANDLERS (host_with "stdout,syslog, stderr,noop" (inr "a1b2c3d4")))) = false
  /\ verbosity_terminal (LOGGING_VERBOSITY (host_with "stdout,syslog, stderr,noop" (inr "a1b2c3d4")))
     = Some 20
  /\ verbosity_libraries (LOGGING_VERBOSITY (host_with "stdout,syslog, stderr,noop" (inr "a1b2c3d4")))
     = Some 30
  /\ (Fs.is_dir (Path.joinpath (package_parent (host_with "stdout,syslog, stderr,noop"
                                                  (inr "a1b2c3d4"))) ".git")
        (fs (world_on checkout_disk)) = true ->
      exists short_sha,
        git_short_sha (host_with "stdout,syslog, stderr,noop" (inr "a1b2c3d4")) = inr short_sha)
  /\ exists w',
       setup_logging (host_with "stdout,syslog, stderr,noop" (inr "a1b2c3d4"))
         (world_on checkout_disk) = (inl tt, w')
       /\ fs w' = fs (world_on checkout_disk)
       /\ uploaded w' = uploaded (world_on checkout_disk)
       /\ LOGGING_ID w' = LOGGING_ID (world_on checkout_disk)
       /\ LOGGING_FILE w' = LOGGING_FILE (world_on checkout_disk)
       /\ map attached (root_handlers w')
          = (map attached (root_handlers (world_on checkout_disk))
             ++ stream_contexts
                  (version_after (host_with "stdout,syslog, stderr,noop" (inr "a1b2c3d4"))
                     (world_on checkout_disk))
                  (entry_identity (world_on checkout_disk))
                  (Py.str_int (clock (host_with "stdout,syslog, stderr,noop" (inr "a1b2c3d4"))
                                 (clock_reads (world_on checkout_disk))))
                  (split "," (LOGGING_HANDLERS (host_with "stdout,syslog, stderr,noop"
                                                  (inr "a1b2c3d4")))))%list
       /\ journal w'
          = (journal (world_on checkout_disk)
             ++ unknown_handler_calls
                  (split "," (LOGGING_HANDLERS (host_with "stdout,syslog, stderr,noop"
                                                  (inr "a1b2c3d4"))))
             ++ closing_calls (host_with "stdout,syslog, stderr,noop" (inr "a1b2c3d4")) 30)%list.
Proof.
  split; [vm_compute; reflexivity|]. split; [vm_compute; reflexivity|].
  split; [vm_compute; reflexivity|].
  split; [intros _; exists "a1b2c3d4"; reflexivity|].
  apply (setup_logging_without_file (host_with "stdout,syslog, stderr,noop" (inr "a1b2c3d4"))
           (world_on checkout_disk) 20 30).
  - vm_compute; reflexivity.
  - vm_compute; reflexivity.
  - vm_compute; reflexivity.
  - intros _; exists "a1b2c3d4"; reflexivity.
Defined.

(** The handlers of that setting: the name with a blank before it and the
    name [syslog] attach nothing. *)
Example stream_handlers_of_a_setting :
  stream_contexts "sha:a1b2c3d4" "" "1700000000" (split "," "stdout,syslog, stderr,noop")
  = [ (StreamStdout, Some (module_context "sha:a1b2c3d4" "" "1700000000"));
      (Null, Some (module_context "sha:a1b2c3d4" "" "1700000000")) ]
  /\ unknown_handler_calls (split "," "stdout,syslog, stderr,noop")
     = [Debug "Unknown loghandler"; Debug "Unknown loghandler"].
Proof. split; vm_compute; reflexivity. Qed.

(** X19: an empty handlers setting is one empty name: [setup_logging]
    attaches no handler, logs one [Unknown loghandler] and then its four
    closing lines. *)
Theorem setup_logging_empty_setting H w t l :
  LOGGING_HANDLERS H = EmptyString ->
  verbosity_terminal (LOGGING_VERBOSITY H) = Some t ->
  verbosity_libraries (LOGGING_VERBOSITY H) = Some l ->
  (Fs.is_dir (Path.joinpath (package_parent H) ".git") (fs w) = true ->
   exists short_sha, git_short_sha H = inr short_sha) ->
  exists w',
    setup_logging H w = (inl tt, w')
    /\ root_handlers w' = root_handlers w
    /\ journal w' = (journal w ++ Debug "Unknown loghandler" :: closing_calls H l)%list.
Proof.
  intros Hs Ht Hl Hgit.
  assert (Hnames : existsb (String.eqb "file") (split "," (LOGGING_HANDLERS H)) = false)
    by now rewrite Hs.
  destruct (setup_logging_streams H w t l Hnames Ht Hl Hgit)
    as (w' & E & _ & _ & _ & _ & _ & _ & _ & A8 & A9).
  exists w'. split; [exact E|]. rewrite Hs in A8, A9. cbn in A8, A9.
  rewrite app_nil_r in A8. now split.
Qed.

Lemma setup_logging_empty_setting_witness :
  LOGGING_HANDLERS (host_with "" (inr "a1b2c3d4")) = EmptyString
  /\ verbosity_terminal (LOGGING_VERBOSITY (host_with "" (inr "a1b2c3d4"))) = Some 20
  /\ verbosity_libraries (LOGGING_VERBOSITY (host_with "" (inr "a1b2c3d4"))) = Some 30
  /\ (Fs.is_dir (Path.joinpath (package_parent (host_with "" (inr "a1b2c3d4"))) ".git")
        (fs (world_on checkout_disk)) = true ->
      exists short_sha, git_short_sha (host_with "" (inr "a1b2c3d4")) = inr short_sha)
  /\ exists w',
       setup_logging (host_with "" (inr "a1b2c3d4")) (world_on checkout_disk) = (inl tt, w')
       /\ root_handlers w' = root_handlers (world_on checkout_disk)
       /\ journal w'
          = (journal (world_on checkout_disk)
             ++ Debug "Unknown loghandler"
                :: closing_calls (host_with "" (inr "a1b2c3d4")) 30)%list.
Proof.
  split; [reflexivity|]. split; [vm_compute; reflexivity|]. split; [vm_compute; reflexivity|].
  split; [intros _; exists "a1b2c3d4"; reflexivity|].
  apply (setup_logging_empty_setting (host_with "" (inr "a1b2c3d4")) (world_on checkout_disk)
           20 30).
  - reflexivity.
  - vm_compute; reflexivity.
  - vm_compute; reflexivity.
  - intros _; exists "a1b2c3d4"; reflexivity.
Defined.

(** X20: when the package has a [.git] directory and git raises,
    [setup_logging] raises that exception after [basicConfig]: the root
    level is set if the root logger had no handler, and nothing else is
    configured: no handler, no version, no library level, no log line. *)
Theorem setup_logging_git_failure H w t l e :
  verbosity_terminal (LOGGING_VERBOSITY H) = Some t ->
  verbosity_libraries (LOGGING_VERBOSITY H) = Some l ->
  Fs.is_dir (Path.joinpath (package_parent H) ".git") (fs w) = true ->
  git_short_sha H = inl e ->
  exists w',
    setup_logging H w = (inr e, w')
    /\ root_handlers w' = root_handlers w
    /\ LOGGING_VERSION w' = LOGGING_VERSION w
    /\ journal w' = journal w
    /\ fs w' = fs w
    /\ Py.dict_get "requests" (levels w') = Py.dict_get "requests" (levels w)
    /\ Py.dict_get "urllib3" (levels w') = Py.dict_get "urllib3" (levels w)
    /\ Py.dict_get "root" (levels w')
       = match root_handlers w with
         | [] => Some t
         | _ => Py.dict_get "root" (levels w)
         end.
Proof.
  intros Ht Hl Hd Hg. unfold setup_logging. run. rewrite Ht, Hl. cbn [or_overflow]. run.
  unfold basicConfig, get_commit_hash, setLevel. run.
  destruct (root_handlers w) eqn:Eh; cbn [negb when]; run; rewrite Hd; cbn [when]; rewrite Hg.
  - eexists. split; [reflexivity|].
    cbn [root_handlers LOGGING_VERSION journal fs levels set_levels set_clock_reads].
    rewrite !dict_get_set_other by discriminate. rewrite dict_get_set_same.
    repeat split; assumption.
  - eexists. split; [reflexivity|].
    cbn [root_handlers LOGGING_VERSION journal fs levels set_levels set_clock_reads].
    repeat split; assumption.
Qed.

Lemma setup_logging_git_failure_witness :
  verbosity_terminal (LOGGING_VERBOSITY (host_with "stdout" (inl (GitError "not a repository"))))
  = Some 20
  /\ verbosity_libraries (LOGGING_VERBOSITY (host_with "stdout" (inl (GitError "not a repository"))))
     = Some 30
  /\ Fs.is_dir (Path.joinpath (package_parent (host_with "stdout"
                                                 (inl (GitError "not a repository")))) ".git")
       (fs (world_on checkout_disk)) = true
  /\ git_short_sha (host_with "stdout" (inl (GitError "not a repository")))
     = inl (GitError "not a repository")
  /\ exists w',
       setup_logging (host_with "stdout" (inl (GitError "not a repository")))
         (world_on checkout_disk) = (inr (GitError "not a repository"), w')
       /\ root_handlers w' = root_handlers (world_on checkout_disk)
       /\ LOGGING_VERSION w' = LOGGING_VERSION (world_on checkout_disk)
       /\ journal w' = journal (world_on checkout_disk)
       /\ fs w' = fs (world_on checkout_disk)
       /\ Py.dict_get "requests" (levels w')
          = Py.dict_get "requests" (levels (world_on checkout_disk))
       /\ Py.dict_get "urllib3" (levels w')
          = Py.dict_get "urllib3" (levels (world_on checkout_disk))
       /\ Py.dict_get "root" (levels w')
          = match root_handlers (world_on checkout_disk) with
            | [] => Some 20
            | _ => Py.dict_get "root" (levels (world_on checkout_disk))
            end.
Proof.
  split; [vm_compute; reflexivity|]. split; [vm_compute; reflexivity|].
  split; [vm_compute; reflexivity|]. split; [reflexivity|].
  apply (setup_logging_git_failure (host_with "stdout" (inl (GitError "not a repository")))
           (world_on checkout_disk) 20 30 (GitError "not a repository")).
  - vm_compute; reflexivity.
  - vm_compute; reflexivity.
  - vm_compute; reflexivity.
  - reflexivity.
Defined.

(** ** The context of the handlers *)

Lemma string_of_uint_chars d : all_chars is_int_char (NilEmpty.string_of_uint d) = true.
Proof. induction d; simpl; try exact IHd; reflexivity. Qed.

Lemma str_int_chars z : all_chars is_int_char (Py.str_int z) = true.
Proof.
  unfold Py.str_int, NilZero.string_of_int, NilZero.string_of_uint.
  destruct (Z.to_int z) as [d|d]; destruct d; try reflexivity;
    first [ apply string_of_uint_chars
          | change (all_chars is_int_char (String "-" (NilEmpty.string_of_uint _)) = true);
            cbn [all_chars]; rewrite string_of_uint_chars; reflexivity ].
Qed.

Lemma str_int_not_empty z : exists c t, Py.str_int z = String c t.
Proof.
  unfold Py.str_int, NilZero.string_of_int, NilZero.string_of_uint.
  destruct (Z.to_int z) as [d|d]; destruct d; simpl; eexists; eexists; reflexivity.
Qed.

(** The file of a session lies in the session directory. *)
Lemma parent_of_log_file d z :
  d <> EmptyString ->
  Path.joinpath d (Py.str_int z ++ ".log") = d ++ String "/" (Py.str_int z ++ ".log")
  /\ Path.parent (Path.joinpath d (Py.str_int z ++ ".log")) = d.
Proof.
  intros Hd.
  pose proof (str_int_chars z) as Hc.
  destruct (str_int_not_empty z) as (c & t & E).
  assert (J : Path.joinpath d (Py.str_int z ++ ".log")
              = d ++ String "/" (Py.str_int z ++ ".log")).
  { rewrite E in *. unfold Path.joinpath. cbn [append].
    simpl in Hc. apply andb_true_iff in Hc as [Hc _].
    destruct (Ascii.eqb_spec c "/") as [->|_]; [discriminate Hc|reflexivity]. }
  split; [exact J|]. rewrite J. apply parent_join; [exact Hd|].
  rewrite contains_app.
  rewrite (all_chars_not_contains is_int_char "/" _ eq_refl Hc). reflexivity.
Qed.

Lemma joinpath_not_empty d n : d <> EmptyString -> Path.joinpath d n <> EmptyString.
Proof.
  intros Hd. unfold Path.joinpath. destruct n as [|c n]; [exact Hd|].
  destruct (Ascii.eqb c "/"); [discriminate|]. destruct d; [now elim Hd|discriminate].
Qed.

Lemma log_root_not_empty H : log_root H <> EmptyString.
Proof. unfold log_root. change (Path.joinpath (package_parent H) "logs")
         with (package_parent H ++ String "/" "logs"). apply append_not_empty. Qed.

Lemma setup_file_logger_handler H session_id w w' :
  setup_file_logger H session_id w = (inl tt, w') ->
  exists filename,
    root_handlers w'
    = (root_handlers w
       ++ [(TimedRotatingFile filename,
            Some (Formatter_init (LOGGING_VERSION w) (Path.stem (Path.parent filename))
                    session_id LOGFORMAT DATEFORMAT))])%list
    /\ LOGGING_VERSION w' = LOGGING_VERSION w
    /\ levels w' = levels w
    /\ LOGGING_FILE w' = Some filename
    /\ Fs.is_file filename (fs w') = true
    /\ exists id, LOGGING_ID w' = Some id
                  /\ Path.parent filename = Path.joinpath (log_root H) id.
Proof.
  unfold setup_file_logger. intros E.
  apply bind_returns in E as (d & w1 & E1 & E).
  apply bind_returns in E as ([] & w2 & E2 & E).
  destruct (get_log_dir_returns H w d w1 E1) as (id & content & I1 & Hd & _).
  assert (Hne : d <> EmptyString)
    by (rewrite Hd; apply joinpath_not_empty, log_root_not_empty).
  assert (F1 : root_handlers w2 = root_handlers w /\ LOGGING_VERSION w2 = LOGGING_VERSION w
               /\ levels w2 = levels w /\ LOGGING_ID w2 = Some id).
  { pose proof (same_get_log_dir _ root_handlers ltac:(reflexivity) ltac:(reflexivity)
                  ltac:(reflexivity) ltac:(reflexivity) H w) as A.
    pose proof (same_get_log_dir _ LOGGING_VERSION ltac:(reflexivity) ltac:(reflexivity)
                  ltac:(reflexivity) ltac:(reflexivity) H w) as B.
    pose proof (same_get_log_dir _ levels ltac:(reflexivity) ltac:(reflexivity)
                  ltac:(reflexivity) ltac:(reflexivity) H w) as C.
    rewrite E1 in A, B, C. unfold same in A, B, C. cbn [snd] in A, B, C.
    pose proof (same_upload_archive_in _ root_handlers ltac:(reflexivity)
                  ltac:(reflexivity) ltac:(reflexivity) H d "\.log" w1) as A'.
    pose proof (same_upload_archive_in _ LOGGING_VERSION ltac:(reflexivity)
                  ltac:(reflexivity) ltac:(reflexivity) H d "\.log" w1) as B'.
    pose proof (same_upload_archive_in _ levels ltac:(reflexivity)
                  ltac:(reflexivity) ltac:(reflexivity) H d "\.log" w1) as C'.
    pose proof (same_upload_archive_in _ LOGGING_ID ltac:(reflexivity)
                  ltac:(reflexivity) ltac:(reflexivity) H d "\.log" w1) as D'.
    rewrite E2 in A', B', C', D'. unfold same in A', B', C', D'. cbn [snd] in A', B', C', D'.
    repeat split; congruence. }
  destruct F1 as (A & B & C & D).
  destruct (parent_of_log_file d (clock H (clock_reads w2)) Hne) as [_ P].
  revert E. run. unfold Fs.open_append.
  match goal with |- context [bind (Fs.append_text ?p ?t) _ ?W] =>
    destruct (append_text_cases p t W) as [(t' & Ea & Hfile)|(e & Ea)] end.
  - rewrite (bind_inl _ Ea). run. intros E. injection E as <-.
    eexists. cbn [root_handlers LOGGING_VERSION levels LOGGING_FILE LOGGING_ID fs
                    set_fs set_journal set_LOGGING_FILE set_clock_reads set_root_handlers].
    rewrite P, A, B, C, D. repeat split; try assumption.
    exists id. split; [reflexivity|]. now rewrite <- Hd.
  - rewrite (bind_inr _ Ea). intros E. discriminate E.
Qed.

(** One name of the setting: no handler for an unknown name, else one
    handler with the context of the call. *)
Lemma attach_handler_returns H T id a_handler w w' :
  attach_handler H T id a_handler w = (inl tt, w') ->
  LOGGING_VERSION w' = LOGGING_VERSION w
  /\ levels w' = levels w
  /\ exists hs,
       root_handlers w' = (root_handlers w ++ hs)%list
       /\ length hs = (if known_handler a_handler then 1 else 0)%nat
       /\ forall s f, In (s, f) hs ->
            f = Some (Formatter_init (LOGGING_VERSION w) (shown_identity id s)
                        (Py.str_int T) LOGFORMAT DATEFORMAT).
Proof.
  unfold attach_handler, known_handler, stream_sink.
  destruct (String.eqb a_handler "stdout"); [|destruct (String.eqb a_handler "stderr");
    [|destruct (String.eqb a_handler "noop"); [|destruct (String.eqb a_handler "file")]]].
  1-3: unfold addHandler; run; intros E; injection E as <-;
    cbn [LOGGING_VERSION levels root_handlers set_root_handlers];
    split; [reflexivity|]; split; [reflexivity|];
    eexists; split; [reflexivity|]; split; [reflexivity|];
    intros s f [E | [ ] ]; injection E as <- <-; reflexivity.
  - intros E. apply setup_file_logger_handler in E as (filename & A & B & C & _).
    split; [exact B|]. split; [exact C|].
    eexists. split; [exact A|]. split; [reflexivity|].
    intros s f [E | [ ] ]. injection E as <- <-. reflexivity.
  - intros E. injection E as <-. cbn [LOGGING_VERSION levels root_handlers set_journal].
    split; [reflexivity|]. split; [reflexivity|].
    exists []. rewrite app_nil_r. split; [reflexivity|]. split; [reflexivity|]. intros s f [].
Qed.

Lemma attach_handlers_return H T id names :
  forall w w',
    for_each names (attach_handler H T id) w = (inl tt, w') ->
    LOGGING_VERSION w' = LOGGING_VERSION w
    /\ levels w' = levels w
    /\ exists hs,
         root_handlers w' = (root_handlers w ++ hs)%list
         /\ length hs = length (filter known_handler names)
         /\ forall s f, In (s, f) hs ->
              f = Some (Formatter_init (LOGGING_VERSION w) (shown_identity id s)
                          (Py.str_int T) LOGFORMAT DATEFORMAT).
Proof.
  induction names as [|n names IH]; intros w w' E.
  - injection E as <-. split; [reflexivity|]. split; [reflexivity|].
    exists []. rewrite app_nil_r. split; [reflexivity|]. split; [reflexivity|]. intros s f [].
  - cbn [for_each] in E. apply bind_returns in E as ([] & w1 & E1 & E).
    apply attach_handler_returns in E1 as (V1 & L1 & hs1 & R1 & N1 & C1).
    apply IH in E as (V2 & L2 & hs2 & R2 & N2 & C2).
    split; [congruence|]. split; [congruence|].
    exists (hs1 ++ hs2)%list. split; [rewrite R2, R1; now rewrite app_assoc|].
    split.
    + rewrite length_app, N1, N2. cbn [filter]. destruct (known_handler n); reflexivity.
    + intros s f Hin. apply in_app_or in Hin as [Hin|Hin];
        [now apply C1|rewrite <- V1; now apply C2].
Qed.

(** X21: whenever [setup_logging] returns, it has added one handler for
    every known name of the setting, after the handlers the root logger had;
    every added handler has a formatter built with the two formats of the
    module, the final version of the settings and the start time of the call
    as session; a stream or null handler shows the identity the settings held
    when the call was entered, also when a file handler of the same call has
    set another, and a file handler shows the stem of the directory of its
    file.  The handlers are compared by their sinks and the contexts of their
    formatters: the level character a formatter holds besides is left
    open. *)
Theorem setup_logging_handler_context H w w' :
  setup_logging H w = (inl tt, w') ->
  exists hs,
    map attached (root_handlers w') = (map attached (root_handlers w) ++ hs)%list
    /\ length hs = length (filter known_handler (split "," (LOGGING_HANDLERS H)))
    /\ forall s c, In (s, c) hs ->
         c = Some (module_context (LOGGING_VERSION w') (shown_identity (entry_identity w) s)
                     (Py.str_int (clock H (clock_reads w)))).
Proof.
  unfold setup_logging. run.
  destruct (verbosity_terminal (LOGGING_VERBOSITY H)) as [t|]; [|discriminate].
  destruct (verbosity_libraries (LOGGING_VERBOSITY H)) as [l|]; [|discriminate].
  cbn [or_overflow]. run. intros E.
  apply bind_returns in E as ([] & w1 & E1 & E).
  apply bind_returns in E as ([] & w2 & E2 & E).
  apply bind_returns in E as ([] & w3 & E3 & E).
  assert (R1 : root_handlers w1 = root_handlers w).
  { revert E1. unfold basicConfig, setLevel. run.
    destruct (negb _); cbn [when]; intros E1; injection E1 as <-; reflexivity. }
  assert (R2 : root_handlers w2 = root_handlers w1).
  { pose proof (same_get_commit_hash _ root_handlers ltac:(reflexivity) H w1) as A.
    now rewrite E2 in A. }
  apply attach_handlers_return in E3 as (V3 & _ & hs & R3 & N3 & C3).
  revert E. unfold library_loggers, setLevel. run. intros E. injection E as <-.
  cbn [root_handlers LOGGING_VERSION set_levels set_journal].
  exists (map attached hs). split; [rewrite R3, map_app; congruence|].
  split; [rewrite length_map; exact N3|].
  intros s c Hin. apply in_map_iff in Hin as ([s0 f] & Ea & Hin).
  rewrite (C3 s0 f Hin), attached_init in Ea. injection Ea as <- <-. now rewrite V3.
Qed.

Lemma setup_logging_handler_context_witness :
  setup_logging (sample_host true accepting_store) (world_on fresh_disk)
  = (inl tt, snd (setup_logging (sample_host true accepting_store) (world_on fresh_disk)))
  /\ exists hs,
       map attached
         (root_handlers (snd (setup_logging (sample_host true accepting_store)
                                (world_on fresh_disk))))
       = (map attached (root_handlers (world_on fresh_disk)) ++ hs)%list
       /\ length hs
          = length (filter known_handler
                      (split "," (LOGGING_HANDLERS (sample_host true accepting_store))))
       /\ forall s c, In (s, c) hs ->
            c = Some (module_context
                        (LOGGING_VERSION (snd (setup_logging (sample_host true accepting_store)
                                                 (world_on fresh_disk))))
                        (shown_identity (entry_identity (world_on fresh_disk)) s)
                        (Py.str_int (clock (sample_host true accepting_store)
                                       (clock_reads (world_on fresh_disk))))).
Proof.
  split; [vm_compute; reflexivity|].
  apply (setup_logging_handler_context (sample_host true accepting_store) (world_on fresh_disk)
           (snd (setup_logging (sample_host true accepting_store) (world_on fresh_disk)))).
  vm_compute; reflexivity.
Defined.

(** The two handlers of the sample setting [stdout,file] on a fresh
    installation: the stream handler shows the empty identity that [cfg]
    held when [setup_logging] was entered, the file handler the identity
    minted during the call; both show the same session. *)
Example handlers_of_a_fresh_installation :
  map attached
    (root_handlers (snd (setup_logging (sample_host true accepting_store) (world_on fresh_disk))))
  = [ (StreamStdout, Some (module_context "ver:1.0.0" "" "1700000000"));
      (TimedRotatingFile (sample_session_dir ++ "/1700000001.log"),
       Some (module_context "ver:1.0.0" "7d9f4c1e-0000-4000-8000-000000000001"
               "1700000000")) ]
  /\ LOGGING_ID (snd (setup_logging (sample_host true accepting_store) (world_on fresh_disk)))
     = Some "7d9f4c1e-0000-4000-8000-000000000001".
Proof. split; vm_compute; reflexivity. Qed.

(** X22: whenever [setup_logging] returns, the loggers [requests] and
    [urllib3] have the library threshold; the root logger has the terminal
    threshold if it had no handler before the call and keeps its level
    otherwise ([basicConfig] does nothing for a configured root logger); the
    level of every other logger is as before. *)
Theorem setup_logging_levels H w w' :
  setup_logging H w = (inl tt, w') ->
  exists t l,
    verbosity_terminal (LOGGING_VERBOSITY H) = Some t
    /\ verbosity_libraries (LOGGING_VERBOSITY H) = Some l
    /\ levels w' = levels_after t l w
    /\ Py.dict_get "root" (levels w')
       = match root_handlers w with
         | [] => Some t
         | _ => Py.dict_get "root" (levels w)
         end
    /\ forall logger,
         logger <> "root" -> logger <> "requests" -> logger <> "urllib3" ->
         Py.dict_get logger (levels w') = Py.dict_get logger (levels w).
Proof.
  unfold setup_logging. run.
  destruct (verbosity_terminal (LOGGING_VERBOSITY H)) as [t|]; [|discriminate].
  destruct (verbosity_libraries (LOGGING_VERBOSITY H)) as [l|]; [|discriminate].
  cbn [or_overflow]. run. intros E.
  apply bind_returns in E as ([] & w1 & E1 & E).
  apply bind_returns in E as ([] & w2 & E2 & E).
  apply bind_returns in E as ([] & w3 & E3 & E).
  assert (L1 : levels w1 = match root_handlers w with
                           | [] => Py.dict_set "root" t (levels w)
                           | _ => levels w
                           end).
  { revert E1. unfold basicConfig, setLevel. run.
    destruct (root_handlers w) eqn:Eh; cbn [negb when]; intros E1; injection E1 as <-;
      reflexivity. }
  assert (L2 : levels w2 = levels w1).
  { pose proof (same_get_commit_hash _ levels ltac:(reflexivity) H w1) as A.
    now rewrite E2 in A. }
  apply attach_handlers_return in E3 as (_ & L3 & _).
  revert E. unfold library_loggers, setLevel. run. intros E. injection E as <-.
  cbn [levels set_levels set_journal].
  exists t, l. split; [reflexivity|]. split; [reflexivity|].
  rewrite L3, L2, L1. split; [reflexivity|]. split.
  - rewrite !dict_get_set_other by discriminate.
    destruct (root_handlers w); [apply dict_get_set_same|reflexivity].
  - intros logger N1 N2 N3. rewrite !dict_get_set_other by assumption.
    destruct (root_handlers w); [now rewrite dict_get_set_other|reflexivity].
Qed.

Lemma setup_logging_levels_witness :
  setup_logging (sample_host true accepting_store) (world_on fresh_disk)
  = (inl tt, snd (setup_logging (sample_host true accepting_store) (world_on fresh_disk)))
  /\ exists t l,
       verbosity_terminal (LOGGING_VERBOSITY (sample_host true accepting_store)) = Some t
       /\ verbosity_libraries (LOGGING_VERBOSITY (sample_host true accepting_store)) = Some l
       /\ levels (snd (setup_logging (sample_host true accepting_store) (world_on fresh_disk)))
          = levels_after t l (world_on fresh_disk)
       /\ Py.dict_get "root"
            (levels (snd (setup_logging (sample_host true accepting_store) (world_on fresh_disk))))
          = match root_handlers (world_on fresh_disk) with
            | [] => Some t
            | _ => Py.dict_get "root" (levels (world_on fresh_disk))
            end
       /\ forall logger,
            logger <> "root" -> logger <> "requests" -> logger <> "urllib3" ->
            Py.dict_get logger
              (levels (snd (setup_logging (sample_host true accepting_store)
                              (world_on fresh_disk))))
            = Py.dict_get logger (levels (world_on fresh_disk)).
Proof.
  split; [vm_compute; reflexivity|].
  apply (setup_logging_levels (sample_host true accepting_store) (world_on fresh_disk)
           (snd (setup_logging (sample_host true accepting_store) (world_on fresh_disk)))).
  vm_compute; reflexivity.
Defined.

(** ** The pre-flight of the file handler (C3) *)

Lemma upload_and_archive_returns H f a w w1 :
  upload_and_archive H (f, a) w = (inl tt, w1) ->
  s3_upload_file H f BUCKET (FOLDER_NAME ++ "/" ++ Path.name f) = None
  /\ uploaded w1 = (uploaded w ++ [object_of f])%list.
Proof.
  unfold upload_and_archive, upload_file_to_s3, try, s3_client_upload_file, bind.
  destruct (s3_upload_file H f BUCKET (FOLDER_NAME ++ "/" ++ Path.name f)) as [e|] eqn:E.
  - destruct e; discriminate.
  - intros R. split; [reflexivity|].
    match type of R with context [Fs.rename f a ?W] =>
      pose proof (rename_keeps_uploaded f a W) as K;
      destruct (Fs.rename f a W) as [[[]|e] w'] end;
      injection R as <-; exact K.
Qed.

Lemma for_each_sends H entries :
  forall w w',
    for_each entries (upload_and_archive H) w = (inl tt, w') ->
    (forall x, In x (uploaded w) -> In x (uploaded w'))
    /\ (forall e, In e entries -> In (object_of (fst e)) (uploaded w')).
Proof.
  induction entries as [|[f a] entries IH]; intros w w' E.
  - injection E as <-. split; [auto|intros e []].
  - cbn [for_each] in E. apply bind_returns in E as ([] & w1 & E1 & E).
    apply upload_and_archive_returns in E1 as [_ U1].
    apply IH in E as [Keep Sent]. split.
    + intros x Hx. apply Keep. rewrite U1. apply in_or_app. now left.
    + intros e [<-|He]; [|now apply Sent].
      apply Keep. rewrite U1. apply in_or_app. right. now left.
Qed.

Lemma upload_archive_sends H d pattern w w2 :
  ALLOW_LOG_COLLECTION H = true ->
  upload_archive_logs_s3 H (Some d) pattern w = (inl tt, w2) ->
  forall file,
    In file (Fs.children d (fs w)) -> found pattern file = true ->
    In (object_of file) (uploaded w2).
Proof.
  intros Hc. unfold upload_archive_logs_s3. rewrite Hc. run.
  assert (Scan : forall W,
             (forall file, In file (Fs.children d (fs w)) -> In file (Fs.children d (fs W))) ->
             bind (Fs.iterdir d)
               (fun files =>
                  bind (select_log_files (Path.joinpath d "archive") pattern files [])
                    (fun log_files =>
                       bind (logger_info "Start uploading Logs")
                         (fun _ => bind (for_each (map snd log_files) (upload_and_archive H))
                                     (fun _ => logger_info "Logs uploaded")))) W
             = (inl tt, w2) ->
             forall file,
               In file (Fs.children d (fs w)) -> found pattern file = true ->
               In (object_of file) (uploaded w2)).
  { intros W Hch E file Hf Hm. apply Hch in Hf.
    apply bind_returns in E as (files & W1 & E1 & E).
    unfold Fs.iterdir in E1. destruct (Fs.is_dir d (fs W)); [|discriminate E1].
    injection E1 as <- <-.
    apply bind_returns in E as (log_files & W2 & E2 & E).
    destruct (Re.compile pattern) as [r|] eqn:Ec.
    2:{ unfold found in Hm. rewrite Ec in Hm. discriminate Hm. }
    rewrite (select_log_files_run _ _ r _ _ _ Ec) in E2. injection E2 as <- <-.
    revert E. run. intros E.
    apply bind_returns in E as ([] & W3 & E3 & E).
    injection E as <-. cbn [uploaded set_journal].
    apply for_each_sends in E3 as [_ Sent].
    apply (Sent (archive_place (Path.joinpath d "archive") file)).
    apply in_map_iff. exists (file, archive_place (Path.joinpath d "archive") file).
    split; [reflexivity|].
    apply selection_exact. repeat split; assumption. }
  destruct (Fs.exists_ (Path.joinpath d "archive") (fs w)) eqn:Ex; run.
  - apply Scan. auto.
  - destruct (mkdir_cases (Path.joinpath d "archive") w) as [Em|[e Em]].
    + rewrite (bind_inl _ Em). run. apply Scan.
      cbn [fs set_fs set_journal]. intros file Hf.
      rewrite children_app. apply in_or_app. now left.
    + rewrite (bind_inr _ Em). intros E. discriminate E.
Qed.

Lemma absolute_directory_not_empty d : absolute_directory d = true -> d <> EmptyString.
Proof. destruct d; [discriminate|discriminate]. Qed.

(** The shape of a selected entry and of its place in the archive. *)
Lemma selected_place d pattern t f :
  absolute_directory d = true ->
  Fs.is_dir (Path.joinpath d "archive") t = true ->
  In f (selected d pattern t) ->
  Fs.is_dir (Path.joinpath (Path.joinpath d "archive") (Path.name f)) t = false ->
  Py.contains "/" (Path.name f) = false
  /\ f = d ++ String "/" (Path.name f)
  /\ Path.joinpath (Path.joinpath d "archive") (Path.name f)
     = d ++ String "/" ("archive" ++ String "/" (Path.name f)).
Proof.
  intros Hd Harch Hf Df.
  apply selected_iff in Hf as [Hch _].
  apply in_children in Hch as (_ & Hp & _).
  destruct (child_shape d f Hd Hp) as [Ef Hn].
  split; [exact Hn|]. split; [exact Ef|].
  destruct (Path.name f) as [|c n] eqn:En.
  - change (Path.joinpath (Path.joinpath d "archive") "") with (Path.joinpath d "archive") in Df.
    congruence.
  - unfold Path.joinpath at 1. cbn [Py.contains] in Hn.
    apply orb_false_iff in Hn as [Hc0 _]. rewrite Hc0.
    change (Path.joinpath d "archive") with (d ++ String "/" "archive").
    now rewrite append_assoc.
Qed.

(** The file of a session has [.log] in its path and lies in no archive. *)
Lemma log_file_shape d z :
  d <> EmptyString ->
  found "\.log" (Path.joinpath d (Py.str_int z ++ ".log")) = true
  /\ Path.parent (Path.joinpath d (Py.str_int z ++ ".log")) = d
  /\ Path.joinpath d (Py.str_int z ++ ".log") <> d
  /\ forall n, Path.joinpath d (Py.str_int z ++ ".log")
               <> d ++ String "/" ("archive" ++ String "/" n).
Proof.
  intros Hd. destruct (parent_of_log_file d z Hd) as [J P].
  split; [|split; [exact P|split]].
  - apply found_dot_log. exists (d ++ String "/" (Py.str_int z)), EmptyString.
    rewrite J. change (d ++ String "/" (Py.str_int z ++ ".log"))
      with (d ++ (String "/" (Py.str_int z) ++ ".log")).
    now rewrite <- append_assoc.
  - rewrite J. apply String.eqb_neq. rewrite String.eqb_sym. apply eqb_self_app.
  - intros n. rewrite J. intros E. apply app_inv_head_string in E. injection E as E.
    pose proof (str_int_chars z) as Hc.
    assert (Hs : Py.contains "/" (Py.str_int z ++ ".log") = false).
    { rewrite contains_app, (all_chars_not_contains is_int_char "/" _ eq_refl Hc). reflexivity. }
    rewrite E in Hs. discriminate Hs.
Qed.

Lemma setup_file_logger_run H session_id w content d :
  ALLOW_LOG_COLLECTION H = true ->
  Fs.is_dir (log_root H) (fs w) = true ->
  Fs.lookup (sentinel H) (fs w) = Some (File content) ->
  d = Path.joinpath (log_root H) (Py.rstrip (Fs.first_line content)) ->
  absolute_directory d = true ->
  Fs.is_dir d (fs w) = true ->
  Fs.is_dir (Path.joinpath d "archive") (fs w) = true ->
  (forall f, In f (selected d "\.log" (fs w)) ->
     Fs.is_file f (fs w) = true
     /\ s3_upload_file H f BUCKET (FOLDER_NAME ++ "/" ++ Path.name f) = None
     /\ Fs.is_dir (Path.joinpath (Path.joinpath d "archive") (Path.name f)) (fs w) = false) ->
  exists w',
    setup_file_logger H session_id w = (inl tt, w')
    /\ uploaded w' = (uploaded w ++ map object_of (selected d "\.log" (fs w)))%list
    /\ LOGGING_FILE w' = Some (sink_path H d w)
    /\ Fs.lookup (sink_path H d w) (fs w') = Some (File EmptyString)
    /\ (forall f, In f (selected d "\.log" (fs w)) ->
          (f <> sink_path H d w -> Fs.lookup f (fs w') = None)
          /\ Fs.lookup (Path.joinpath (Path.joinpath d "archive") (Path.name f)) (fs w')
             = Fs.lookup f (fs w))
    /\ (forall p,
          p <> sink_path H d w ->
          (forall f, In f (selected d "\.log" (fs w)) ->
             p <> f /\ p <> Path.joinpath (Path.joinpath d "archive") (Path.name f)) ->
          Fs.lookup p (fs w') = Fs.lookup p (fs w))
    /\ exists old,
         root_handlers w'
         = (old ++ [(TimedRotatingFile (sink_path H d w),
                     Some (Formatter_init (LOGGING_VERSION w) (Path.stem d) session_id
                             LOGFORMAT DATEFORMAT))])%list
         /\ map attached old = map attached (root_handlers w).
Proof.
  intros Hc Hroot Hsent Ed Habs Hd Harch Hsel.
  assert (Hne : d <> EmptyString) by now apply absolute_directory_not_empty.
  rewrite Ed in Hd.
  destruct (get_log_dir_settled_any H w content Hroot Hsent Hd) as (w1 & E1 & F1 & I1 & _ & U1).
  rewrite <- Ed in E1, Hd.
  assert (K1 : clock_reads w1 = clock_reads w /\ root_handlers w1 = root_handlers w
               /\ LOGGING_VERSION w1 = LOGGING_VERSION w).
  { pose proof (same_get_log_dir _ clock_reads ltac:(reflexivity) ltac:(reflexivity)
                  ltac:(reflexivity) ltac:(reflexivity) H w) as A.
    pose proof (same_get_log_dir _ root_handlers ltac:(reflexivity) ltac:(reflexivity)
                  ltac:(reflexivity) ltac:(reflexivity) H w) as B.
    pose proof (same_get_log_dir _ LOGGING_VERSION ltac:(reflexivity) ltac:(reflexivity)
                  ltac:(reflexivity) ltac:(reflexivity) H w) as C.
    rewrite E1 in A, B, C. now repeat split. }
  destruct K1 as (C1 & R1 & V1).
  destruct (upload_archive_run H d "\.log" w1 Hc Habs ltac:(vm_compute; discriminate)
              ltac:(rewrite F1; exact Hd) ltac:(rewrite F1; exact Harch)
              ltac:(rewrite F1; exact Hsel))
    as (w2 & E2 & U2 & _ & D2 & _ & Moved & Kept).
  rewrite F1 in U2, Moved, Kept.
  assert (K2 : clock_reads w2 = clock_reads w1 /\ root_handlers w2 = root_handlers w1
               /\ LOGGING_VERSION w2 = LOGGING_VERSION w1).
  { pose proof (same_upload_archive_in _ clock_reads ltac:(reflexivity)
                  ltac:(reflexivity) ltac:(reflexivity) H d "\.log" w1) as A.
    pose proof (same_upload_archive_in _ root_handlers ltac:(reflexivity)
                  ltac:(reflexivity) ltac:(reflexivity) H d "\.log" w1) as B.
    pose proof (same_upload_archive_in _ LOGGING_VERSION ltac:(reflexivity)
                  ltac:(reflexivity) ltac:(reflexivity) H d "\.log" w1) as C.
    rewrite E2 in A, B, C. now repeat split. }
  destruct K2 as (C2 & R2 & V2).
  unfold sink_path.
  set (sink := Path.joinpath d (Py.str_int (clock H (clock_reads w)) ++ ".log")).
  destruct (log_file_shape d (clock H (clock_reads w)) Hne) as (Sfound & Sparent & Sne & Splace).
  fold sink in Sfound, Sparent, Sne, Splace.
  (* the places of the selected entries *)
  assert (Place : forall f, In f (selected d "\.log" (fs w)) ->
            sink <> Path.joinpath (Path.joinpath d "archive") (Path.name f)).
  { intros f Hf. destruct (Hsel f Hf) as (_ & _ & Df).
    destruct (selected_place d "\.log" (fs w) f Habs Harch Hf Df) as (_ & _ & ->).
    apply Splace. }
  (* no file sits at the place of the sink after the run *)
  assert (Free : Fs.lookup sink (fs w2) = None).
  { destruct (in_dec string_dec sink (selected d "\.log" (fs w))) as [Hin|Hout].
    - apply (Moved sink Hin).
    - rewrite Kept.
      + destruct (Fs.lookup sink (fs w)) as [n|] eqn:L; [exfalso|reflexivity].
        apply Hout, selected_iff. split; [|exact Sfound].
        apply in_children. split; [exists n; now apply lookup_in|now split].
      + intros f Hf. split; [intros ->; contradiction|now apply Place]. }
  exists (set_root_handlers
            (root_handlers w2
             ++ [(TimedRotatingFile sink,
                  Some (Formatter_init (LOGGING_VERSION w2) (Path.stem d) session_id
                          LOGFORMAT DATEFORMAT))])
            (set_fs (fs w2 ++ [(sink, File EmptyString)])
               (set_journal (journal w2 ++ [Debug ("Current log file: " ++ sink)])
                  (set_LOGGING_FILE (Some sink)
                     (set_clock_reads (S (clock_reads w2)) w2))))).
  split.
  { unfold setup_file_logger. rewrite (bind_inl _ E1), (bind_inl _ E2). run.
    rewrite C2, C1. fold sink. unfold Fs.open_append.
    erewrite bind_inl.
    2:{ apply append_text_new; cbn [fs set_journal set_LOGGING_FILE set_clock_reads].
        - exact Free.
        - rewrite Sparent. now apply is_dir_lookup. }
    run. reflexivity. }
  cbn [uploaded LOGGING_FILE fs root_handlers set_root_handlers set_fs set_journal
         set_LOGGING_FILE set_clock_reads].
  split; [rewrite U2, U1; reflexivity|]. split; [reflexivity|].
  split; [now rewrite (lookup_app_none _ _ _ Free), lookup_single, String.eqb_refl|].
  split.
  { intros f Hf. destruct (Moved f Hf) as [M1 M2]. split.
    - intros Nf. rewrite (lookup_app_none _ _ _ M1), lookup_single.
      destruct (String.eqb_spec sink f) as [E|_]; [now elim Nf|reflexivity].
    - rewrite lookup_app, M2.
      destruct (Fs.lookup f (fs w)) as [n|] eqn:L; [reflexivity|exfalso].
      destruct (Hsel f Hf) as (Ff & _). unfold Fs.is_file in Ff. now rewrite L in Ff. }
  split.
  { intros p Np Hp. rewrite lookup_app, (Kept p Hp).
    destruct (Fs.lookup p (fs w)); [reflexivity|].
    rewrite lookup_single. destruct (String.eqb_spec sink p) as [E|_]; [now elim Np|reflexivity]. }
  exists (root_handlers w2). rewrite V2, V1. split; [reflexivity|]. now rewrite R2, R1.
Qed.

(** C3, as the code has it: [setup_file_logger] first finds the session
    directory, then runs the upload there with the filter [\.log], and only
    then opens the new file [<sessionDir>/<epochSeconds>.log] and attaches
    the handler.  The filter is a plain search for the text [.log] in the
    path of an entry, so the entries selected are those of the session
    directory whose path has [.log] somewhere, rotated or not.

    Whenever the call returns: with upload enabled, every entry the session
    directory had whose path has [.log] somewhere has been sent to the store;
    every object sent is such an entry (or the archive directory the run has
    just made, when its own path has [.log]); the new file is made after the
    run and is a file of the session directory when the call returns.

    On an installation whose log root, sentinel (ASCII text), session
    directory and archive directory exist, with upload enabled, when the
    entries selected are regular files that the store accepts and no directory
    sits at their places in the archive: the call returns; the objects sent
    are the selected entries of the disk as it was before the call, in the
    order of the listing; each of them is moved into the archive with its
    content; the new file is empty when the call returns (a file that had its
    name was a candidate like any other and has been archived); every other
    path is as it was; and the handler is attached after those the root
    logger had. *)
Theorem preflight_then_sink H session_id :
  (forall w w',
     setup_file_logger H session_id w = (inl tt, w') ->
     exists d w1 w2,
       get_log_dir H w = (inl d, w1)
       /\ upload_archive_logs_s3 H (Some d) "\.log" w1 = (inl tt, w2)
       /\ (ALLOW_LOG_COLLECTION H = true ->
           forall file,
             In file (Fs.children d (fs w1)) ->
             (exists a b, file = a ++ ".log" ++ b) ->
             In (object_of file) (uploaded w2))
       /\ (forall x,
             In x (uploaded w2) ->
             In x (uploaded w1)
             \/ exists file a b,
                  x = object_of file /\ file = a ++ ".log" ++ b /\ Path.parent file = d
                  /\ (Fs.exists_ file (fs w1) = true \/ file = Path.joinpath d "archive"))
       /\ uploaded w' = uploaded w2
       /\ LOGGING_FILE w' = Some (sink_path H d w2)
       /\ fs w' = fs (snd (Fs.open_append (sink_path H d w2) w2))
       /\ Fs.is_file (sink_path H d w2) (fs w') = true
       /\ exists old,
            root_handlers w'
            = (old ++ [(TimedRotatingFile (sink_path H d w2),
                        Some (Formatter_init (LOGGING_VERSION w2) (Path.stem d) session_id
                                LOGFORMAT DATEFORMAT))])%list
            /\ map attached old = map attached (root_handlers w2))
  /\ (forall d t f,
        In f (selected d "\.log" t)
        <-> In f (Fs.children d t) /\ exists a b, f = a ++ ".log" ++ b)
  /\ (forall w content d,
        ascii_text content = true ->
        ALLOW_LOG_COLLECTION H = true ->
        Fs.is_dir (log_root H) (fs w) = true ->
        Fs.lookup (sentinel H) (fs w) = Some (File content) ->
        d = Path.joinpath (log_root H) (Py.rstrip (Fs.first_line content)) ->
        absolute_directory d = true ->
        Fs.is_dir d (fs w) = true ->
        Fs.is_dir (Path.joinpath d "archive") (fs w) = true ->
        (forall f, In f (selected d "\.log" (fs w)) ->
           Fs.is_file f (fs w) = true
           /\ s3_upload_file H f BUCKET (FOLDER_NAME ++ "/" ++ Path.name f) = None
           /\ Fs.is_dir (Path.joinpath (Path.joinpath d "archive") (Path.name f)) (fs w)
              = false) ->
        exists w',
          setup_file_logger H session_id w = (inl tt, w')
          /\ uploaded w' = (uploaded w ++ map object_of (selected d "\.log" (fs w)))%list
          /\ LOGGING_FILE w' = Some (sink_path H d w)
          /\ Fs.lookup (sink_path H d w) (fs w') = Some (File EmptyString)
          /\ (forall f, In f (selected d "\.log" (fs w)) ->
                (f <> sink_path H d w -> Fs.lookup f (fs w') = None)
                /\ Fs.lookup (Path.joinpath (Path.joinpath d "archive") (Path.name f)) (fs w')
                   = Fs.lookup f (fs w))
          /\ (forall p,
                p <> sink_path H d w ->
                (forall f, In f (selected d "\.log" (fs w)) ->
                   p <> f /\ p <> Path.joinpath (Path.joinpath d "archive") (Path.name f)) ->
                Fs.lookup p (fs w') = Fs.lookup p (fs w))
          /\ exists old,
               root_handlers w'
               = (old ++ [(TimedRotatingFile (sink_path H d w),
                           Some (Formatter_init (LOGGING_VERSION w) (Path.stem d) session_id
                                   LOGFORMAT DATEFORMAT))])%list
               /\ map attached old = map attached (root_handlers w)).
Proof.
  split; [|split].
  - unfold setup_file_logger. intros w w' E.
    apply bind_returns in E as (d & w1 & E1 & E).
    apply bind_returns in E as ([] & w2 & E2 & E).
    exists d, w1, w2. split; [exact E1|]. split; [exact E2|].
    split.
    { intros Hc file Hf Hlog.
      apply (upload_archive_sends H d "\.log" w1 w2 Hc E2 file Hf).
      now apply found_dot_log. }
    split.
    { intros x Hin.
      destruct (upload_archive_uploads H d "\.log" w1 w2 E2 x Hin)
        as [Hin'|(file & Hx & Hm & Hp & He)]; [now left|].
      right. apply found_dot_log in Hm as (a & b & Hab).
      exists file, a, b. repeat split; assumption. }
    revert E. run. fold (sink_path H d w2). unfold Fs.open_append.
    destruct (append_text_cases (sink_path H d w2) EmptyString w2)
      as [(t & Ea & Hfile)|(e & Ea)].
    + erewrite bind_inl; [|apply append_text_same_fs with (w := w2); [reflexivity|exact Ea]].
      run. intros E. injection E as <-.
      cbn [uploaded LOGGING_FILE fs root_handlers LOGGING_VERSION set_fs set_journal
             set_LOGGING_FILE set_clock_reads set_root_handlers snd].
      rewrite Ea. cbn [snd fs set_fs].
      split; [reflexivity|]. split; [reflexivity|]. split; [reflexivity|].
      split; [exact Hfile|]. exists (root_handlers w2). now split.
    + erewrite bind_inr; [|apply append_text_same_fs_fails with (w := w2); [reflexivity|exact Ea]].
      intros E. discriminate E.
  - intros d t f. rewrite selected_iff, found_dot_log. reflexivity.
  - intros w content d _. apply setup_file_logger_run.
Qed.

Lemma preflight_then_sink_witness :
  ascii_text ("7d9f4c1e-0000-4000-8000-000000000001" ++ Py.chr Py.LF) = true
  /\ ALLOW_LOG_COLLECTION (sample_host true accepting_store) = true
  /\ Fs.is_dir (log_root (sample_host true accepting_store)) (fs (world_on earlier_session_disk))
     = true
  /\ Fs.lookup (sentinel (sample_host true accepting_store)) (fs (world_on earlier_session_disk))
     = Some (File ("7d9f4c1e-0000-4000-8000-000000000001" ++ Py.chr Py.LF))
  /\ sample_session_dir
     = Path.joinpath (log_root (sample_host true accepting_store))
         (Py.rstrip (Fs.first_line ("7d9f4c1e-0000-4000-8000-000000000001" ++ Py.chr Py.LF)))
  /\ absolute_directory sample_session_dir = true
  /\ Fs.is_dir sample_session_dir (fs (world_on earlier_session_disk)) = true
  /\ Fs.is_dir (Path.joinpath sample_session_dir "archive") (fs (world_on earlier_session_disk))
     = true
  /\ selected sample_session_dir "\.log" (fs (world_on earlier_session_disk)) = [earlier_log]
  /\ exists w',
       setup_file_logger (sample_host true accepting_store) "1700000000"
         (world_on earlier_session_disk) = (inl tt, w')
       /\ uploaded w'
          = (uploaded (world_on earlier_session_disk)
             ++ map object_of
                  (selected sample_session_dir "\.log" (fs (world_on earlier_session_disk))))%list
       /\ LOGGING_FILE w'
          = Some (sink_path (sample_host true accepting_store) sample_session_dir
                    (world_on earlier_session_disk))
       /\ Fs.lookup (sink_path (sample_host true accepting_store) sample_session_dir
                       (world_on earlier_session_disk)) (fs w')
          = Some (File EmptyString)
       /\ (forall f,
             In f (selected sample_session_dir "\.log" (fs (world_on earlier_session_disk))) ->
             (f <> sink_path (sample_host true accepting_store) sample_session_dir
                     (world_on earlier_session_disk) ->
              Fs.lookup f (fs w') = None)
             /\ Fs.lookup (Path.joinpath (Path.joinpath sample_session_dir "archive")
                             (Path.name f)) (fs w')
                = Fs.lookup f (fs (world_on earlier_session_disk)))
       /\ (forall p,
             p <> sink_path (sample_host true accepting_store) sample_session_dir
                    (world_on earlier_session_disk) ->
             (forall f,
                In f (selected sample_session_dir "\.log" (fs (world_on earlier_session_disk))) ->
                p <> f
                /\ p <> Path.joinpath (Path.joinpath sample_session_dir "archive") (Path.name f)) ->
             Fs.lookup p (fs w') = Fs.lookup p (fs (world_on earlier_session_disk)))
       /\ exists old,
            root_handlers w'
            = (old ++ [(TimedRotatingFile
                          (sink_path (sample_host true accepting_store) sample_session_dir
                             (world_on earlier_session_disk)),
                        Some (Formatter_init (LOGGING_VERSION (world_on earlier_session_disk))
                                (Path.stem sample_session_dir) "1700000000"
                                LOGFORMAT DATEFORMAT))])%list
            /\ map attached old = map attached (root_handlers (world_on earlier_session_disk)).
Proof.
  assert (Sel : selected sample_session_dir "\.log" (fs (world_on earlier_session_disk))
                = [earlier_log]) by (vm_compute; reflexivity).
  split; [vm_compute; reflexivity|]. split; [reflexivity|].
  split; [vm_compute; reflexivity|]. split; [vm_compute; reflexivity|].
  split; [vm_compute; reflexivity|]. split; [reflexivity|].
  split; [vm_compute; reflexivity|]. split; [vm_compute; reflexivity|].
  split; [exact Sel|].
  destruct (preflight_then_sink (sample_host true accepting_store) "1700000000")
    as (_ & _ & Run).
  apply (Run (world_on earlier_session_disk)
             ("7d9f4c1e-0000-4000-8000-000000000001" ++ Py.chr Py.LF) sample_session_dir).
  - vm_compute; reflexivity.
  - reflexivity.
  - vm_compute; reflexivity.
  - vm_compute; reflexivity.
  - vm_compute; reflexivity.
  - reflexivity.
  - vm_compute; reflexivity.
  - vm_compute; reflexivity.
  - rewrite Sel. intros f [<-|[]].
    split; [vm_compute; reflexivity|]. split; [reflexivity|]. vm_compute; reflexivity.
Defined.

(** C3 as stated fails: the session directory holds [1699990000.log], the
    file of an earlier session that was never rotated (the rotation pattern
    is not found in its path); the start-up run uploads it and moves it into
    [archive/]. *)
Lemma preflight_takes_unrotated_files :
  found default_log_filter earlier_log = false
  /\ Fs.is_file earlier_log (fs (world_on earlier_session_disk)) = true
  /\ exists w',
       setup_file_logger (sample_host true accepting_store) "1700000000"
         (world_on earlier_session_disk) = (inl tt, w')
       /\ uploaded w' = [object_of earlier_log]
       /\ Fs.exists_ earlier_log (fs w') = false
       /\ Fs.is_file (sample_session_dir ++ "/archive/1699990000.log") (fs w') = true.
Proof.
  split; [vm_compute; reflexivity|]. split; [vm_compute; reflexivity|].
  exists (snd (setup_file_logger (sample_host true accepting_store) "1700000000"
                 (world_on earlier_session_disk))).
  split; [vm_compute; reflexivity|]. split; [vm_compute; reflexivity|].
  split; vm_compute; reflexivity.
Qed.

(** ** The identity the file handler shows *)

Lemma stem_of_uuid_text d id :
  d <> EmptyString -> all_chars is_uuid_char id = true -> id <> EmptyString ->
  Path.stem (Path.joinpath d id) = id.
Proof.
  intros Hd Hid Hne. rewrite (joinpath_uuid_text d id Hid Hne).
  unfold Path.stem.
  rewrite (name_join d id (all_chars_not_contains is_uuid_char "/" id eq_refl Hid)).
  now rewrite (rsplit_none "." id (all_chars_not_contains is_uuid_char "." id eq_refl Hid)).
Qed.

Lemma rsplit_last sep a b :
  Py.contains sep b = false -> Path.rsplit sep (a ++ String sep b) = Some (a, b).
Proof.
  intros Hb. induction a as [|c a IH]; simpl.
  - now rewrite (rsplit_none _ _ Hb), Ascii.eqb_refl.
  - now rewrite IH.
Qed.

Lemma stem_of_dotted_text d a b :
  Py.contains "/" (a ++ String "." b) = false ->
  a <> EmptyString -> b <> EmptyString -> Py.contains "." b = false ->
  Path.stem (Path.joinpath d (a ++ String "." b)) = a.
Proof.
  intros Hs Ha Hb Hdot.
  assert (J : Path.joinpath d (a ++ String "." b) = d ++ String "/" (a ++ String "." b)).
  { destruct a as [|c a]; [now elim Ha|]. unfold Path.joinpath. cbn [append].
    cbn [append Py.contains] in Hs. apply orb_false_iff in Hs as [Hc _]. now rewrite Hc. }
  rewrite J. unfold Path.stem. rewrite (name_join d _ Hs), (rsplit_last "." a b Hdot).
  destruct a; [now elim Ha|]. destruct b; [now elim Hb|reflexivity].
Qed.

(** X23: whenever [setup_file_logger] returns, the handler it has added
    shows the stem of the session directory as identity, not the identity of
    the settings: for an identity of UUID characters the two are the same;
    for an identity with a dot (and no slash) the handler shows the part
    before the last dot. *)
Theorem file_handler_identity H session_id w w' :
  setup_file_logger H session_id w = (inl tt, w') ->
  exists filename id,
    LOGGING_ID w' = Some id
    /\ LOGGING_FILE w' = Some filename
    /\ root_handlers w'
       = (root_handlers w
          ++ [(TimedRotatingFile filename,
               Some (Formatter_init (LOGGING_VERSION w)
                       (Path.stem (Path.joinpath (log_root H) id))
                       session_id LOGFORMAT DATEFORMAT))])%list
    /\ (all_chars is_uuid_char id = true -> id <> EmptyString ->
        Path.stem (Path.joinpath (log_root H) id) = id)
    /\ (forall a b,
          id = a ++ String "." b -> Py.contains "/" id = false ->
          a <> EmptyString -> b <> EmptyString -> Py.contains "." b = false ->
          Path.stem (Path.joinpath (log_root H) id) = a).
Proof.
  intros E. apply setup_file_logger_handler in E as (filename & A & _ & _ & F & _ & id & I & P).
  exists filename, id. split; [exact I|]. split; [exact F|].
  split; [now rewrite <- P|]. split.
  - intros Hid Hne. apply stem_of_uuid_text; [apply log_root_not_empty|assumption..].
  - intros a b -> Hs Ha Hb Hdot. now apply stem_of_dotted_text.
Qed.

Lemma file_handler_identity_witness :
  setup_file_logger (sample_host false accepting_store) "1700000000"
    (world_on dotted_sentinel_disk)
  = (inl tt, snd (setup_file_logger (sample_host false accepting_store) "1700000000"
                    (world_on dotted_sentinel_disk)))
  /\ exists filename id,
       LOGGING_ID (snd (setup_file_logger (sample_host false accepting_store) "1700000000"
                          (world_on dotted_sentinel_disk))) = Some id
       /\ LOGGING_FILE (snd (setup_file_logger (sample_host false accepting_store) "1700000000"
                               (world_on dotted_sentinel_disk))) = Some filename
       /\ root_handlers (snd (setup_file_logger (sample_host false accepting_store) "1700000000"
                                (world_on dotted_sentinel_disk)))
          = (root_handlers (world_on dotted_sentinel_disk)
             ++ [(TimedRotatingFile filename,
                  Some (Formatter_init (LOGGING_VERSION (world_on dotted_sentinel_disk))
                          (Path.stem (Path.joinpath (log_root (sample_host false accepting_store))
                                        id))
                          "1700000000" LOGFORMAT DATEFORMAT))])%list
       /\ (all_chars is_uuid_char id = true -> id <> EmptyString ->
           Path.stem (Path.joinpath (log_root (sample_host false accepting_store)) id) = id)
       /\ (forall a b,
             id = a ++ String "." b -> Py.contains "/" id = false ->
             a <> EmptyString -> b <> EmptyString -> Py.contains "." b = false ->
             Path.stem (Path.joinpath (log_root (sample_host false accepting_store)) id) = a).
Proof.
  split; [vm_compute; reflexivity|].
  apply (file_handler_identity (sample_host false accepting_store) "1700000000"
           (world_on dotted_sentinel_disk)
           (snd (setup_file_logger (sample_host false accepting_store) "1700000000"
                   (world_on dotted_sentinel_disk)))).
  vm_compute; reflexivity.
Defined.

(** With the sentinel [host.local] the settings hold the identity as it is
    written, and the handler of the file shows [host]. *)
Example handler_of_a_dotted_identity :
  LOGGING_ID (snd (setup_file_logger (sample_host false accepting_store) "1700000000"
                     (world_on dotted_sentinel_disk))) = Some "host.local"
  /\ root_handlers (snd (setup_file_logger (sample_host false accepting_store) "1700000000"
                           (world_on dotted_sentinel_disk)))
     = [ (TimedRotatingFile "/opt/gst/logs/host.local/1700000000.log",
          Some (Formatter_init "ver:1.0.0" "host" "1700000000" LOGFORMAT DATEFORMAT)) ].
Proof. split; vm_compute; reflexivity. Qed.

(** ** When [setup_logging] raises *)

Lemma attach_handler_keeps_handlers H T id a_handler :
  keeps handlers_kept (attach_handler H T id a_handler).
Proof.
  intros w. destruct (attach_handler H T id a_handler w) as [[[]|e] w'] eqn:E.
  - apply attach_handler_returns in E as (_ & _ & hs & R & _). now exists hs.
  - revert E. unfold attach_handler.
    destruct (String.eqb a_handler "stdout"); [discriminate|].
    destruct (String.eqb a_handler "stderr"); [discriminate|].
    destruct (String.eqb a_handler "noop"); [discriminate|].
    destruct (String.eqb a_handler "file"); [|discriminate].
    unfold setup_file_logger. intros E.
    assert (G : keeps (same root_handlers) (get_log_dir H))
      by (apply same_get_log_dir; reflexivity).
    apply bind_raises in E as [E|(d & w1 & E1 & E)].
    { exists []. rewrite app_nil_r. specialize (G w). now rewrite E in G. }
    specialize (G w). rewrite E1 in G. cbn [snd] in G. unfold same in G.
    assert (U : keeps (same root_handlers) (upload_archive_logs_s3 H (Some d) "\.log"))
      by (apply same_upload_archive_in; reflexivity).
    apply bind_raises in E as [E|([] & w2 & E2 & E)].
    { exists []. rewrite app_nil_r. specialize (U w1). rewrite E in U.
      cbn [snd] in *. unfold same in U. congruence. }
    specialize (U w1). rewrite E2 in U. cbn [snd] in U. unfold same in U.
    revert E. run. unfold Fs.open_append.
    match goal with |- context [bind (Fs.append_text ?p ?t) _ ?W] =>
      destruct (append_text_cases p t W) as [(t' & Ea & _)|(e' & Ea)] end.
    + rewrite (bind_inl _ Ea). run. discriminate.
    + rewrite (bind_inr _ Ea). intros E. injection E as <- <-.
      exists []. rewrite app_nil_r.
      cbn [snd root_handlers set_journal set_LOGGING_FILE set_clock_reads]. congruence.
Qed.

(** X24: whenever [setup_logging] raises, the levels of [requests] and
    [urllib3] are as before the call, and the handlers the root logger had
    are still there, followed by those the call attached before it failed:
    the configuration is not undone. *)
Theorem setup_logging_raises H w e w' :
  setup_logging H w = (inr e, w') ->
  Py.dict_get "requests" (levels w') = Py.dict_get "requests" (levels w)
  /\ Py.dict_get "urllib3" (levels w') = Py.dict_get "urllib3" (levels w)
  /\ exists hs, root_handlers w' = (root_handlers w ++ hs)%list.
Proof.
  unfold setup_logging. run.
  destruct (verbosity_terminal (LOGGING_VERBOSITY H)) as [t|]; cbn [or_overflow].
  2:{ intros E. injection E as <- <-. cbn [levels root_handlers set_clock_reads].
      repeat split. exists []. now rewrite app_nil_r. }
  run.
  destruct (verbosity_libraries (LOGGING_VERBOSITY H)) as [l|]; cbn [or_overflow].
  2:{ intros E. injection E as <- <-. cbn [levels root_handlers set_clock_reads].
      repeat split. exists []. now rewrite app_nil_r. }
  run. intros E.
  apply bind_raises in E as [E|([] & w1 & E1 & E)].
  { revert E. unfold basicConfig, setLevel. run. destruct (negb _); discriminate. }
  assert (B1 : Py.dict_get "requests" (levels w1) = Py.dict_get "requests" (levels w)
               /\ Py.dict_get "urllib3" (levels w1) = Py.dict_get "urllib3" (levels w)
               /\ root_handlers w1 = root_handlers w).
  { revert E1. unfold basicConfig, setLevel. run.
    destruct (negb _); cbn [when]; intros E1; injection E1 as <-;
      cbn [levels root_handlers set_levels set_clock_reads];
      rewrite ?dict_get_set_other by discriminate; repeat split. }
  destruct B1 as (Q1 & L1 & R1).
  assert (G : forall X (f : world -> X),
             (forall x v, f (set_LOGGING_VERSION x v) = f v) ->
             f (snd (get_commit_hash H w1)) = f w1).
  { intros X f Hf. apply (same_get_commit_hash X f Hf H w1). }
  apply bind_raises in E as [E|([] & w2 & E2 & E)].
  { pose proof (G _ levels ltac:(reflexivity)) as GL.
    pose proof (G _ root_handlers ltac:(reflexivity)) as GR.
    rewrite E in GL, GR. cbn [snd] in GL, GR. rewrite GL, GR, R1.
    split; [exact Q1|]. split; [exact L1|]. apply handlers_kept_refl. }
  pose proof (G _ levels ltac:(reflexivity)) as GL.
  pose proof (G _ root_handlers ltac:(reflexivity)) as GR.
  rewrite E2 in GL, GR. cbn [snd] in GL, GR.
  apply bind_raises in E as [E|([] & w3 & E3 & E)].
  { assert (AL : keeps (same levels)
                   (for_each (split "," (LOGGING_HANDLERS H))
                      (attach_handler H (clock H (clock_reads w))
                         match LOGGING_ID w with Some i => i | None => EmptyString end))).
    { apply keeps_for_each; [apply same_refl|apply same_trans|].
      intros x. apply same_attach_handler; reflexivity. }
    assert (AR : keeps handlers_kept
                   (for_each (split "," (LOGGING_HANDLERS H))
                      (attach_handler H (clock H (clock_reads w))
                         match LOGGING_ID w with Some i => i | None => EmptyString end))).
    { apply keeps_for_each; [apply handlers_kept_refl|apply handlers_kept_trans|].
      intros x. apply attach_handler_keeps_handlers. }
    specialize (AL w2). specialize (AR w2). rewrite E in AL, AR. cbn [snd] in AL, AR.
    unfold same in AL. rewrite AL, GL. split; [exact Q1|]. split; [exact L1|].
    destruct AR as [hs AR]. exists hs. rewrite AR. congruence. }
  revert E. unfold library_loggers, setLevel. run. discriminate.
Qed.

Lemma setup_logging_raises_witness :
  setup_logging (sample_host true failing_store) (world_on rotated_disk)
  = (inr (S3Error "Failed to upload a.log.2023-01-01_00"),
     snd (setup_logging (sample_host true failing_store) (world_on rotated_disk)))
  /\ Py.dict_get "requests"
       (levels (snd (setup_logging (sample_host true failing_store) (world_on rotated_disk))))
     = Py.dict_get "requests" (levels (world_on rotated_disk))
  /\ Py.dict_get "urllib3"
       (levels (snd (setup_logging (sample_host true failing_store) (world_on rotated_disk))))
     = Py.dict_get "urllib3" (levels (world_on rotated_disk))
  /\ exists hs,
       root_handlers (snd (setup_logging (sample_host true failing_store) (world_on rotated_disk)))
       = (root_handlers (world_on rotated_disk) ++ hs)%list.
Proof.
  split; [vm_compute; reflexivity|].
  apply (setup_logging_raises (sample_host true failing_store) (world_on rotated_disk)
           (S3Error "Failed to upload a.log.2023-01-01_00")
           (snd (setup_logging (sample_host true failing_store) (world_on rotated_disk)))).
  vm_compute; reflexivity.
Defined.

(** The sample setting [stdout,file] with a transfer that fails at start-up:
    the stream handler is attached, the file handler is not, no file of the
    session is named, and the rotated files are where they were. *)
Example setup_logging_stopped_by_the_upload :
  root_handlers (snd (setup_logging (sample_host true failing_store) (world_on rotated_disk)))
  = [ (StreamStdout,
       Some (Formatter_init "ver:1.0.0" "" "1700000000" LOGFORMAT DATEFORMAT)) ]
  /\ LOGGING_FILE (snd (setup_logging (sample_host true failing_store) (world_on rotated_disk)))
     = None
  /\ Fs.is_file rotated_a
       (fs (snd (setup_logging (sample_host true failing_store) (world_on rotated_disk))))
     = true
  /\ uploaded (snd (setup_logging (sample_host true failing_store) (world_on rotated_disk)))
     = [].
Proof. repeat split; vm_compute; reflexivity. Qed.

(** ** From the setting to the line *)

(** X25: whenever [setup_logging] returns, every handler it has added
    renders every record without raising: the line is the prefix with the
    level character of the record, the final version of the settings, the
    identity the handler shows and the start time of the call as session,
    followed by the line of the base class, on one line when the record
    carries exception text. *)
Theorem attached_handlers_render (strftime : string -> Z -> string) H w w' :
  setup_logging H w = (inl tt, w') ->
  exists hs,
    root_handlers w' = (root_handlers w ++ hs)%list
    /\ forall s f r,
         In (s, f) hs ->
         exists fm,
           f = Some fm
           /\ fst (fst (format strftime fm r))
              = Some (prefix_of (level_char r) (LOGGING_VERSION w')
                        (shown_identity (entry_identity w) s)
                        (Py.str_int (clock H (clock_reads w)))
                      ++ (if carries_exception r then one_line (base_line strftime r)
                          else base_line strftime r)).
Proof.
  unfold setup_logging. run.
  destruct (verbosity_terminal (LOGGING_VERBOSITY H)) as [t|]; [|discriminate].
  destruct (verbosity_libraries (LOGGING_VERBOSITY H)) as [l|]; [|discriminate].
  cbn [or_overflow]. run. intros E.
  apply bind_returns in E as ([] & w1 & E1 & E).
  apply bind_returns in E as ([] & w2 & E2 & E).
  apply bind_returns in E as ([] & w3 & E3 & E).
  assert (R1 : root_handlers w1 = root_handlers w).
  { revert E1. unfold basicConfig, setLevel. run.
    destruct (negb _); cbn [when]; intros E1; injection E1 as <-; reflexivity. }
  assert (R2 : root_handlers w2 = root_handlers w1).
  { pose proof (same_get_commit_hash _ root_handlers ltac:(reflexivity) H w1) as A.
    now rewrite E2 in A. }
  apply attach_handlers_return in E3 as (V3 & _ & hs & R3 & _ & C3).
  revert E. unfold library_loggers, setLevel. run. intros E. injection E as <-.
  cbn [root_handlers LOGGING_VERSION set_levels set_journal].
  exists hs. split; [congruence|].
  intros s f r Hin. pose proof (C3 s f Hin) as Ef. rewrite <- V3 in Ef.
  eexists. split; [exact Ef|].
  match goal with
  | |- context [format _ (Formatter_init ?v ?i ?s _ _) r] =>
      change (Formatter_init v i s LOGFORMAT DATEFORMAT) with (formatter_with v i s None)
  end.
  rewrite format_closed. reflexivity.
Qed.

Lemma attached_handlers_render_witness :
  setup_logging (sample_host true accepting_store) (world_on fresh_disk)
  = (inl tt, snd (setup_logging (sample_host true accepting_store) (world_on fresh_disk)))
  /\ exists hs,
       root_handlers (snd (setup_logging (sample_host true accepting_store) (world_on fresh_disk)))
       = (root_handlers (world_on fresh_disk) ++ hs)%list
       /\ forall s f r,
            In (s, f) hs ->
            exists fm,
              f = Some fm
              /\ fst (fst (format sample_strftime fm r))
                 = Some (prefix_of (level_char r)
                           (LOGGING_VERSION (snd (setup_logging (sample_host true accepting_store)
                                                    (world_on fresh_disk))))
                           (shown_identity (entry_identity (world_on fresh_disk)) s)
                           (Py.str_int (clock (sample_host true accepting_store)
                                          (clock_reads (world_on fresh_disk))))
                         ++ (if carries_exception r then one_line (base_line sample_strftime r)
                             else base_line sample_strftime r)).
Proof.
  split; [vm_compute; reflexivity|].
  apply (attached_handlers_render sample_strftime (sample_host true accepting_store)
           (world_on fresh_disk)
           (snd (setup_logging (sample_host true accepting_store) (world_on fresh_disk)))).
  vm_compute; reflexivity.
Defined.

(** ** One record, several handlers *)

(** X26: a record that one handler has formatted and a second handler,
    with another context, formats next: the second line has the same level
    character and the same text after the prefix as the first, under the
    prefix of the second context, and the second call leaves the record as
    the first call left it. *)
Theorem format_shared_record (strftime : string -> Z -> string) v1 i1 s1 lo1 v2 i2 s2 lo2 r :
  exists line,
    fst (fst (format strftime (formatter_with v1 i1 s1 lo1) r))
    = Some (prefix_of (level_char r) v1 i1 s1 ++ line)
    /\ fst (fst (format strftime (formatter_with v2 i2 s2 lo2)
                   (snd (fst (format strftime (formatter_with v1 i1 s1 lo1) r)))))
       = Some (prefix_of (level_char r) v2 i2 s2 ++ line)
    /\ snd (fst (format strftime (formatter_with v2 i2 s2 lo2)
                   (snd (fst (format strftime (formatter_with v1 i1 s1 lo1) r)))))
       = snd (fst (format strftime (formatter_with v1 i1 s1 lo1) r)).
Proof.
  rewrite !format_closed. cbn [fst snd]. rewrite ?format_closed. cbn [fst snd].
  rewrite level_char_after, carries_exception_after, base_line_after, record_after_idem.
  eexists. repeat split.
Qed.
